(** * NBA_Ref_Tracker: the win-probability timeline and the foul export

    A shallow embedding of [src/npa.py].  The script works on the JSON
    document of a game summary, so the embedding starts with the Python values
    such a document is made of and the builtins the script calls on them, each
    with the exception it raises.  Strings are ASCII text.  A dict is an
    association list without repeated keys; lookup takes the first binding. *)

From Stdlib Require Import ZArith List String Ascii Floats Lia Bool.
From Stdlib Require Import DecimalString Sorting.Sorted Sorting.Permutation.
From stdpp Require Import base strings gmap sorting.
Import ListNotations.

Local Open Scope string_scope.
Local Open Scope Z_scope.

(** ** Python values *)

Local Unset Elimination Schemes.
Inductive pyval : Type :=
| PNone
| PBool (b : bool)
| PInt (n : Z)
| PFloat (f : float)
| PStr (s : string)
| PList (l : list pyval)
| PDict (d : list (string * pyval)).
Local Set Elimination Schemes.

(** The exception classes the script can meet.  A [ValueError] carries its
    message, since the script raises one of its own. *)
Inductive exn : Type :=
| ValueError (msg : string)
| TypeError
| AttributeError
| KeyError
| IndexError
| OverflowError.

Inductive res (A : Type) : Type :=
| Ok (a : A)
| Raise (e : exn).
Arguments Ok {A} a.
Arguments Raise {A} e.

(** [res] is a monad in stdpp's sense, which gives [x ← c; k]: run [c], stop
    at an exception, go on with [k] otherwise. *)
#[export] Instance res_bind : MBind res := fun A B k c =>
  match c with
  | Ok a => k a
  | Raise e => Raise e
  end.
#[export] Instance res_ret : MRet res := fun A a => Ok a.

(** A loop that fills a list, stopping at the first exception. *)
Fixpoint for_each {A B : Type} (f : A -> res B) (l : list A) : res (list B) :=
  match l with
  | [] => Ok []
  | a :: l' => b ← f a; bs ← for_each f l'; Ok (b :: bs)
  end.

Definition raises {A : Type} (c : res A) : Prop := exists e, c = Raise e.
Definition returns {A : Type} (c : res A) : Prop := exists a, c = Ok a.

(** ** Numbers *)

Definition nan : float := PrimFloat.nan.

(** [float(n)] for an int: the nearest double, ties to even; OverflowError
    when that is beyond the largest double, that is from 2^1024 - 2^970 on. *)
Definition float_of_Z (n : Z) : res float :=
  if Z.abs n <? 2 ^ 1024 - 2 ^ 970
  then Ok (SF2Prim (binary_normalize 53 1024 n 0 false))
  else Raise OverflowError.

(** [int(f)] for a float: truncation towards zero. *)
Definition Z_of_float (f : float) : res Z :=
  match Prim2SF f with
  | S754_zero _ => Ok 0
  | S754_infinity _ => Raise OverflowError
  | S754_nan => Raise (ValueError "cannot convert float NaN to integer")
  | S754_finite s m e =>
      let a := if 0 <=? e then Z.pos m * 2 ^ e else Z.pos m / 2 ^ (- e) in
      Ok (if s then - a else a)
  end.

(** The integer a float is exactly equal to, when there is one. *)
Definition float_exact_Z (f : float) : option Z :=
  match Prim2SF f with
  | S754_zero _ => Some 0
  | S754_finite s m e =>
      if 0 <=? e then Some ((if s then -1 else 1) * (Z.pos m * 2 ^ e))
      else if Z.pos m mod 2 ^ (- e) =? 0
           then Some ((if s then -1 else 1) * (Z.pos m / 2 ^ (- e)))
           else None
  | _ => None
  end.

(** The numeric tower of the arithmetic operators: bool is an int. *)
Inductive num : Type :=
| NInt (n : Z)
| NFloat (f : float).

Definition as_num (v : pyval) : option num :=
  match v with
  | PBool b => Some (NInt (if b then 1 else 0))
  | PInt n => Some (NInt n)
  | PFloat f => Some (NFloat f)
  | _ => None
  end.

Definition of_num (a : num) : pyval :=
  match a with
  | NInt n => PInt n
  | NFloat f => PFloat f
  end.

Definition num_float (a : num) : res float :=
  match a with
  | NInt n => float_of_Z n
  | NFloat f => Ok f
  end.

Definition num_arith (zop : Z -> Z -> Z) (fop : float -> float -> float)
    (a b : num) : res num :=
  match a, b with
  | NInt x, NInt y => Ok (NInt (zop x y))
  | _, _ => x ← num_float a; y ← num_float b; Ok (NFloat (fop x y))
  end.

Definition num_add := num_arith Z.add PrimFloat.add.
Definition num_sub := num_arith Z.sub PrimFloat.sub.
Definition num_mul := num_arith Z.mul PrimFloat.mul.

(** [a <= k] against a small int constant: exact in both towers. *)
Definition num_le_small (a : num) (k : Z) : bool :=
  match a with
  | NInt n => n <=? k
  | NFloat f => (f <=? SF2Prim (binary_normalize 53 1024 k 0 false))%float
  end.

(** ** Truth value, [or], dict access, iteration *)

Definition py_truthy (v : pyval) : bool :=
  match v with
  | PNone => false
  | PBool b => b
  | PInt n => negb (n =? 0)
  | PFloat f => negb (f =? 0)%float
  | PStr s => negb (String.eqb s EmptyString)
  | PList l => match l with [] => false | _ => true end
  | PDict d => match d with [] => false | _ => true end
  end.

Definition py_or (a b : pyval) : pyval := if py_truthy a then a else b.

Fixpoint dict_get (d : list (string * pyval)) (k : string) : option pyval :=
  match d with
  | [] => None
  | (k', v) :: d' => if String.eqb k' k then Some v else dict_get d' k
  end.

(** [v.get(k, default)]: only a dict has [get]. *)
Definition py_get_default (v : pyval) (k : string) (default : pyval) : res pyval :=
  match v with
  | PDict d => Ok (match dict_get d k with Some x => x | None => default end)
  | _ => Raise AttributeError
  end.

Definition py_get (v : pyval) (k : string) : res pyval := py_get_default v k PNone.

Fixpoint chars (s : string) : list pyval :=
  match s with
  | EmptyString => []
  | String c s' => PStr (String c EmptyString) :: chars s'
  end.

(** [for x in v]: a list gives its items, a dict its keys, a string its
    characters; nothing else is iterable. *)
Definition py_iter (v : pyval) : res (list pyval) :=
  match v with
  | PList l => Ok l
  | PDict d => Ok (map (fun kv => PStr (fst kv)) d)
  | PStr s => Ok (chars s)
  | _ => Raise TypeError
  end.

(** ** Strings *)

Definition lower_ascii (c : ascii) : ascii :=
  let n := nat_of_ascii c in
  if ((65 <=? n) && (n <=? 90))%nat then ascii_of_nat (n + 32) else c.

(** [s.lower()] *)
Fixpoint lower (s : string) : string :=
  match s with
  | EmptyString => EmptyString
  | String c s' => String (lower_ascii c) (lower s')
  end.

(** [needle in hay] *)
Fixpoint contains (needle hay : string) : bool :=
  String.prefix needle hay ||
  match hay with
  | EmptyString => false
  | String _ hay' => contains needle hay'
  end.

(** [s.split(sep)] for a separator of one character. *)
Fixpoint split_on (sep : ascii) (s : string) : list string :=
  match s with
  | EmptyString => [EmptyString]
  | String c s' =>
      if Ascii.eqb c sep then EmptyString :: split_on sep s'
      else match split_on sep s' with
           | [] => [String c EmptyString]
           | p :: ps => String c p :: ps
           end
  end.

Definition is_space (c : ascii) : bool :=
  let n := nat_of_ascii c in
  (((9 <=? n) && (n <=? 13)) || (n =? 32))%nat.

Definition digit_of (c : ascii) : option Z :=
  let n := nat_of_ascii c in
  if ((48 <=? n) && (n <=? 57))%nat then Some (Z.of_nat n - 48) else None.

Fixpoint lstrip (s : string) : string :=
  match s with
  | EmptyString => EmptyString
  | String c s' => if is_space c then lstrip s' else s
  end.

Fixpoint rstrip (s : string) : string :=
  match s with
  | EmptyString => EmptyString
  | String c s' =>
      match rstrip s' with
      | EmptyString => if is_space c then EmptyString else String c EmptyString
      | r => String c r
      end
  end.

(** Decimal digits, where one underscore may stand between two digits. *)
Fixpoint digits_from (s : string) (acc : Z) (after_digit : bool) : option Z :=
  match s with
  | EmptyString => if after_digit then Some acc else None
  | String c s' =>
      match digit_of c with
      | Some d => digits_from s' (10 * acc + d) true
      | None =>
          if Ascii.eqb c "_" && after_digit then digits_from s' acc false else None
      end
  end.

(** [int(s)] for a string: surrounding white space, a sign, digits; [None]
    stands for the ValueError of anything else.  The interpreter's optional
    limit on the number of digits is not applied. *)
Definition py_int_of_string (s : string) : option Z :=
  match rstrip (lstrip s) with
  | String "+" r => digits_from r 0 false
  | String "-" r => option_map Z.opp (digits_from r 0 false)
  | t => digits_from t 0 false
  end.

Definition str_of_Z (n : Z) : string := NilZero.string_of_int (Z.to_int n).

Fixpoint zeros (n : nat) : string :=
  match n with
  | O => EmptyString
  | S n' => String "0" (zeros n')
  end.

Fixpoint join (sep : string) (l : list string) : string :=
  match l with
  | [] => EmptyString
  | [s] => s
  | s :: l' => s +:+ sep +:+ join sep l'
  end.

(** *** [repr] of a float: the shortest decimal that reads back as the float *)

(** [a * 2^ea] against [d * 10^j], exactly. *)
Definition cmp_bin_dec (a ea d j : Z) : comparison :=
  (a * 2 ^ Z.max ea 0 * 10 ^ Z.max (- j) 0
   ?= d * 10 ^ Z.max j 0 * 2 ^ Z.max (- ea) 0).

(** The floor of [m * 2^e / 10^j]. *)
Definition floor_bin_dec (m e j : Z) : Z :=
  (m * 2 ^ Z.max e 0 * 10 ^ Z.max (- j) 0)
  / (2 ^ Z.max (- e) 0 * 10 ^ Z.max j 0).

(** The [k] with [10^k <= m * 2^e < 10^(k+1)], from an estimate. *)
Fixpoint settle_log10 (fuel : nat) (m e k : Z) : Z :=
  match fuel with
  | O => k
  | S fuel' =>
      match cmp_bin_dec m e 1 k with
      | Lt => settle_log10 fuel' m e (k - 1)
      | _ =>
          match cmp_bin_dec m e 1 (k + 1) with
          | Lt => k
          | _ => settle_log10 fuel' m e (k + 1)
          end
      end
  end.

Definition floor_log10 (m e : Z) : Z :=
  settle_log10 8 m e ((Z.log2 m + e) * 30103 / 100000).

(** Does [d * 10^j] round to the double [m * 2^e]?  The doubles next to it are
    half a unit away on each side (a quarter below a power of two), and the
    ends of that interval belong to it when [m] is even. *)
Definition reads_back (m e d j : Z) : bool :=
  let below := if (m =? 2 ^ 52) && (-1074 <? e) then 1 else 2 in
  let lo_ok := match cmp_bin_dec (4 * m - below) (e - 2) d j with
               | Lt => true | Eq => Z.even m | Gt => false end in
  let hi_ok := match cmp_bin_dec (4 * m + 2) (e - 2) d j with
               | Gt => true | Eq => Z.even m | Lt => false end in
  lo_ok && hi_ok.

(** Try [n], [n+1], ... significant digits; of the two candidates around the
    value the nearer one wins, the even one on a tie. *)
Fixpoint shortest_digits (fuel : nat) (n m e k : Z) : Z * Z :=
  let j := k - n + 1 in
  let lo := floor_bin_dec m e j in
  let hi := lo + 1 in
  match fuel with
  | O => (lo, j)
  | S fuel' =>
      match reads_back m e lo j, reads_back m e hi j with
      | true, true =>
          match cmp_bin_dec (2 * m) e (2 * lo + 1) j with
          | Lt => (lo, j)
          | Gt => (hi, j)
          | Eq => (if Z.even lo then lo else hi, j)
          end
      | true, false => (lo, j)
      | false, true => (hi, j)
      | false, false => shortest_digits fuel' (n + 1) m e k
      end
  end.

Fixpoint drop_zeros (fuel : nat) (d j : Z) : Z * Z :=
  match fuel with
  | O => (d, j)
  | S fuel' =>
      if (d mod 10 =? 0) && negb (d =? 0) then drop_zeros fuel' (d / 10) (j + 1)
      else (d, j)
  end.

Definition substring_from (n : nat) (s : string) : string :=
  String.substring n (String.length s - n) s.

(** The text of the digits [ds] with the decimal point before position
    [decpt]: plain for -4 < decpt <= 16, with an exponent otherwise. *)
Definition format_repr (ds : string) (decpt : Z) : string :=
  let n := Z.of_nat (String.length ds) in
  if (-4 <? decpt) && (decpt <=? 16) then
    if decpt <=? 0 then "0." +:+ zeros (Z.to_nat (- decpt)) +:+ ds
    else if decpt <? n then
      String.substring 0 (Z.to_nat decpt) ds +:+ "." +:+ substring_from (Z.to_nat decpt) ds
    else ds +:+ zeros (Z.to_nat (decpt - n)) +:+ ".0"
  else
    let x := decpt - 1 in
    let xs := str_of_Z (Z.abs x) in
    String.substring 0 1 ds
    +:+ (if 1 <? n then "." +:+ substring_from 1 ds else EmptyString)
    +:+ "e" +:+ (if x <? 0 then "-" else "+")
    +:+ (if Z.abs x <? 10 then "0" else EmptyString) +:+ xs.

Definition float_repr (f : float) : string :=
  match Prim2SF f with
  | S754_zero s => if s then "-0.0" else "0.0"
  | S754_infinity s => if s then "-inf" else "inf"
  | S754_nan => "nan"
  | S754_finite s m e =>
      let k := floor_log10 (Z.pos m) e in
      let '(d0, j0) := shortest_digits 17 1 (Z.pos m) e k in
      let '(d, j) := drop_zeros 20 d0 j0 in
      let ds := str_of_Z d in
      (if s then "-" else EmptyString) +:+ format_repr ds (j + Z.of_nat (String.length ds))
  end.

(** *** [repr] and [str] *)

Definition dquote : ascii := ascii_of_nat 34.

Definition hex_digit (n : nat) : ascii :=
  ascii_of_nat (if (n <? 10)%nat then 48 + n else 87 + n).

Definition escape_ascii (quote c : ascii) : string :=
  let n := nat_of_ascii c in
  if Ascii.eqb c "\" then "\\"
  else if Ascii.eqb c quote then String "\" (String c EmptyString)
  else if (n =? 10)%nat then "\n"
  else if (n =? 13)%nat then "\r"
  else if (n =? 9)%nat then "\t"
  else if ((n <? 32) || (126 <? n))%nat
       then String "\" (String "x" (String (hex_digit (n / 16))
              (String (hex_digit (n mod 16)) EmptyString)))
  else String c EmptyString.

Fixpoint escape (quote : ascii) (s : string) : string :=
  match s with
  | EmptyString => EmptyString
  | String c s' => escape_ascii quote c +:+ escape quote s'
  end.

(** [repr(s)]: single quotes, unless the text has one and no double quote. *)
Definition str_repr (s : string) : string :=
  let quote : ascii :=
    if contains "'" s && negb (contains (String dquote EmptyString) s)
    then dquote else "'"%char in
  String quote (escape quote s) +:+ String quote EmptyString.

Fixpoint py_repr (v : pyval) : string :=
  match v with
  | PNone => "None"
  | PBool b => if b then "True" else "False"
  | PInt n => str_of_Z n
  | PFloat f => float_repr f
  | PStr s => str_repr s
  | PList l => "[" +:+ join ", " (map py_repr l) +:+ "]"
  | PDict d =>
      "{" +:+ join ", " (map (fun kv => str_repr (fst kv) +:+ ": " +:+ py_repr (snd kv)) d)
      +:+ "}"
  end.

(** [str(v)] *)
Definition py_str (v : pyval) : string :=
  match v with
  | PStr s => s
  | _ => py_repr v
  end.

(** *** [==] *)

Definition num_eq (a b : num) : bool :=
  match a, b with
  | NInt x, NInt y => x =? y
  | NFloat x, NFloat y => (x =? y)%float
  | NInt x, NFloat y | NFloat y, NInt x =>
      match float_exact_Z y with
      | Some z => x =? z
      | None => false
      end
  end.

Definition keys_within (d1 d2 : list (string * pyval)) : bool :=
  forallb (fun kv => match dict_get d2 (fst kv) with Some _ => true | None => false end) d1.

(** [a == b]: numbers by value across bool, int and float, strings by text,
    lists item by item, dicts key by key; values of different kinds differ.
    (The shortcut by which a container equals itself is not modelled; it
    matters only for a NaN inside a container.) *)
Fixpoint py_eq (a b : pyval) : bool :=
  match a, b with
  | PNone, PNone => true
  | PStr s, PStr t => String.eqb s t
  | PList la, PList lb =>
      (fix items (la lb : list pyval) : bool :=
         match la, lb with
         | [], [] => true
         | x :: la', y :: lb' => py_eq x y && items la' lb'
         | _, _ => false
         end) la lb
  | PDict da, PDict db =>
      keys_within db da &&
      (fix entries (da : list (string * pyval)) : bool :=
         match da with
         | [] => true
         | (k, x) :: da' =>
             match dict_get db k with
             | Some y => py_eq x y && entries da'
             | None => false
             end
         end) da
  | _, _ =>
      match as_num a, as_num b with
      | Some x, Some y => num_eq x y
      | _, _ => false
      end
  end.

(** *** Operators on values *)

(** The ValueError of [int] on text that is not an int. *)
Definition invalid_literal : exn := ValueError "invalid literal for int() with base 10".

(** [a - b]: defined between numbers only. *)
Definition py_sub (a b : pyval) : res pyval :=
  match as_num a, as_num b with
  | Some x, Some y => r ← num_sub x y; Ok (of_num r)
  | _, _ => Raise TypeError
  end.

(** [v.lower()]: only a string has [lower]. *)
Definition py_lower (v : pyval) : res string :=
  match v with
  | PStr s => Ok (lower s)
  | _ => Raise AttributeError
  end.

(** [x or <c>], where the right operand is evaluated only when needed. *)
Definition or_else (x : pyval) (c : res pyval) : res pyval :=
  if py_truthy x then Ok x else c.

(** [v[0]]: a dict of a summary has text keys only, so 0 is not one. *)
Definition py_first (v : pyval) : res pyval :=
  match v with
  | PList (x :: _) => Ok x
  | PStr (String c _) => Ok (PStr (String c EmptyString))
  | PList [] | PStr EmptyString => Raise IndexError
  | PDict _ => Raise KeyError
  | _ => Raise TypeError
  end.

(** [int(v)] *)
Definition py_int (v : pyval) : res Z :=
  match v with
  | PBool b => Ok (if b then 1 else 0)
  | PInt n => Ok n
  | PFloat f => Z_of_float f
  | PStr s =>
      match py_int_of_string s with
      | Some n => Ok n
      | None => Raise invalid_literal
      end
  | _ => Raise TypeError
  end.

(** ** parse_game_time *)

(** The [try] block: [mins, secs = clock_str.split(":")] and
    [int(mins) * 60 + int(secs)].  [None] stands for any exception, since
    [except Exception] catches them all alike. *)
Definition clock_remaining (clock_str : pyval) : option Z :=
  match clock_str with
  | PStr text =>
      match split_on ":" text with
      | [mins; secs] =>
          m ← py_int_of_string mins; s ← py_int_of_string secs; Some (m * 60 + s)
      | _ => None
      end
  | _ => None
  end.

Definition parse_game_time (period clock_str : pyval) : res pyval :=
  match period, clock_str with
  | PNone, _ | _, PNone => Ok PNone
  | _, _ =>
      match clock_remaining clock_str with
      | None => Ok PNone
      | Some remaining =>
          match as_num period with
          | None => Raise TypeError
          | Some p =>
              if num_le_small p 4 then
                let period_len := 12 * 60 in
                d ← num_sub p (NInt 1);
                x ← num_mul d (NInt 12);
                prev_total ← num_mul x (NInt 60);
                let elapsed_in_period := period_len - remaining in
                r ← num_add prev_total (NInt elapsed_in_period);
                Ok (of_num r)
              else
                let period_len := 5 * 60 in
                d ← num_sub p (NInt 5);
                x ← num_mul d (NInt 5);
                y ← num_mul x (NInt 60);
                prev_total ← num_add (NInt (4 * 12 * 60)) y;
                let elapsed_in_period := period_len - remaining in
                r ← num_add prev_total (NInt elapsed_in_period);
                Ok (of_num r)
          end
      end
  end.

(** ** get_home_away_meta *)

(** The dict with the keys "id", "abbr", "name" and "short". *)
Record TeamMeta : Type := {
  m_id : pyval;
  m_abbr : pyval;
  m_name : pyval;
  m_short : pyval
}.

Definition team_meta (team : pyval) : res TeamMeta :=
  i ← py_get team "id";
  abbr ← py_get team "abbreviation";
  dn ← py_get team "displayName";
  name ← or_else dn (sdn ← py_get team "shortDisplayName";
                     or_else sdn (py_get team "name"));
  sdn ← py_get team "shortDisplayName";
  short ← or_else sdn (py_get team "abbreviation");
  Ok {| m_id := i; m_abbr := abbr; m_name := name; m_short := short |}.

Fixpoint competitors_loop (competitors : list pyval)
    (home away : option TeamMeta) : res (option TeamMeta * option TeamMeta) :=
  match competitors with
  | [] => Ok (home, away)
  | c :: rest =>
      t ← py_get c "team";
      meta ← team_meta (py_or t (PDict []));
      ha ← py_get c "homeAway";
      if py_eq ha (PStr "home") then competitors_loop rest (Some meta) away
      else
        ha' ← py_get c "homeAway";
        if py_eq ha' (PStr "away") then competitors_loop rest home (Some meta)
        else competitors_loop rest home away
  end.

Definition get_home_away_meta (data : pyval)
    : res (option TeamMeta * option TeamMeta) :=
  header ← py_get_default data "header" (PDict []);
  c0 ← py_get header "competitions";
  let comps := py_or c0 (PList []) in
  if negb (py_truthy comps) then Ok (None, None)
  else
    comp ← py_first comps;
    cs ← py_get comp "competitors";
    competitors ← py_iter (py_or cs (PList []));
    competitors_loop competitors None None.

(** ** build_wp_df_from_summary *)

(** The dict appended to [rows] for one win-probability sample. *)
Record RawRow : Type := {
  play_id : string;
  period : pyval;
  clock : pyval;
  home_score : pyval;
  away_score : pyval;
  home_win_prob : pyval;
  away_win_prob : pyval;
  description : pyval;
  team_id : pyval;
  team_abbr : pyval;
  team_name : pyval;
  primary_athlete_id : pyval;
  participants_raw : list string
}.

(** A row of the returned frame: the sample's dict and the added columns. *)
Record Row : Type := {
  raw :> RawRow;
  play_id_int : Z;
  elapsed : pyval;
  home_wp_before : pyval;
  away_wp_before : pyval;
  elapsed_before : pyval;
  period_before : pyval;
  clock_before : pyval
}.

Definition no_data_message (event_id : Z) : string :=
  "No win probability data for event " +:+ str_of_Z event_id.

(** [{str(p.get("id")): p for p in plays}]: a later play replaces an earlier
    one with the same key. *)
Definition index_plays (plays : list pyval) : res (gmap string pyval) :=
  kvs ← for_each (fun p => i ← py_get p "id"; Ok (py_str i, p)) plays;
  Ok (foldl (fun (m : gmap string pyval) kv => <[kv.1 := kv.2]> m) ∅ kvs).

(** The inner loop over [participants]. *)
Fixpoint athlete_ids_loop (participants : list pyval) : res (list string) :=
  match participants with
  | [] => Ok []
  | p :: rest =>
      a ← py_get p "athlete";
      aid ← py_get (py_or a (PDict [])) "id";
      ids ← athlete_ids_loop rest;
      Ok (match aid with
          | PNone => ids
          | _ => py_str aid :: ids
          end)
  end.

(** The body of [for w in wp]. *)
Definition wp_row (plays_by_id : gmap string pyval) (w : pyval) : res RawRow :=
  i ← py_get w "playId";
  let pid := py_str i in
  let play := default (PDict []) (plays_by_id !! pid) in
  home_wp ← py_get w "homeWinPercentage";
  t ← py_get_default w "tiePercentage" (PFloat 0);
  let tie_wp := py_or t (PFloat 0) in
  away_wp ← match home_wp with
            | PNone => Ok PNone
            | _ => x ← py_sub (PFloat 1) (py_or home_wp (PFloat 0)); py_sub x tie_wp
            end;
  p ← py_get play "period";
  period ← py_get (py_or p (PDict [])) "number";
  c ← py_get play "clock";
  clock ← py_get (py_or c (PDict [])) "displayValue";
  home_score ← py_get play "homeScore";
  away_score ← py_get play "awayScore";
  tm ← py_get play "team";
  let team := py_or tm (PDict []) in
  ab ← py_get team "abbreviation";
  team_abbr ← or_else ab (py_get team "shortDisplayName");
  team_id ← py_get team "id";
  dn ← py_get team "displayName";
  team_name ← or_else dn (sdn ← py_get team "shortDisplayName";
                          or_else sdn (nm ← py_get team "name";
                                       or_else nm (Ok team_abbr)));
  ps ← py_get play "participants";
  participants ← py_iter (py_or ps (PList []));
  athlete_ids ← athlete_ids_loop participants;
  text ← py_get play "text";
  Ok {| play_id := pid;
        period := period;
        clock := clock;
        home_score := home_score;
        away_score := away_score;
        home_win_prob := home_wp;
        away_win_prob := away_wp;
        description := text;
        team_id := team_id;
        team_abbr := team_abbr;
        team_name := team_name;
        primary_athlete_id := match athlete_ids with
                              | a :: _ => PStr a
                              | [] => PNone
                              end;
        participants_raw := athlete_ids |}.

(** *** The frame operations

    A frame is the list of its rows.  A cell holds the Python value put in
    it: the column types of pandas (an int column with a gap becoming floats,
    [None] becoming NaN there) are not modelled.  A missing cell is [None] or
    NaN, and [pd.isna] takes both. *)

(** [astype("int64")] on one text cell: [int] of the text, within 64 bits. *)
Definition astype_int64 (s : string) : res Z :=
  match py_int_of_string s with
  | None => Raise invalid_literal
  | Some n =>
      if (- 2 ^ 63 <=? n) && (n <? 2 ^ 63) then Ok n else Raise OverflowError
  end.

Definition by_key (a b : RawRow * Z) : Prop := a.2 ≤ b.2.

#[export] Instance by_key_dec : RelDecision by_key.
Proof. intros a b. unfold by_key. apply _. Defined.

(** [sort_values("play_id_int")]: ascending by the key.  The order pandas
    leaves among equal keys is its sort's own; here it is merge sort's. *)
Definition sort_values (keyed : list (RawRow * Z)) : list (RawRow * Z) :=
  merge_sort by_key keyed.

(** [column.shift(1)]: every cell moves down one row, the first becomes NaN
    and the last is dropped. *)
Definition shift1 (col : list pyval) : list pyval :=
  match col with
  | [] => []
  | _ => PFloat nan :: removelast col
  end.

Definition cell (col : list pyval) (i : nat) : pyval := nth i col (PFloat nan).

(** The first half of the function: the guard, the index of the plays and
    the loop that fills [rows]. *)
Definition sample_rows (event_id : Z) (data : pyval) : res (list RawRow) :=
  wp ← py_get data "winprobability";
  if negb (py_truthy wp) then Raise (ValueError (no_data_message event_id))
  else
    plays ← py_get_default data "plays" (PList []);
    plays_list ← py_iter plays;
    plays_by_id ← index_plays plays_list;
    samples ← py_iter wp;
    for_each (wp_row plays_by_id) samples.

(** The five [shift(1)] columns, and the rows of the finished frame. *)
Definition with_before (df : list (RawRow * Z)) (elapsed_col : list pyval)
    : list Row :=
  let home_wp_before := shift1 (map (fun r => home_win_prob r.1) df) in
  let away_wp_before := shift1 (map (fun r => away_win_prob r.1) df) in
  let elapsed_before := shift1 elapsed_col in
  let period_before := shift1 (map (fun r => period r.1) df) in
  let clock_before := shift1 (map (fun r => clock r.1) df) in
  imap (fun i r =>
          {| raw := r.1;
             play_id_int := r.2;
             elapsed := cell elapsed_col i;
             home_wp_before := cell home_wp_before i;
             away_wp_before := cell away_wp_before i;
             elapsed_before := cell elapsed_before i;
             period_before := cell period_before i;
             clock_before := cell clock_before i |}) df.

(** The second half, from [pd.DataFrame(rows)] on: the int column, the sort,
    the elapsed column and the shifted columns. *)
Definition frame_of_rows (rows : list RawRow) : res (list Row) :=
  ids ← for_each (fun r => astype_int64 (play_id r)) rows;
  let df := sort_values (zip rows ids) in
  elapsed_col ← for_each (fun r => parse_game_time (period r.1) (clock r.1)) df;
  Ok (with_before df elapsed_col).

Definition build_wp_df_from_summary (event_id : Z) (data : pyval) : res (list Row) :=
  rows ← sample_rows event_id data;
  frame_of_rows rows.

(** ** get_game_officials_from_summary *)

(** The body shared by the three loops over officials. *)
Definition official_entry (o : pyval) : res (pyval * pyval) :=
  dn ← py_get o "displayName";
  name ← or_else dn (fn ← py_get o "fullName";
                     or_else fn (n ← py_get o "name";
                                 or_else n (Ok (PStr "Unknown"))));
  p ← py_get o "position";
  pos ← or_else p (r ← py_get o "role"; or_else r (Ok (PDict [])));
  pos' ← match pos with
         | PDict _ =>
             d ← py_get pos "displayName";
             or_else d (n ← py_get pos "name"; or_else n (Ok (PStr EmptyString)))
         | _ => Ok pos
         end;
  Ok (name, pos').

Definition official_entries (offs : pyval) : res (list (pyval * pyval)) :=
  l ← py_iter offs; for_each official_entry l.

Definition get_game_officials_from_summary (data : pyval)
    : res (list (pyval * pyval)) :=
  header ← py_get_default data "header" (PDict []);
  c0 ← py_get header "competitions";
  let comps := py_or c0 (PList []) in
  officials ← (if py_truthy comps then
                 comp ← py_first comps;
                 o ← py_get comp "officials";
                 comp_offs ← or_else o (d ← py_get comp "details";
                                        o' ← py_get (py_or d (PDict [])) "officials";
                                        or_else o' (Ok (PList [])));
                 official_entries comp_offs
               else Ok []);
  officials ← (match officials with
               | [] =>
                   gi ← py_get data "gameInfo";
                   o ← py_get (py_or gi (PDict [])) "officials";
                   official_entries (py_or o (PList []))
               | _ => Ok officials
               end);
  match officials with
  | [] =>
      b ← py_get data "boxscore";
      box ← or_else b (b' ← py_get data "boxScore"; or_else b' (Ok (PDict [])));
      o ← py_get box "officials";
      official_entries (py_or o (PList []))
  | _ => Ok officials
  end.

(** ** build_athlete_lookup_from_summary *)

(** The dict with the keys "name", "team_id" and "team_abbr". *)
Record Athlete : Type := {
  a_name : pyval;
  a_team_id : pyval;
  a_team_abbr : pyval
}.

Fixpoint athletes_loop (team_id team_abbr : pyval) (entries : list pyval)
    (lookup : gmap string Athlete) : res (gmap string Athlete) :=
  match entries with
  | [] => Ok lookup
  | athlete_entry :: rest =>
      a ← py_get athlete_entry "athlete";
      let athlete := py_or a (PDict []) in
      aid ← py_get athlete "id";
      match aid with
      | PNone => athletes_loop team_id team_abbr rest lookup
      | _ =>
          dn ← py_get athlete "displayName";
          name ← or_else dn (sn ← py_get athlete "shortName";
                             or_else sn (fn ← py_get athlete "fullName";
                                         or_else fn (Ok (PStr "Unknown"))));
          athletes_loop team_id team_abbr rest
            (<[py_str aid := {| a_name := name;
                                a_team_id := team_id;
                                a_team_abbr := team_abbr |}]> lookup)
      end
  end.

Fixpoint statistics_loop (team_id team_abbr : pyval) (stats : list pyval)
    (lookup : gmap string Athlete) : res (gmap string Athlete) :=
  match stats with
  | [] => Ok lookup
  | stat :: rest =>
      a ← py_get stat "athletes";
      entries ← py_iter (py_or a (PList []));
      lookup' ← athletes_loop team_id team_abbr entries lookup;
      statistics_loop team_id team_abbr rest lookup'
  end.

Fixpoint players_loop (blocks : list pyval) (lookup : gmap string Athlete)
    : res (gmap string Athlete) :=
  match blocks with
  | [] => Ok lookup
  | team_block :: rest =>
      t ← py_get team_block "team";
      let team := py_or t (PDict []) in
      team_id ← py_get team "id";
      ab ← py_get team "abbreviation";
      team_abbr ← or_else ab (py_get team "shortDisplayName");
      s ← py_get team_block "statistics";
      stats ← py_iter (py_or s (PList []));
      lookup' ← statistics_loop team_id team_abbr stats lookup;
      players_loop rest lookup'
  end.

Definition build_athlete_lookup_from_summary (data : pyval)
    : res (gmap string Athlete) :=
  b ← py_get data "boxscore";
  box ← or_else b (b' ← py_get data "boxScore"; or_else b' (Ok (PDict [])));
  p ← py_get box "players";
  blocks ← py_iter (py_or p (PList []));
  players_loop blocks ∅.

(** ** infer_foul_team *)

(** [if pd.notna(v)]: [None] and NaN are missing.  For a list pandas answers
    with an array, item by item, and the [if] on an array raises unless it
    holds exactly one item. *)
Fixpoint pd_notna (v : pyval) : res bool :=
  match v with
  | PNone => Ok false
  | PFloat f => Ok (negb (is_nan f))
  | PList [x] =>
      match x with
      | PList _ => pd_notna x
      | PNone => Ok false
      | PFloat f => Ok (negb (is_nan f))
      | _ => Ok true
      end
  | PList _ => Raise (ValueError "The truth value of an array is ambiguous")
  | _ => Ok true
  end.

(** [str(int(v)) if isinstance(v, (int, float)) else str(v)] *)
Definition id_text (v : pyval) : res string :=
  match v with
  | PBool _ | PInt _ | PFloat _ => n ← py_int v; Ok (str_of_Z n)
  | _ => Ok (py_str v)
  end.

(** The pair of tests each direct step makes: first
    [if home_meta and <test>: return home_meta["abbr"]], then the same for
    the away side.  [None] when neither returns. *)
Definition side_match (home_meta away_meta : option TeamMeta)
    (test : TeamMeta -> bool) : option pyval :=
  match home_meta with
  | Some h => if test h then Some (m_abbr h) else
      match away_meta with
      | Some a => if test a then Some (m_abbr a) else None
      | None => None
      end
  | None =>
      match away_meta with
      | Some a => if test a then Some (m_abbr a) else None
      | None => None
      end
  end.

(** The lower-cased abbreviation, name and short name of one side; three
    empty strings when the side is absent. *)
Definition search_strings (meta : option TeamMeta) : res (string * string * string) :=
  match meta with
  | Some m =>
      abbr ← py_lower (py_or (m_abbr m) (PStr EmptyString));
      name ← py_lower (py_or (m_name m) (PStr EmptyString));
      short ← py_lower (py_or (m_short m) (PStr EmptyString));
      Ok (abbr, name, short)
  | None => Ok (EmptyString, EmptyString, EmptyString)
  end.

(** [any(s and s in desc for s in ...)] *)
Definition any_in (desc : string) (l : list string) : bool :=
  existsb (fun s => negb (String.eqb s EmptyString) && contains s desc) l.

Definition infer_foul_team (row : Row) (home_meta away_meta : option TeamMeta)
    : res pyval :=
  desc ← py_lower (py_or (description row) (PStr EmptyString));
  match (if py_truthy (team_abbr row)
         then side_match home_meta away_meta
                (fun m => py_eq (team_abbr row) (m_abbr m))
         else None) with
  | Some abbr => Ok abbr
  | None =>
      present ← pd_notna (team_id row);
      by_id ← (if present : bool then
                 tid ← id_text (team_id row);
                 Ok (side_match home_meta away_meta
                       (fun m => String.eqb tid (py_str (m_id m))))
               else Ok None);
      match by_id with
      | Some abbr => Ok abbr
      | None =>
          '(h_abbr, h_name, h_short) ← search_strings home_meta;
          '(a_abbr, a_name, a_short) ← search_strings away_meta;
          if any_in desc [h_abbr; h_short; h_name] then
            Ok (match home_meta with Some h => m_abbr h | None => PStr "HOME" end)
          else if any_in desc [a_abbr; a_short; a_name] then
            Ok (match away_meta with Some a => m_abbr a | None => PStr "AWAY" end)
          else Ok (PStr "Unknown")
      end
  end.

(** ** infer_foul_on *)

Definition infer_foul_on (row : Row) (home_meta away_meta : option TeamMeta)
    (athlete_lookup : gmap string Athlete) : res pyval :=
  foul_team ← infer_foul_team row home_meta away_meta;
  let aid := primary_athlete_id row in
  present ← pd_notna aid;
  '(foul_team, athlete_label) ←
    (if present : bool then
       aid_str ← id_text aid;
       match athlete_lookup !! aid_str with
       | Some athlete =>
           let a_team := py_or (a_team_abbr athlete) foul_team in
           let foul_team' :=
             if py_truthy (a_name athlete) && py_truthy a_team
                && py_eq foul_team (PStr "Unknown")
             then a_team else foul_team in
           Ok (foul_team',
               if py_truthy a_team
               then PStr (py_str a_team +:+ " - " +:+ py_str (a_name athlete))
               else a_name athlete)
       | None => Ok (foul_team, PNone)
       end
     else Ok (foul_team, PNone));
  if py_truthy athlete_label then Ok athlete_label else Ok foul_team.

(** ** extract_foul_rows *)

(** The dict appended to [rows] for one foul, in the column order of the
    export. *)
Record FoulRecord : Type := {
  Period : pyval;
  Clock : pyval;
  Team : pyval;
  Fouler : pyval;
  Subtype : pyval;
  Descriptor : pyval;
  Official1 : pyval;
  Official2 : pyval;
  Official3 : pyval;
  Home_Team : pyval;
  Home_Score : pyval;
  Away_Score : pyval;
  WinProb_Current : pyval;
  WinProb_Previous : pyval;
  Clock_Previous_WP : pyval
}.

(** One cell of [column.str.contains(pat, case=False, na=False)]: a cell that
    is not text counts as missing, hence as [False]. *)
Definition str_contains (pat : string) (v : pyval) : bool :=
  match v with
  | PStr s => contains (lower pat) (lower s)
  | _ => false
  end.

(** [df[df["description"].str.contains("foul", case=False, na=False)]] *)
Definition foul_rows (df : list Row) : list Row :=
  List.filter (fun r : Row => str_contains "foul" (description r)) df.

(** [int(v) if pd.notna(v) else other] *)
Definition int_or (v other : pyval) : res pyval :=
  present ← pd_notna v;
  if present : bool then n ← py_int v; Ok (PInt n) else Ok other.

(** The body of [for _, r in fouls.iterrows()]. *)
Definition foul_record (home_meta away_meta : option TeamMeta)
    (home_abbr : pyval) (athlete_lookup : gmap string Athlete)
    (official_names : list pyval) (plays_by_id : gmap string pyval)
    (r : Row) : res FoulRecord :=
  period ← int_or (period r) PNone;
  let clock := py_or (clock r) (PStr EmptyString) in
  team_abbr ← infer_foul_team r home_meta away_meta;
  let aid := primary_athlete_id r in
  present ← pd_notna aid;
  fouler ← (if present : bool then
              aid_str ← id_text aid;
              Ok (match athlete_lookup !! aid_str with
                  | Some a => a_name a
                  | None => PNone
                  end)
            else Ok PNone);
  '(subtype, descriptor) ←
    (match plays_by_id !! play_id r with
     | Some play_obj =>
         if py_truthy play_obj then
           t ← py_get play_obj "type";
           tx ← py_get (py_or t (PDict [])) "text";
           sd ← py_get play_obj "shortDescription";
           Ok (py_or tx (PStr EmptyString), py_or sd (PStr EmptyString))
         else Ok (PStr EmptyString, PStr EmptyString)
     | None => Ok (PStr EmptyString, PStr EmptyString)
     end);
  fouler' ← or_else fouler (infer_foul_on r home_meta away_meta athlete_lookup);
  home_score ← int_or (home_score r) (PStr EmptyString);
  away_score ← int_or (away_score r) (PStr EmptyString);
  Ok {| Period := period;
        Clock := clock;
        Team := team_abbr;
        Fouler := fouler';
        Subtype := subtype;
        Descriptor := descriptor;
        Official1 := nth 0 official_names (PStr EmptyString);
        Official2 := nth 1 official_names (PStr EmptyString);
        Official3 := nth 2 official_names (PStr EmptyString);
        Home_Team := home_abbr;
        Home_Score := home_score;
        Away_Score := away_score;
        WinProb_Current := home_win_prob r;
        WinProb_Previous := home_wp_before r;
        Clock_Previous_WP := clock_before r |}.

(** [[o[0] for o in officials][:3]], filled up to three with empty strings. *)
Definition three_names (officials : list (pyval * pyval)) : list pyval :=
  let names := take 3 (map fst officials) in
  names ++ replicate (3 - length names) (PStr EmptyString).

Definition extract_foul_rows (event_id : Z) (data : pyval) : res (list FoulRecord) :=
  '(home_meta, away_meta) ← get_home_away_meta data;
  let home_abbr :=
    py_or (match home_meta with Some h => m_abbr h | None => PNone end)
          (PStr EmptyString) in
  athlete_lookup ← build_athlete_lookup_from_summary data;
  officials ← get_game_officials_from_summary data;
  let official_names := three_names officials in
  plays ← py_get_default data "plays" (PList []);
  plays_list ← py_iter plays;
  plays_by_id ← index_plays plays_list;
  df ← build_wp_df_from_summary event_id data;
  let fouls := foul_rows df in
  for_each (foul_record home_meta away_meta home_abbr athlete_lookup
              official_names plays_by_id) fouls.

(** ** The specification's reading of the team resolution

    Section 4.4 of the specification gives the resolution as an ordered list
    of rules, first match wins.  [resolve_team_spec] is that list, written
    from the specification's words and not from the code: three rules, each
    tried on the home side and then on the away side, and "Unknown" when the
    list of matches is empty.  A row without a team abbreviation, or without a
    team id, has nothing to compare in that rule. *)

(** The text of a cell, lower-cased; empty when the cell holds no text. *)
Definition text_of (v : pyval) : string :=
  match v with
  | PStr s => lower s
  | _ => EmptyString
  end.

(** The text an id is compared by; [None] when the cell is missing. *)
Definition id_of (v : pyval) : option string :=
  match pd_notna v with
  | Ok true => match id_text v with Ok s => Some s | Raise _ => None end
  | _ => None
  end.

(** (a) the row's team abbreviation equals the side's abbreviation *)
Definition same_abbr (row : Row) (m : TeamMeta) : bool :=
  py_truthy (team_abbr row) && py_eq (team_abbr row) (m_abbr m).

(** (b) the row's team id equals the side's id *)
Definition same_id (row : Row) (m : TeamMeta) : bool :=
  match id_of (team_id row) with
  | Some s => String.eqb s (py_str (m_id m))
  | None => false
  end.

(** (c) the side's abbreviation, short name or full name occurs in the
    description, whatever the case of the letters *)
Definition named_in_description (row : Row) (m : TeamMeta) : bool :=
  existsb (fun s => negb (String.eqb s EmptyString)
                    && contains s (text_of (description row)))
          [text_of (m_abbr m); text_of (m_short m); text_of (m_name m)].

Definition resolution_rules : list (Row -> TeamMeta -> bool) :=
  [same_abbr; same_id; named_in_description].

Definition sides (home_meta away_meta : option TeamMeta) : list TeamMeta :=
  option_list home_meta ++ option_list away_meta.

(** The labels one rule gives, home side first. *)
Definition candidates (rule : Row -> TeamMeta -> bool) (row : Row)
    (home_meta away_meta : option TeamMeta) : list pyval :=
  flat_map (fun m => if rule row m then [m_abbr m] else []) (sides home_meta away_meta).

Definition resolve_team_spec (row : Row) (home_meta away_meta : option TeamMeta)
    : pyval :=
  match flat_map (fun rule => candidates rule row home_meta away_meta)
                 resolution_rules with
  | label :: _ => label
  | [] => PStr "Unknown"
  end.

(** ** Vocabulary of the statements *)

(** A missing cell: [None] or NaN. *)
Definition is_na (v : pyval) : Prop := v = PNone \/ v = PFloat nan.

(** The double a number stands for in float arithmetic; a zero of either sign
    is 0.0, which is also what [x or 0.0] makes of it. *)
Definition as_double (v : pyval) : float :=
  match v with
  | PFloat f => if (f =? 0)%float then 0%float else f
  | PInt n => SF2Prim (binary_normalize 53 1024 n 0 false)
  | PBool b => if b then 1%float else 0%float
  | _ => 0%float
  end.

(** The cells a summary's text fields hold: text or nothing. *)
Definition text_or_none (v : pyval) : Prop :=
  match v with
  | PStr _ | PNone => True
  | _ => False
  end.

(** The cells a summary's ids hold: text, an int or nothing. *)
Definition id_like (v : pyval) : Prop :=
  match v with
  | PStr _ | PInt _ | PNone => True
  | _ => False
  end.

Definition well_formed_meta (m : option TeamMeta) : Prop :=
  match m with
  | Some t => text_or_none (m_abbr t) /\ text_or_none (m_name t)
              /\ text_or_none (m_short t) /\ id_like (m_id t)
  | None => True
  end.

Definition well_formed_row (r : Row) : Prop :=
  text_or_none (description r) /\ text_or_none (team_abbr r) /\ id_like (team_id r).

(** What the converter may return: seconds, as an int or a float, or None. *)
Definition seconds_or_none (v : pyval) : Prop :=
  match v with
  | PNone | PInt _ | PFloat _ => True
  | _ => False
  end.

(** A period the converter can compute with: missing, or a number. *)
Definition numeric_or_none (v : pyval) : Prop :=
  match v with
  | PNone | PBool _ | PInt _ | PFloat _ => True
  | _ => False
  end.

(** The remaining seconds of the clock, if it parses, fit a double with room
    to spare. *)
Definition clock_in_range (clock_str : pyval) : Prop :=
  forall r, clock_remaining clock_str = Some r -> Z.abs r < 2 ^ 1000.

Definition float_or_absent (v : option pyval) : Prop :=
  match v with
  | None | Some PNone | Some (PFloat _) => True
  | _ => False
  end.

(** The exceptions that are not the function's own "no data" error. *)
Definition not_no_data (e : exn) : Prop :=
  forall event_id : Z, e <> ValueError (no_data_message event_id).

(** A computation that never raises the "no data" error. *)
Definition never_no_data {A : Type} (c : res A) : Prop :=
  forall e, c = Raise e -> not_no_data e.

(** A computation whose result, when it returns, satisfies [P]. *)
Definition ensures {A : Type} (c : res A) (P : A -> Prop) : Prop :=
  forall a, c = Ok a -> P a.

(** The cells a summary's periods and scores hold: an int or nothing. *)
Definition int_or_none (v : pyval) : Prop :=
  match v with
  | PInt _ | PNone => True
  | _ => False
  end.

(** A timeline row the exporter can turn into a record. *)
Definition exportable_row (r : Row) : Prop :=
  well_formed_row r /\ int_or_none (period r)
  /\ int_or_none (home_score r) /\ int_or_none (away_score r)
  /\ text_or_none (primary_athlete_id r).

(** A play whose "type" entry, when present, is a dict. *)
Definition well_formed_play (p : pyval) : Prop :=
  match p with
  | PDict d =>
      match dict_get d "type" with
      | None | Some PNone | Some (PDict _) => True
      | _ => False
      end
  | _ => False
  end.

Definition well_formed_plays (data : pyval) : Prop :=
  match data with
  | PDict d =>
      match dict_get d "plays" with
      | None => True
      | Some (PList l) => Forall well_formed_play l
      | _ => False
      end
  | _ => False
  end.

(** What ties an exported record to the timeline row it was made from. *)
Definition record_of_row (r : Row) (rec : FoulRecord) : Prop :=
  Clock rec = py_or (clock r) (PStr EmptyString)
  /\ WinProb_Current rec = home_win_prob r
  /\ WinProb_Previous rec = home_wp_before r
  /\ Clock_Previous_WP rec = clock_before r.

(** ** Summaries used as examples *)

Definition two_samples_one_play_id : pyval :=
  PDict [("winprobability",
          PList [PDict [("playId", PStr "1"); ("homeWinPercentage", PFloat 0.5)];
                 PDict [("playId", PStr "1"); ("homeWinPercentage", PFloat 0.75)]])].

Definition sample_without_play_id : pyval :=
  PDict [("winprobability", PList [PDict [("homeWinPercentage", PFloat 0.5)]]);
         ("plays", PList [PDict [("id", PStr "7"); ("text", PStr "Jump ball")]])].

Definition unmatched_sample : pyval :=
  PDict [("winprobability",
          PList [PDict [("playId", PStr "12"); ("homeWinPercentage", PFloat 0.5)]]);
         ("plays", PList [PDict [("id", PStr "7"); ("text", PStr "Jump ball")]])].

(** A timeline row with the three fields the team resolution reads. *)
Definition row_with (abbr tid desc : pyval) : Row :=
  {| raw := {| play_id := "1"; period := PInt 1; clock := PStr "11:40";
               home_score := PInt 2; away_score := PInt 0;
               home_win_prob := PFloat 0.5; away_win_prob := PFloat 0.5;
               description := desc; team_id := tid; team_abbr := abbr;
               team_name := PNone; primary_athlete_id := PNone;
               participants_raw := [] |};
     play_id_int := 1; elapsed := PInt 20;
     home_wp_before := PFloat nan; away_wp_before := PFloat nan;
     elapsed_before := PFloat nan; period_before := PFloat nan;
     clock_before := PFloat nan |}.

Definition lakers : TeamMeta :=
  {| m_id := PStr "13"; m_abbr := PStr "LAL";
     m_name := PStr "Los Angeles Lakers"; m_short := PStr "Lakers" |}.

Definition celtics : TeamMeta :=
  {| m_id := PStr "2"; m_abbr := PStr "BOS";
     m_name := PStr "Boston Celtics"; m_short := PStr "Celtics" |}.

Definition team_entry (i abbr name short : string) : pyval :=
  PDict [("id", PStr i); ("abbreviation", PStr abbr);
         ("displayName", PStr name); ("shortDisplayName", PStr short)].

Definition play_entry (i text clock : string) (team : pyval) : pyval :=
  PDict [("id", PStr i); ("text", PStr text);
         ("period", PDict [("number", PInt 1)]);
         ("clock", PDict [("displayValue", PStr clock)]);
         ("homeScore", PInt 2); ("awayScore", PInt 0);
         ("team", team)].

(** A summary with three samples, given out of order: play 1 is a shooting
    foul, play 2 says "No foul", and no play has the id 3. *)
Definition example_game : pyval :=
  let lal := team_entry "13" "LAL" "Los Angeles Lakers" "Lakers" in
  let bos := team_entry "2" "BOS" "Boston Celtics" "Celtics" in
  PDict [("header",
          PDict [("competitions",
                  PList [PDict [("competitors",
                                 PList [PDict [("homeAway", PStr "home"); ("team", lal)];
                                        PDict [("homeAway", PStr "away"); ("team", bos)]])]])]);
         ("plays",
          PList [play_entry "1" "Shooting foul by X" "11:40" lal;
                 play_entry "2" "No foul" "11:20" bos]);
         ("winprobability",
          PList [PDict [("playId", PStr "3"); ("homeWinPercentage", PFloat 0.5)];
                 PDict [("playId", PStr "2"); ("homeWinPercentage", PFloat 0.25)];
                 PDict [("playId", PStr "1"); ("homeWinPercentage", PFloat 0.75)]])].

(** The length of a period in seconds, as the converter takes it. *)
Definition period_len (p : Z) : Z := if p <=? 4 then 12 * 60 else 5 * 60.

(** How often a character occurs in a text. *)
Fixpoint count_char (c : ascii) (s : string) : nat :=
  match s with
  | EmptyString => O
  | String c' s' => (if Ascii.eqb c' c then 1 else 0) + count_char c s'
  end.

(** Does the competitor carry this "homeAway" flag? *)
Definition flagged (flag : string) (c : pyval) : bool :=
  match py_get c "homeAway" with
  | Ok v => py_eq v (PStr flag)
  | Raise _ => false
  end.

(** The meta dict the loop builds for one competitor. *)
Definition meta_of (c : pyval) : res TeamMeta :=
  t ← py_get c "team"; team_meta (py_or t (PDict [])).

(** A summary whose first competition has the competitors [cs]. *)
Definition has_competitors (d : list (string * pyval)) (cs : list pyval) : Prop :=
  exists hd comp rest,
    dict_get d "header" = Some (PDict hd)
    /\ dict_get hd "competitions" = Some (PList (PDict comp :: rest))
    /\ dict_get comp "competitors" = Some (PList cs).

(** The summary of a game between two teams, listed in this order. *)
Definition game_of (first second : pyval) : list (string * pyval) :=
  [("header",
    PDict [("competitions",
            PList [PDict [("competitors", PList [first; second])]])])].

Definition competitor (flag : string) (team : pyval) : pyval :=
  PDict [("homeAway", PStr flag); ("team", team)].

(** A summary whose first competition is the dict [comp]. *)
Definition first_competition (d comp : list (string * pyval)) : Prop :=
  exists hd rest,
    dict_get d "header" = Some (PDict hd)
    /\ dict_get hd "competitions" = Some (PList (PDict comp :: rest)).

(** An entry that is missing or None. *)
Definition absent (v : option pyval) : Prop := v = None \/ v = Some PNone.

(** An entry that is missing, None or an empty list. *)
Definition absent_or_empty (v : option pyval) : Prop :=
  v = None \/ v = Some PNone \/ v = Some (PList []).

(** A summary whose header names no officials: no header, no competition,
    or a first competition without officials of its own or in its details. *)
Definition no_competition_officials (d : list (string * pyval)) : Prop :=
  dict_get d "header" = None
  \/ (exists hd, dict_get d "header" = Some (PDict hd)
                 /\ absent_or_empty (dict_get hd "competitions"))
  \/ (exists comp, first_competition d comp
                   /\ absent_or_empty (dict_get comp "officials")
                   /\ (absent (dict_get comp "details")
                       \/ exists dd, dict_get comp "details" = Some (PDict dd)
                                     /\ absent_or_empty (dict_get dd "officials"))).

(** The three official columns of a record. *)
Definition official_columns (rec : FoulRecord) : list pyval :=
  [Official1 rec; Official2 rec; Official3 rec].

(** A summary with officials in two places: three at the competition, the
    last one without any name, and one in the game info. *)
Definition foster : pyval :=
  PDict [("displayName", PStr "Scott Foster");
         ("position", PDict [("displayName", PStr "Referee")])].

Definition brothers : pyval :=
  PDict [("fullName", PStr "Tony Brothers"); ("role", PStr "Crew Chief")].

Definition officiated_competition : list (string * pyval) :=
  [("officials", PList [foster; brothers; PDict []])].

Definition officiated_summary : list (string * pyval) :=
  [("header", PDict [("competitions", PList [PDict officiated_competition])]);
   ("gameInfo", PDict [("officials", PList [PDict [("name", PStr "Ed Malloy")]])])].

Definition officiated_game : pyval := PDict officiated_summary.

(** A summary whose game info names no officials. *)
Definition no_game_info_officials (d : list (string * pyval)) : Prop :=
  absent (dict_get d "gameInfo")
  \/ exists g, dict_get d "gameInfo" = Some (PDict g)
               /\ absent_or_empty (dict_get g "officials").

(** The name of the official at position [i], empty when there is none. *)
Definition official_name (officials : list (pyval * pyval)) (i : nat) : pyval :=
  nth i (map fst officials) (PStr EmptyString).

(** The home team column of the export. *)
Definition home_team_column (home_meta : option TeamMeta) : pyval :=
  py_or (match home_meta with Some h => m_abbr h | None => PNone end)
        (PStr EmptyString).

(** An athlete of the lookup has a name. *)
Definition named (a : Athlete) : Prop := py_truthy (a_name a) = true.

(** The key under which an athlete entry is stored: the text of its
    athlete's id; [None] for an entry without an id. *)
Definition entry_key (athlete_entry : pyval) : option string :=
  match py_get athlete_entry "athlete" with
  | Ok a =>
      match py_get (py_or a (PDict [])) "id" with
      | Ok PNone => None
      | Ok aid => Some (py_str aid)
      | Raise _ => None
      end
  | Raise _ => None
  end.

(** A box score with two team blocks; the second lists an athlete twice and
    one without an id. *)
Definition example_boxscore : pyval :=
  PDict [("boxscore",
          PDict [("players",
                  PList [PDict [("team", PDict [("id", PStr "13"); ("abbreviation", PStr "LAL")]);
                                ("statistics",
                                 PList [PDict [("athletes",
                                                PList [PDict [("athlete",
                                                               PDict [("id", PInt 1966);
                                                                      ("displayName", PStr "LeBron James")])]])]])];
                         PDict [("team", PDict [("id", PStr "2"); ("shortDisplayName", PStr "Celtics")]);
                                ("statistics",
                                 PList [PDict [("athletes",
                                                PList [PDict [("athlete",
                                                               PDict [("id", PStr "4065648");
                                                                      ("shortName", PStr "J. Tatum")])];
                                                       PDict [("athlete", PDict [("displayName", PStr "No id")])];
                                                       PDict [("athlete",
                                                               PDict [("id", PStr "4065648")])]])]])]])])].

(** The key under which a play is indexed: the text of its id, "None" for a
    play without one; [None] for a play that is no dict. *)
Definition play_key (p : pyval) : option string :=
  match py_get p "id" with
  | Ok i => Some (py_str i)
  | Raise _ => None
  end.

(** A summary whose play ids are ints and whose sample ids are text, with
    two plays under one id. *)
Definition mixed_id_game : pyval :=
  PDict [("plays",
          PList [PDict [("id", PInt 12); ("text", PStr "first play 12")];
                 PDict [("id", PInt 13); ("text", PStr "play 13")];
                 PDict [("id", PInt 12); ("text", PStr "second play 12")]]);
         ("winprobability",
          PList [PDict [("playId", PStr "12"); ("homeWinPercentage", PFloat 0.5)]])].

(** The filter of the exporter in the specification's words: the description
    is a text with "foul" somewhere in it, whatever the case of its letters.
    Written from the specification, not from [foul_rows]. *)
Definition mentions_foul (r : Row) : Prop :=
  exists s pre post, description r = PStr s /\ lower s = pre +:+ "foul" +:+ post.

(** The records of a timeline in the specification's words: one record for
    each row that mentions a foul, none for any other row, in the order of
    the rows. *)
Inductive exported : list Row -> list FoulRecord -> Prop :=
| exported_nil : exported [] []
| exported_foul (r : Row) (rec : FoulRecord) (df : list Row) (recs : list FoulRecord) :
    mentions_foul r -> record_of_row r rec -> exported df recs ->
    exported (r :: df) (rec :: recs)
| exported_other (r : Row) (df : list Row) (recs : list FoulRecord) :
    ~ mentions_foul r -> exported df recs -> exported (r :: df) recs.

(** The plays the timeline builder iterates over: [data.get("plays", [])]. *)
Definition plays_of (data : pyval) : res (list pyval) :=
  plays ← py_get_default data "plays" (PList []);
  py_iter plays.

(** [(play.get(k1) or {}).get(k2)] when it is defined. *)
Definition sub_field (play : list (string * pyval)) (k1 k2 : string) : pyval :=
  match dict_get play k1 with
  | Some (PDict sub) => default PNone (dict_get sub k2)
  | _ => PNone
  end.

(** No play of the list is indexed under [key]. *)
Definition no_play_has (key : string) (plays : list pyval) : Prop :=
  Forall (fun p => play_key p <> Some key) plays.

(** [play] is the last play of the list indexed under [key]. *)
Definition last_play_with (key : string) (plays : list pyval)
    (play : list (string * pyval)) : Prop :=
  exists pre post, plays = (pre ++ PDict play :: post)%list
    /\ play_key (PDict play) = Some key /\ no_play_has key post.

(** What a row holds of its play: nothing when there is none. *)
Definition joined (plays : list pyval) (row : RawRow) : Prop :=
  (no_play_has (play_id row) plays
   /\ description row = PNone /\ period row = PNone /\ clock row = PNone
   /\ home_score row = PNone /\ away_score row = PNone
   /\ primary_athlete_id row = PNone)
  \/ exists play, last_play_with (play_id row) plays play
       /\ description row = default PNone (dict_get play "text")
       /\ period row = sub_field play "period" "number"
       /\ clock row = sub_field play "clock" "displayValue"
       /\ home_score row = default PNone (dict_get play "homeScore")
       /\ away_score row = default PNone (dict_get play "awayScore").

(** * Properties *)

(** ** The result monad *)

Lemma bind_Ok {A B : Type} (c : res A) (k : A -> res B) (b : B) :
  (x ← c; k x) = Ok b -> exists a, c = Ok a /\ k a = Ok b.
Proof. destruct c as [a|e]; simpl; [eauto | discriminate]. Qed.

Lemma bind_Ok_eq {A B : Type} (c : res A) (k : A -> res B) (a : A) :
  c = Ok a -> (x ← c; k x) = k a.
Proof. intros ->. reflexivity. Qed.

(** ** parse_game_time *)

Lemma float_of_Z_returns (n : Z) :
  Z.abs n < 2 ^ 1001 -> exists g, float_of_Z n = Ok g.
Proof.
  intros H. unfold float_of_Z.
  assert (B : 2 ^ 1001 <= 2 ^ 1024 - 2 ^ 970) by (apply Z.leb_le; vm_compute; reflexivity).
  destruct (Z.ltb_spec (Z.abs n) (2 ^ 1024 - 2 ^ 970)); [eauto | lia].
Qed.

Lemma small_below (n : Z) : Z.abs n <= 2880 -> Z.abs n < 2 ^ 1001.
Proof.
  intros H. assert (B : 2880 < 2 ^ 1001) by (apply Z.ltb_lt; vm_compute; reflexivity). lia.
Qed.

Lemma float_op_const (fop : float -> float -> float) (zop : Z -> Z -> Z)
    (f : float) (n : Z) :
  Z.abs n < 2 ^ 1001 -> exists g, num_arith zop fop (NFloat f) (NInt n) = Ok (NFloat g).
Proof.
  intros H. destruct (float_of_Z_returns n H) as [g Hg].
  unfold num_arith. simpl. rewrite Hg. simpl. eauto.
Qed.

Lemma const_op_float (fop : float -> float -> float) (zop : Z -> Z -> Z)
    (f : float) (n : Z) :
  Z.abs n < 2 ^ 1001 -> exists g, num_arith zop fop (NInt n) (NFloat f) = Ok (NFloat g).
Proof.
  intros H. destruct (float_of_Z_returns n H) as [g Hg].
  unfold num_arith. simpl. rewrite Hg. simpl. eauto.
Qed.

Lemma clock_remaining_None_returns (period clock_str : pyval) :
  clock_remaining clock_str = None -> parse_game_time period clock_str = Ok PNone.
Proof.
  intros H. unfold parse_game_time. rewrite H.
  destruct period, clock_str; reflexivity.
Qed.

Lemma parse_game_time_int (p r : Z) (clock_str : pyval) :
  clock_remaining clock_str = Some r ->
  parse_game_time (PInt p) clock_str =
  Ok (PInt (if p <=? 4 then (p - 1) * 12 * 60 + (12 * 60 - r)
            else 4 * 12 * 60 + (p - 5) * 5 * 60 + (5 * 60 - r))).
Proof.
  intros H. unfold parse_game_time. rewrite H.
  destruct clock_str; try discriminate; simpl; destruct (p <=? 4); reflexivity.
Qed.



(** C5, as stated, fails: a period that is text reaches the comparison
    [period <= 4], outside the [try], and raises TypeError. *)
Lemma parse_game_time_raises_on_text_period :
  parse_game_time (PStr "1") (PStr "12:00") = Raise TypeError
  /\ ~ (forall period clock_str : pyval, returns (parse_game_time period clock_str)).
Proof.
  split; [reflexivity |].
  intros H. destruct (H (PStr "1") (PStr "12:00")) as [v Hv]. discriminate Hv.
Qed.

(** A period read back from a float column. *)
Example parse_game_time_float_period :
  parse_game_time (PFloat 2) (PStr "11:40") = Ok (PFloat 740).
Proof. vm_compute. reflexivity. Qed.

(** The bound on the clock is there for float periods only: beyond the range
    of a double, adding the int of the seconds to a float overflows. *)
Example parse_game_time_float_overflow :
  parse_game_time (PFloat 1) (PStr ("1" +:+ zeros 400 +:+ ":00")) = Raise OverflowError.
Proof. vm_compute. reflexivity. Qed.

(** With a period that is missing or a number the converter returns. *)
Lemma parse_game_time_on_numbers (period clock_str : pyval) :
  numeric_or_none period ->
  match period with PFloat _ => clock_in_range clock_str | _ => True end ->
  exists v, parse_game_time period clock_str = Ok v /\ seconds_or_none v.
Proof.
  intros Hp Hc.
  destruct (clock_remaining clock_str) as [r|] eqn:Hr;
    [| exists PNone; split; [apply clock_remaining_None_returns; exact Hr | exact I]].
  destruct period as [| b | n | f | | |]; try contradiction.
  - exists PNone. split; [reflexivity | exact I].
  - assert (E : parse_game_time (PBool b) clock_str
                = parse_game_time (PInt (if b then 1 else 0)) clock_str).
    { unfold parse_game_time. destruct clock_str; reflexivity. }
    rewrite E, (parse_game_time_int _ r clock_str Hr). eexists. split; [reflexivity | exact I].
  - rewrite (parse_game_time_int n r clock_str Hr). eexists. split; [reflexivity | exact I].
  - specialize (Hc r Hr).
    assert (B : 2 ^ 1001 = 2 * 2 ^ 1000) by (apply Z.eqb_eq; vm_compute; reflexivity).
    assert (B' : 2880 < 2 ^ 1000) by (apply Z.ltb_lt; vm_compute; reflexivity).
    unfold parse_game_time. rewrite Hr.
    assert (E : forall c k, clock_remaining c = Some r ->
                  match PFloat f, c with
                  | PNone, _ | _, PNone => Ok PNone
                  | _, _ => k
                  end = k).
    { intros c k Hk. destruct c; try reflexivity. discriminate Hk. }
    rewrite (E _ _ Hr). simpl as_num. cbv iota.
    destruct (num_le_small (NFloat f) 4).
    + destruct (float_op_const PrimFloat.sub Z.sub f 1) as [g1 H1]; [apply small_below; simpl; lia |].
      destruct (float_op_const PrimFloat.mul Z.mul g1 12) as [g2 H2]; [apply small_below; simpl; lia |].
      destruct (float_op_const PrimFloat.mul Z.mul g2 60) as [g3 H3]; [apply small_below; simpl; lia |].
      destruct (float_op_const PrimFloat.add Z.add g3 (12 * 60 - r)) as [g4 H4]; [lia |].
      unfold num_sub, num_mul, num_add.
      rewrite (bind_Ok_eq _ _ _ H1), (bind_Ok_eq _ _ _ H2), (bind_Ok_eq _ _ _ H3),
        (bind_Ok_eq _ _ _ H4).
      eexists. split; [reflexivity | exact I].
    + destruct (float_op_const PrimFloat.sub Z.sub f 5) as [g1 H1]; [apply small_below; simpl; lia |].
      destruct (float_op_const PrimFloat.mul Z.mul g1 5) as [g2 H2]; [apply small_below; simpl; lia |].
      destruct (float_op_const PrimFloat.mul Z.mul g2 60) as [g3 H3]; [apply small_below; simpl; lia |].
      destruct (const_op_float PrimFloat.add Z.add g3 (4 * 12 * 60)) as [g4 H4]; [apply small_below; simpl; lia |].
      destruct (float_op_const PrimFloat.add Z.add g4 (5 * 60 - r)) as [g5 H5]; [lia |].
      unfold num_sub, num_mul, num_add.
      rewrite (bind_Ok_eq _ _ _ H1), (bind_Ok_eq _ _ _ H2), (bind_Ok_eq _ _ _ H3),
        (bind_Ok_eq _ _ _ H4), (bind_Ok_eq _ _ _ H5).
      eexists. split; [reflexivity | exact I].
Qed.

(** C5 (amended): parse_game_time never raises when the period is missing or
    a number, whatever the clock is (missing, malformed or well formed); for
    a float period the remaining seconds must fit a double.  It returns the
    elapsed seconds or None.  And whatever the period is, a clock that is
    missing or does not parse gives None, not an exception. *)
Theorem parse_game_time_never_raises :
  (forall period clock_str : pyval,
      numeric_or_none period ->
      match period with PFloat _ => clock_in_range clock_str | _ => True end ->
      exists v, parse_game_time period clock_str = Ok v /\ seconds_or_none v)
  /\ (forall period clock_str : pyval,
        clock_remaining clock_str = None ->
        parse_game_time period clock_str = Ok PNone).
Proof.
  split; [exact parse_game_time_on_numbers | exact clock_remaining_None_returns].
Qed.

Lemma parse_game_time_never_raises_witness :
  (exists v, parse_game_time (PFloat 2) (PStr "11:40") = Ok v /\ seconds_or_none v)
  /\ parse_game_time (PStr "first") (PStr "12") = Ok PNone.
Proof.
  destruct parse_game_time_never_raises as [H1 H2]. split.
  - apply (H1 (PFloat 2) (PStr "11:40")).
    + exact I.
    + intros r Hr. vm_compute in Hr. injection Hr as <-.
      apply Z.ltb_lt. vm_compute. reflexivity.
  - apply (H2 (PStr "first") (PStr "12")). reflexivity.
Defined.

(** ** Loops *)

Lemma for_each_Forall2 {A B : Type} (f : A -> res B) (l : list A) (bs : list B) :
  for_each f l = Ok bs -> Forall2 (fun a b => f a = Ok b) l bs.
Proof.
  revert bs. induction l as [| a l IH]; simpl; intros bs H.
  - injection H as <-. constructor.
  - apply bind_Ok in H as (b & Hb & H). apply bind_Ok in H as (bs' & Hbs & H).
    injection H as <-. constructor; auto.
Qed.

Lemma for_each_raises {A B : Type} (f : A -> res B) (l : list A) (a : A) :
  In a l -> raises (f a) -> raises (for_each f l).
Proof.
  intros Hin [e He]. induction l as [| x l IH]; [destruct Hin |].
  simpl. destruct (f x) as [b | e'] eqn:Hx; [| exists e'; reflexivity].
  destruct Hin as [-> | Hin]; [congruence |].
  destruct (IH Hin) as [e'' ->]. exists e''. reflexivity.
Qed.

Lemma for_each_raised_by {A B : Type} (f : A -> res B) (l : list A) (e : exn) :
  for_each f l = Raise e -> exists a, In a l /\ f a = Raise e.
Proof.
  induction l as [| x l IH]; simpl; [discriminate |].
  destruct (f x) as [b | e'] eqn:Hx; simpl.
  - destruct (for_each f l) as [bs | e''] eqn:Hl; simpl; [discriminate |].
    intros [= ->]. destruct (IH eq_refl) as (a & Ha & Hfa). eauto.
  - intros [= ->]. eauto.
Qed.

(** ** The frame operations *)

Lemma cell_shift1_first (col : list pyval) :
  col <> [] -> cell (shift1 col) 0 = PFloat nan.
Proof. destruct col; [congruence | reflexivity]. Qed.

Lemma nth_removelast (col : list pyval) (i : nat) (d : pyval) :
  (S i < length col)%nat -> nth i (removelast col) d = nth i col d.
Proof.
  revert i. induction col as [| x col IH]; intros i H; [simpl in H; lia |].
  destruct col as [| y col]; [simpl in H; lia |].
  destruct i as [| i]; [reflexivity |].
  change (nth i (removelast (y :: col)) d = nth i (y :: col) d).
  apply IH. simpl in *. lia.
Qed.

Lemma cell_shift1_next (col : list pyval) (i : nat) :
  (S i < length col)%nat -> cell (shift1 col) (S i) = cell col i.
Proof.
  intros H. unfold cell, shift1. destruct col as [| x col]; [simpl in H; lia |].
  change (nth i (removelast (x :: col)) (PFloat nan) = nth i (x :: col) (PFloat nan)).
  apply nth_removelast. exact H.
Qed.

Lemma cell_map {A : Type} (f : A -> pyval) (l : list A) (i : nat) (a : A) :
  l !! i = Some a -> cell (map f l) i = f a.
Proof.
  revert i. induction l as [| x l IH]; intros i H; [discriminate |].
  destruct i as [| i]; [injection H as ->; reflexivity | apply IH; exact H].
Qed.

Lemma with_before_lookup (df : list (RawRow * Z)) (elapsed_col : list pyval)
    (i : nat) (r : Row) :
  with_before df elapsed_col !! i = Some r ->
  exists rk, df !! i = Some rk /\ raw r = rk.1 /\ play_id_int r = rk.2
    /\ elapsed r = cell elapsed_col i
    /\ home_wp_before r = cell (shift1 (map (fun r => home_win_prob r.1) df)) i
    /\ away_wp_before r = cell (shift1 (map (fun r => away_win_prob r.1) df)) i
    /\ elapsed_before r = cell (shift1 elapsed_col) i
    /\ period_before r = cell (shift1 (map (fun r => period r.1) df)) i
    /\ clock_before r = cell (shift1 (map (fun r => clock r.1) df)) i.
Proof.
  unfold with_before. rewrite list_lookup_imap.
  destruct (df !! i) as [rk |] eqn:E; simpl; [| discriminate].
  intros [= <-]. exists rk. repeat split; reflexivity.
Qed.

Lemma with_before_keys (df : list (RawRow * Z)) (elapsed_col : list pyval) :
  map play_id_int (with_before df elapsed_col) = map snd df.
Proof.
  unfold with_before.
  generalize (cell elapsed_col) as c1.
  generalize (cell (shift1 (map (fun r => home_win_prob r.1) df))) as c2.
  generalize (cell (shift1 (map (fun r => away_win_prob r.1) df))) as c3.
  generalize (cell (shift1 elapsed_col)) as c4.
  generalize (cell (shift1 (map (fun r => period r.1) df))) as c5.
  generalize (cell (shift1 (map (fun r => clock r.1) df))) as c6.
  induction df as [| rk df IH]; intros; [reflexivity |].
  rewrite imap_cons. simpl. f_equal. apply IH.
Qed.

Lemma with_before_raw (df : list (RawRow * Z)) (elapsed_col : list pyval) :
  map raw (with_before df elapsed_col) = map fst df.
Proof.
  unfold with_before.
  generalize (cell elapsed_col) as c1.
  generalize (cell (shift1 (map (fun r => home_win_prob r.1) df))) as c2.
  generalize (cell (shift1 (map (fun r => away_win_prob r.1) df))) as c3.
  generalize (cell (shift1 elapsed_col)) as c4.
  generalize (cell (shift1 (map (fun r => period r.1) df))) as c5.
  generalize (cell (shift1 (map (fun r => clock r.1) df))) as c6.
  induction df as [| rk df IH]; intros; [reflexivity |].
  rewrite imap_cons. simpl. f_equal. apply IH.
Qed.

#[local] Instance by_key_total : Total by_key.
Proof. intros a b. unfold by_key. lia. Qed.

Lemma sort_values_sorted (keyed : list (RawRow * Z)) :
  Sorted Z.le (map snd (sort_values keyed)).
Proof.
  unfold sort_values.
  pose proof (Sorted_merge_sort by_key keyed) as H.
  induction H as [| rk l Hs IH Hh]; simpl; constructor; auto.
  destruct Hh; simpl; constructor; assumption.
Qed.

Lemma sort_values_Permutation (keyed : list (RawRow * Z)) :
  Permutation (sort_values keyed) keyed.
Proof. apply merge_sort_Permutation. Qed.

Lemma zip_fst {A B : Type} (l : list A) (k : list B) :
  length l = length k -> map fst (zip l k) = l.
Proof.
  revert k. induction l as [| a l IH]; intros [| b k] H; simpl in *; try lia; [reflexivity |].
  f_equal. apply IH. lia.
Qed.

Lemma Forall2_zip {A B : Type} (P : A -> B -> Prop) (l : list A) (k : list B) :
  Forall2 P l k -> Forall (fun ab => P ab.1 ab.2) (zip l k).
Proof. induction 1; simpl; constructor; auto. Qed.

Lemma Sorted_le_NoDup_lt (l : list Z) :
  Sorted Z.le l -> NoDup l -> Sorted Z.lt l.
Proof.
  intros Hs Hn. apply Sorted_StronglySorted in Hs; [| intros x y z; lia].
  induction Hs as [| x l Hs IH Hall]; [constructor |].
  apply NoDup_cons in Hn as [Hx Hn]. constructor; [auto |].
  destruct l as [| y l]; constructor.
  apply Forall_cons in Hall as [Hxy _].
  assert (x <> y) by (intros ->; apply Hx; left). lia.
Qed.

(** What [frame_of_rows] is made of, when it returns. *)
Lemma frame_of_rows_Ok (rows : list RawRow) (df : list Row) :
  frame_of_rows rows = Ok df ->
  exists ids elapsed_col,
    Forall2 (fun r k => astype_int64 (play_id r) = Ok k) rows ids
    /\ Forall2 (fun rk v => parse_game_time (period rk.1) (clock rk.1) = Ok v)
               (sort_values (zip rows ids)) elapsed_col
    /\ df = with_before (sort_values (zip rows ids)) elapsed_col.
Proof.
  unfold frame_of_rows. intros H.
  apply bind_Ok in H as (ids & Hids & H). apply bind_Ok in H as (el & Hel & H).
  injection H as <-. exists ids, el.
  split; [exact (for_each_Forall2 _ _ _ Hids) |].
  split; [exact (for_each_Forall2 _ _ _ Hel) | reflexivity].
Qed.

(** ** build_wp_df_from_summary *)

Lemma build_Ok (event_id : Z) (data : pyval) (df : list Row) :
  build_wp_df_from_summary event_id data = Ok df ->
  exists rows, sample_rows event_id data = Ok rows /\ frame_of_rows rows = Ok df.
Proof. unfold build_wp_df_from_summary. intros H. apply bind_Ok in H. exact H. Qed.

(** C1, as stated, fails: the sort keeps every sample, so two samples with
    one play id give two rows with that id. *)
Lemma duplicate_play_id_kept :
  exists df, build_wp_df_from_summary 401 two_samples_one_play_id = Ok df
             /\ map play_id_int df = [1; 1]
             /\ ~ Sorted Z.lt (map play_id_int df).
Proof.
  eexists. split; [vm_compute; reflexivity |]. split; [reflexivity |].
  simpl. intros H. inversion H as [| ? ? _ Hh]. inversion Hh. lia.
Qed.

(** C1 (amended): the rows of the timeline are in non-decreasing order of the
    numeric play id, which is the int of the row's play id text; they are the
    rows of the samples, each kept once; and the order is strictly increasing
    when no two rows have the same numeric play id. *)
Theorem timeline_ordered_by_play_id (event_id : Z) (data : pyval) (df : list Row) :
  build_wp_df_from_summary event_id data = Ok df ->
  Sorted Z.le (map play_id_int df)
  /\ Forall (fun r : Row => astype_int64 (play_id r) = Ok (play_id_int r)) df
  /\ (exists rows, sample_rows event_id data = Ok rows /\ Permutation (map raw df) rows)
  /\ (NoDup (map play_id_int df) -> Sorted Z.lt (map play_id_int df)).
Proof.
  intros H. apply build_Ok in H as (rows & Hrows & H).
  apply frame_of_rows_Ok in H as (ids & el & Hids & _ & ->).
  assert (Hs : Sorted Z.le (map play_id_int (with_before (sort_values (zip rows ids)) el))).
  { rewrite with_before_keys. apply sort_values_sorted. }
  split; [exact Hs |]. split; [| split].
  - assert (Hz : Forall (fun rk : RawRow * Z => astype_int64 (play_id rk.1) = Ok rk.2)
                   (sort_values (zip rows ids))).
    { rewrite sort_values_Permutation. apply Forall2_zip with (P := fun r k => astype_int64 (play_id r) = Ok k). exact Hids. }
    apply Forall_forall. intros r Hr. apply list_elem_of_lookup in Hr as [i Hi].
    apply with_before_lookup in Hi as ([r0 k] & Hrk & -> & -> & _).
    rewrite Forall_forall in Hz. apply (Hz (r0, k)).
    eapply list_elem_of_lookup_2. exact Hrk.
  - exists rows. split; [exact Hrows |].
    rewrite with_before_raw.
    rewrite (Permutation_map fst (sort_values_Permutation (zip rows ids))).
    rewrite zip_fst; [reflexivity | exact (Forall2_length _ _ _ Hids)].
  - intros Hn. apply Sorted_le_NoDup_lt; assumption.
Qed.

Lemma timeline_ordered_by_play_id_witness :
  exists df, build_wp_df_from_summary 401 two_samples_one_play_id = Ok df
             /\ Sorted Z.le (map play_id_int df).
Proof.
  eexists. split; [vm_compute; reflexivity |].
  eapply (timeline_ordered_by_play_id 401 two_samples_one_play_id).
  vm_compute. reflexivity.
Defined.

(** C2: in the timeline every "_before" field of the first row is missing,
    and in every later row each "_before" field is the current field of the
    row just before it. *)
Theorem before_fields_follow_previous_row (event_id : Z) (data : pyval) (df : list Row) :
  build_wp_df_from_summary event_id data = Ok df ->
  (forall r : Row, df !! 0%nat = Some r ->
     is_na (home_wp_before r) /\ is_na (away_wp_before r) /\ is_na (elapsed_before r)
     /\ is_na (period_before r) /\ is_na (clock_before r))
  /\ (forall (i : nat) (prev r : Row), df !! i = Some prev -> df !! S i = Some r ->
        home_wp_before r = home_win_prob prev
        /\ away_wp_before r = away_win_prob prev
        /\ elapsed_before r = elapsed prev
        /\ period_before r = period prev
        /\ clock_before r = clock prev).
Proof.
  intros H. apply build_Ok in H as (rows & _ & H).
  apply frame_of_rows_Ok in H as (ids & el & _ & Hel & ->).
  set (s := sort_values (zip rows ids)) in *.
  pose proof (Forall2_length _ _ _ Hel) as Hlen.
  split.
  - intros r Hr. apply with_before_lookup in Hr as (rk & Hrk & _ & _ & _ & -> & -> & -> & -> & ->).
    assert (Hs : s <> []) by (intros E; rewrite E in Hrk; discriminate).
    assert (He : el <> []) by (intros E; rewrite E in Hlen; destruct s; [congruence | discriminate]).
    assert (Hm : forall f : RawRow * Z -> pyval, map f s <> []) by (intros f; destruct s; [congruence | discriminate]).
    rewrite !cell_shift1_first by auto. unfold is_na. repeat split; right; reflexivity.
  - intros i prev r Hp Hr.
    apply with_before_lookup in Hp as (pk & Hpk & Hraw & _ & Hpe & _).
    apply with_before_lookup in Hr as (rk & Hrk & _ & _ & _ & -> & -> & -> & -> & ->).
    assert (Hi : (S i < length s)%nat) by (apply lookup_lt_is_Some; eauto).
    rewrite !cell_shift1_next by (rewrite ?length_map; lia).
    rewrite !(cell_map _ s i pk Hpk), Hpe, Hraw. repeat split; reflexivity.
Qed.

Lemma before_fields_follow_previous_row_witness :
  exists df r, build_wp_df_from_summary 401 two_samples_one_play_id = Ok df
               /\ df !! 0%nat = Some r /\ is_na (home_wp_before r).
Proof.
  eexists. eexists. split; [vm_compute; reflexivity |]. split; [reflexivity |].
  eapply (before_fields_follow_previous_row 401 two_samples_one_play_id);
    [vm_compute; reflexivity | reflexivity].
Defined.

(** ** Which exceptions the steps raise *)

Lemma nnd_Ok {A : Type} (a : A) : never_no_data (Ok a).
Proof. intros e H. discriminate H. Qed.

Lemma nnd_Raise {A : Type} (e : exn) : not_no_data e -> never_no_data (@Raise A e).
Proof. intros He e' [= <-]. exact He. Qed.

Lemma nnd_bind {A B : Type} (c : res A) (k : A -> res B) :
  never_no_data c -> (forall a, never_no_data (k a)) -> never_no_data (x ← c; k x).
Proof.
  intros Hc Hk e H. destruct c as [a | e']; simpl in H.
  - exact (Hk a e H).
  - injection H as <-. apply Hc. reflexivity.
Qed.

Lemma nnd_for_each {A B : Type} (f : A -> res B) (l : list A) :
  (forall a, never_no_data (f a)) -> never_no_data (for_each f l).
Proof.
  intros Hf. induction l as [| a l IH]; simpl; [apply nnd_Ok |].
  apply nnd_bind; [apply Hf | intros b].
  apply nnd_bind; [exact IH | intros bs; apply nnd_Ok].
Qed.

Lemma not_no_data_TypeError : not_no_data TypeError.
Proof. intros i H. discriminate H. Qed.
Lemma not_no_data_AttributeError : not_no_data AttributeError.
Proof. intros i H. discriminate H. Qed.
Lemma not_no_data_KeyError : not_no_data KeyError.
Proof. intros i H. discriminate H. Qed.
Lemma not_no_data_OverflowError : not_no_data OverflowError.
Proof. intros i H. discriminate H. Qed.
Lemma not_no_data_invalid_literal : not_no_data invalid_literal.
Proof. intros i H. discriminate H. Qed.

Create HintDb nnd.

#[local] Hint Resolve not_no_data_TypeError not_no_data_AttributeError
  not_no_data_KeyError not_no_data_OverflowError not_no_data_invalid_literal
  nnd_Ok nnd_Raise : nnd.

Ltac nnd_step :=
  first [ apply nnd_Ok
        | apply nnd_Raise; auto with nnd
        | apply nnd_bind; [| intros ?]
        | apply nnd_for_each; intros ? ].

Lemma nnd_py_get_default (v : pyval) (k : string) (d : pyval) :
  never_no_data (py_get_default v k d).
Proof. destruct v; simpl; nnd_step. Qed.

Lemma nnd_py_get (v : pyval) (k : string) : never_no_data (py_get v k).
Proof. apply nnd_py_get_default. Qed.

Lemma nnd_py_iter (v : pyval) : never_no_data (py_iter v).
Proof. destruct v; simpl; nnd_step. Qed.

Lemma nnd_float_of_Z (n : Z) : never_no_data (float_of_Z n).
Proof. unfold float_of_Z. destruct (Z.abs n <? _); nnd_step. Qed.

Lemma nnd_num_arith zop fop (a b : num) : never_no_data (num_arith zop fop a b).
Proof.
  destruct a, b; simpl; repeat first [apply nnd_float_of_Z | nnd_step].
Qed.

Lemma nnd_py_sub (a b : pyval) : never_no_data (py_sub a b).
Proof.
  unfold py_sub. destruct (as_num a), (as_num b); try (nnd_step; fail).
  apply nnd_bind; [apply nnd_num_arith | intros; nnd_step].
Qed.

Lemma nnd_or_else (x : pyval) (c : res pyval) :
  never_no_data c -> never_no_data (or_else x c).
Proof. intros H. unfold or_else. destruct (py_truthy x); [nnd_step | exact H]. Qed.

#[local] Hint Resolve nnd_py_get_default nnd_py_get nnd_py_iter nnd_py_sub
  nnd_float_of_Z nnd_num_arith : nnd.

Ltac nnd :=
  repeat first [ progress auto with nnd
               | apply nnd_or_else
               | nnd_step ].

Lemma nnd_index_plays (plays : list pyval) : never_no_data (index_plays plays).
Proof. unfold index_plays. nnd. Qed.

Lemma nnd_athlete_ids_loop (ps : list pyval) : never_no_data (athlete_ids_loop ps).
Proof. induction ps as [| p ps IH]; simpl; nnd. Qed.

Lemma nnd_wp_row (pbi : gmap string pyval) (w : pyval) : never_no_data (wp_row pbi w).
Proof.
  unfold wp_row. nnd.
  - match goal with |- never_no_data (match ?h with _ => _ end) => destruct h end; nnd.
  - apply nnd_athlete_ids_loop.
Qed.

Lemma nnd_astype_int64 (s : string) : never_no_data (astype_int64 s).
Proof.
  unfold astype_int64. destruct (py_int_of_string s); [| nnd].
  match goal with |- never_no_data (if ?b then _ else _) => destruct b end; nnd.
Qed.

Lemma nnd_parse_game_time (p c : pyval) : never_no_data (parse_game_time p c).
Proof.
  unfold parse_game_time.
  assert (H : never_no_data
    match clock_remaining c with
    | Some remaining =>
        match as_num p with
        | Some p0 =>
            if num_le_small p0 4
            then
              d ← num_sub p0 (NInt 1);
              x ← num_mul d (NInt 12);
              prev_total ← num_mul x (NInt 60);
              r ← num_add prev_total (NInt (12 * 60 - remaining));
              Ok (of_num r)
            else
              d ← num_sub p0 (NInt 5);
              x ← num_mul d (NInt 5);
              y ← num_mul x (NInt 60);
              prev_total ← num_add (NInt (4 * 12 * 60)) y;
              r ← num_add prev_total (NInt (5 * 60 - remaining));
              Ok (of_num r)
        | None => Raise TypeError
        end
    | None => Ok PNone
    end).
  { destruct (clock_remaining c); [| nnd]. destruct (as_num p); [| nnd].
    unfold num_sub, num_mul, num_add. destruct (num_le_small _ _); nnd. }
  destruct p, c; first [exact H | nnd].
Qed.

Lemma nnd_frame_of_rows (rows : list RawRow) : never_no_data (frame_of_rows rows).
Proof.
  unfold frame_of_rows. nnd; [apply nnd_astype_int64 | apply nnd_parse_game_time].
Qed.

(** The guard of the builder: what [not wp] is on a summary. *)
Lemma sample_rows_guard (event_id : Z) (d : list (string * pyval)) :
  sample_rows event_id (PDict d) =
  let wp := default PNone (dict_get d "winprobability") in
  if negb (py_truthy wp) then Raise (ValueError (no_data_message event_id))
  else
    plays ← py_get_default (PDict d) "plays" (PList []);
    plays_list ← py_iter plays;
    plays_by_id ← index_plays plays_list;
    samples ← py_iter wp;
    for_each (wp_row plays_by_id) samples.
Proof. unfold sample_rows. simpl. destruct (dict_get d "winprobability"); reflexivity. Qed.

Lemma wp_row_unmatched (pbi : gmap string pyval) (d : list (string * pyval)) :
  pbi !! py_str (default PNone (dict_get d "playId")) = None ->
  wp_row pbi (PDict d) =
  (away_wp ← match default PNone (dict_get d "homeWinPercentage") with
             | PNone => Ok PNone
             | home_wp =>
                 x ← py_sub (PFloat 1) (py_or home_wp (PFloat 0));
                 py_sub x (py_or (default (PFloat 0) (dict_get d "tiePercentage")) (PFloat 0))
             end;
   Ok {| play_id := py_str (default PNone (dict_get d "playId"));
         period := PNone; clock := PNone; home_score := PNone; away_score := PNone;
         home_win_prob := default PNone (dict_get d "homeWinPercentage");
         away_win_prob := away_wp;
         description := PNone; team_id := PNone; team_abbr := PNone; team_name := PNone;
         primary_athlete_id := PNone; participants_raw := [] |}).
Proof.
  intros H. unfold wp_row. simpl.
  change (match dict_get d "playId" with Some x => x | None => PNone end)
    with (default PNone (dict_get d "playId")).
  rewrite H. simpl.
  change (match dict_get d "homeWinPercentage" with Some x => x | None => PNone end)
    with (default PNone (dict_get d "homeWinPercentage")).
  change (match dict_get d "tiePercentage" with Some x => x | None => PFloat 0 end)
    with (default (PFloat 0) (dict_get d "tiePercentage")).
  destruct (default PNone (dict_get d "homeWinPercentage")); simpl; try reflexivity;
  match goal with |- context [py_sub ?a ?b] => destruct (py_sub a b) as [x|]; simpl; [| reflexivity] end;
  match goal with |- context [py_sub ?a ?b] => destruct (py_sub a b) as [y|]; simpl; reflexivity end.
Qed.

Lemma float_minus_float (a b : float) :
  py_sub (PFloat a) (PFloat b) = Ok (PFloat (a - b)).
Proof. reflexivity. Qed.

(** The guard is the only source of the "no data" error. *)
Lemma no_data_exactly (event_id : Z) (d : list (string * pyval)) :
  build_wp_df_from_summary event_id (PDict d)
  = Raise (ValueError (no_data_message event_id))
  <-> py_truthy (default PNone (dict_get d "winprobability")) = false.
Proof.
  unfold build_wp_df_from_summary. rewrite sample_rows_guard.
  cbv zeta. destruct (py_truthy (default PNone (dict_get d "winprobability"))) eqn:T; simpl.
  - split; [| discriminate]. intros H. exfalso.
    assert (N : never_no_data
                  (rows ← (plays ← py_get_default (PDict d) "plays" (PList []);
                           plays_list ← py_iter plays;
                           plays_by_id ← index_plays plays_list;
                           samples ← py_iter (default PNone (dict_get d "winprobability"));
                           for_each (wp_row plays_by_id) samples);
                   frame_of_rows rows)).
    { pose proof nnd_index_plays. pose proof nnd_wp_row. pose proof nnd_frame_of_rows.
      nnd. }
    exact (N _ H event_id eq_refl).
  - split; reflexivity.
Qed.

(** C3: the builder fails with its "no data" error exactly when the
    win-probability list of the summary is absent or empty, that is when
    [not wp] holds: it does for a summary without the list, with [None] or
    with an empty list, and never for a list with a sample.  And a sample
    whose play id matches no play is no error: its row is built, with every
    play-derived field absent. *)
Theorem no_data_error_and_unmatched_samples :
  (forall (event_id : Z) (d : list (string * pyval)),
      build_wp_df_from_summary event_id (PDict d)
      = Raise (ValueError (no_data_message event_id))
      <-> py_truthy (default PNone (dict_get d "winprobability")) = false)
  /\ (forall (event_id : Z) (d : list (string * pyval)),
        dict_get d "winprobability" = None
        \/ dict_get d "winprobability" = Some PNone
        \/ dict_get d "winprobability" = Some (PList []) ->
        build_wp_df_from_summary event_id (PDict d)
        = Raise (ValueError (no_data_message event_id)))
  /\ (forall (event_id : Z) (d : list (string * pyval)) (w : pyval) (ws : list pyval),
        dict_get d "winprobability" = Some (PList (w :: ws)) ->
        build_wp_df_from_summary event_id (PDict d)
        <> Raise (ValueError (no_data_message event_id)))
  /\ (forall (plays_by_id : gmap string pyval) (d : list (string * pyval)),
        plays_by_id !! py_str (default PNone (dict_get d "playId")) = None ->
        float_or_absent (dict_get d "homeWinPercentage") ->
        float_or_absent (dict_get d "tiePercentage") ->
        exists row, wp_row plays_by_id (PDict d) = Ok row
          /\ period row = PNone /\ clock row = PNone
          /\ home_score row = PNone /\ away_score row = PNone
          /\ description row = PNone
          /\ team_id row = PNone /\ team_abbr row = PNone /\ team_name row = PNone
          /\ primary_athlete_id row = PNone /\ participants_raw row = []).
Proof.
  split; [exact no_data_exactly |]. split; [| split].
  - intros event_id d H. apply no_data_exactly.
    destruct H as [-> | [-> | ->]]; reflexivity.
  - intros event_id d w ws H E. apply no_data_exactly in E.
    rewrite H in E. discriminate E.
  - intros pbi d Hun Hh Ht. rewrite (wp_row_unmatched pbi d Hun).
    destruct (dict_get d "homeWinPercentage") as [[]|]; try contradiction; simpl;
      try (eexists; split; [reflexivity | repeat split; reflexivity]);
    destruct (dict_get d "tiePercentage") as [[]|]; try contradiction; simpl;
      unfold py_or; simpl;
      repeat match goal with |- context [if ?b then _ else _] => destruct b end;
      rewrite ?float_minus_float; simpl;
      eexists; (split; [reflexivity | repeat split; reflexivity]).
Qed.

Lemma no_data_error_and_unmatched_samples_witness :
  exists row, wp_row ∅ (PDict [("playId", PStr "12"); ("homeWinPercentage", PFloat 0.5)])
              = Ok row /\ description row = PNone.
Proof.
  destruct no_data_error_and_unmatched_samples as (_ & _ & _ & H).
  destruct (H ∅ [("playId", PStr "12"); ("homeWinPercentage", PFloat 0.5)])
    as (row & Hrow & _ & _ & _ & _ & Hd & _); [reflexivity | exact I | exact I |].
  exists row. split; assumption.
Defined.

Example unmatched_sample_builds :
  exists df, build_wp_df_from_summary 401 unmatched_sample = Ok df
             /\ map (fun r : Row => (play_id r, description r)) df = [("12", PNone)].
Proof. eexists. split; [vm_compute; reflexivity | reflexivity]. Qed.

Lemma ensures_bind {A B : Type} (c : res A) (k : A -> res B) (P : B -> Prop) :
  (forall a, ensures (k a) P) -> ensures (x ← c; k x) P.
Proof. intros H b Hb. apply bind_Ok in Hb as (a & _ & Hb). exact (H a b Hb). Qed.

Lemma ensures_Ok {A : Type} (a : A) (P : A -> Prop) : P a -> ensures (Ok a) P.
Proof. intros H b [= <-]. exact H. Qed.

Ltac ensures_tail :=
  repeat first
    [ apply ensures_bind; intros ?
    | match goal with |- ensures (let '(_, _) := ?p in _) _ => destruct p end ];
  apply ensures_Ok.

(** The first fields of a sample's row: the play id text and the two
    probabilities. *)
Lemma wp_row_head (pbi : gmap string pyval) (w : pyval) (row : RawRow) :
  wp_row pbi w = Ok row ->
  exists d, w = PDict d
    /\ play_id row = py_str (default PNone (dict_get d "playId"))
    /\ home_win_prob row = default PNone (dict_get d "homeWinPercentage")
    /\ match default PNone (dict_get d "homeWinPercentage") with
       | PNone => Ok PNone
       | _ =>
           x ← py_sub (PFloat 1)
                 (py_or (default PNone (dict_get d "homeWinPercentage")) (PFloat 0));
           py_sub x (py_or (default (PFloat 0) (dict_get d "tiePercentage")) (PFloat 0))
       end = Ok (away_win_prob row).
Proof.
  intros H. destruct w as [| | | | | | d]; try discriminate H. exists d.
  split; [reflexivity |]. revert H. unfold wp_row.
  intros H. apply bind_Ok in H as (i & Hi & H). injection Hi as <-.
  apply bind_Ok in H as (home & Hh & H). injection Hh as <-.
  apply bind_Ok in H as (t & Ht & H). injection Ht as <-.
  apply bind_Ok in H as (away & Ha & H).
  change (match dict_get d "homeWinPercentage" with Some x => x | None => PNone end)
    with (default PNone (dict_get d "homeWinPercentage")) in *.
  change (match dict_get d "tiePercentage" with Some x => x | None => PFloat 0 end)
    with (default (PFloat 0) (dict_get d "tiePercentage")) in *.
  change (match dict_get d "playId" with Some x => x | None => PNone end)
    with (default PNone (dict_get d "playId")) in *.
  revert row H.
  match goal with |- forall row, ?c = Ok row -> ?P =>
    change (ensures c (fun row => P)) end.
  ensures_tail. simpl. repeat split. exact Ha.
Qed.

Lemma astype_int64_raised (s : string) (e : exn) :
  astype_int64 s = Raise e -> e = invalid_literal \/ e = OverflowError.
Proof.
  unfold astype_int64. destruct (py_int_of_string s); [| intros [= <-]; left; reflexivity].
  match goal with |- context [if ?b then _ else _] => destruct b end;
    [discriminate | intros [= <-]; right; reflexivity].
Qed.

Lemma astype_int64_needs_int (s : string) :
  py_int_of_string s = None -> astype_int64 s = Raise invalid_literal.
Proof. intros H. unfold astype_int64. rewrite H. reflexivity. Qed.

(** C9: the builder has a precondition the specification does not state.  The
    play id of a row is the text [str(w.get("playId"))] of its sample, "None"
    for a sample without one, and the row is built whether or not a play has
    that id; but when the text of some row is not an int, the cast of the
    column to int64 raises, and so does the builder. *)
Theorem non_numeric_play_id_raises :
  (forall (plays_by_id : gmap string pyval) (w : pyval) (row : RawRow),
      wp_row plays_by_id w = Ok row ->
      exists d, w = PDict d /\ play_id row = py_str (default PNone (dict_get d "playId")))
  /\ py_int_of_string (py_str PNone) = None
  /\ (forall (event_id : Z) (data : pyval) (rows : list RawRow),
        sample_rows event_id data = Ok rows ->
        (exists r, In r rows /\ py_int_of_string (play_id r) = None) ->
        exists e, build_wp_df_from_summary event_id data = Raise e
                  /\ (e = invalid_literal \/ e = OverflowError)).
Proof.
  split; [| split; [reflexivity |]].
  - intros pbi w row H. apply wp_row_head in H as (d & -> & Hid & _). eauto.
  - intros event_id data rows Hrows (r & Hin & Hr).
    unfold build_wp_df_from_summary. rewrite Hrows. simpl. unfold frame_of_rows.
    destruct (for_each_raises (fun r => astype_int64 (play_id r)) rows r Hin) as [e He].
    { exists invalid_literal. apply astype_int64_needs_int. exact Hr. }
    exists e. rewrite He. split; [reflexivity |].
    apply for_each_raised_by in He as (a & _ & Ha).
    exact (astype_int64_raised _ _ Ha).
Qed.

Lemma non_numeric_play_id_raises_witness :
  exists e, build_wp_df_from_summary 401 sample_without_play_id = Raise e
            /\ (e = invalid_literal \/ e = OverflowError).
Proof.
  destruct non_numeric_play_id_raises as (_ & _ & H).
  eapply (H 401 sample_without_play_id); [vm_compute; reflexivity |].
  eexists. split; [left; reflexivity | reflexivity].
Defined.

(** ** The away win probability *)

Lemma float_of_Z_value (n : Z) (y : float) :
  float_of_Z n = Ok y -> y = SF2Prim (binary_normalize 53 1024 n 0 false).
Proof.
  unfold float_of_Z. destruct (Z.abs n <? _); [intros [= <-]; reflexivity | discriminate].
Qed.

Lemma float_of_one : float_of_Z 1 = Ok 1%float.
Proof. vm_compute. reflexivity. Qed.

Lemma sub_as_double (x : float) (v r : pyval) :
  numeric_or_none v ->
  py_sub (PFloat x) (py_or v (PFloat 0)) = Ok r ->
  r = PFloat (x - as_double v).
Proof.
  intros Hv. destruct v as [| b | n | f | | |]; try contradiction; unfold py_or; simpl.
  - intros [= <-]. reflexivity.
  - destruct b; simpl.
    + unfold py_sub. cbn [as_num]. unfold num_sub, num_arith. cbn [num_float].
      rewrite float_of_one. intros [= <-]. reflexivity.
    + intros [= <-]. reflexivity.
  - destruct (Z.eqb_spec n 0) as [-> | Hn]; simpl.
    + intros [= <-]. reflexivity.
    + unfold py_sub. cbn [as_num]. unfold num_sub, num_arith. cbn [num_float].
      destruct (float_of_Z n) as [y |] eqn:Hy; simpl; [| discriminate].
      intros [= <-]. rewrite (float_of_Z_value n y Hy). reflexivity.
  - destruct (f =? 0)%float; simpl; intros [= <-]; reflexivity.
Qed.

Lemma tie_default (t : option pyval) :
  py_or (default (PFloat 0) t) (PFloat 0) = py_or (default PNone t) (PFloat 0).
Proof. destruct t; reflexivity. Qed.

(** C6: the away win probability of a sample's row is 1 - home - tie, in
    float arithmetic from left to right, when the home win probability is
    present, with 0 for the tie when the tie percentage is absent; it is
    absent when the home win probability is. *)
Theorem away_win_probability (plays_by_id : gmap string pyval)
    (d : list (string * pyval)) (row : RawRow) :
  wp_row plays_by_id (PDict d) = Ok row ->
  let home := default PNone (dict_get d "homeWinPercentage") in
  let tie := default PNone (dict_get d "tiePercentage") in
  home_win_prob row = home
  /\ (home = PNone -> away_win_prob row = PNone)
  /\ (home <> PNone -> numeric_or_none home -> numeric_or_none tie ->
      away_win_prob row = PFloat (1 - as_double home - as_double tie))
  /\ (forall h : float, home = PFloat h -> tie = PNone ->
      away_win_prob row = PFloat (1 - h - 0)).
Proof.
  intros H home tie. apply wp_row_head in H as (d' & [= <-] & _ & Hh & Ha).
  fold home in Hh, Ha. rewrite tie_default in Ha. fold tie in Ha.
  assert (G : home <> PNone -> numeric_or_none home -> numeric_or_none tie ->
              away_win_prob row = PFloat (1 - as_double home - as_double tie)).
  { intros Hn Hnum Ht.
    assert (E : (x ← py_sub (PFloat 1) (py_or home (PFloat 0));
                 py_sub x (py_or tie (PFloat 0))) = Ok (away_win_prob row)).
    { destruct home; first [congruence | exact Ha]. }
    apply bind_Ok in E as (x & Hx & E).
    apply (sub_as_double 1 home x Hnum) in Hx as ->.
    apply (sub_as_double _ tie _ Ht) in E. exact E. }
  split; [exact Hh |]. split; [| split; [exact G |]].
  - intros E. rewrite E in Ha. injection Ha as <-. reflexivity.
  - intros h Eh Et. rewrite G; [| congruence | rewrite Eh; exact I | rewrite Et; exact I].
    rewrite Eh, Et. simpl.
    destruct (h =? 0)%float eqn:Z; [| reflexivity].
    pose proof (FloatAxioms.eqb_spec h 0) as E0. rewrite Z in E0.
    rewrite <- (SF2Prim_Prim2SF h).
    destruct (Prim2SF h) as [s | s | | s m e]; try (cbv in E0; discriminate).
    + destruct s; reflexivity.
    + destruct s; cbv in E0; discriminate.
    + cbv in E0. destruct s; discriminate.
Qed.

Lemma away_win_probability_witness :
  exists row,
    wp_row ∅ (PDict [("playId", PStr "12"); ("homeWinPercentage", PFloat 0.75);
                     ("tiePercentage", PFloat 0.125)]) = Ok row
    /\ away_win_prob row = PFloat 0.125.
Proof.
  pose (d := [("playId", PStr "12"); ("homeWinPercentage", PFloat 0.75);
              ("tiePercentage", PFloat 0.125)]).
  assert (E : exists row, wp_row ∅ (PDict d) = Ok row)
    by (eexists; vm_compute; reflexivity).
  destruct E as [row E]. exists row. split; [exact E |].
  destruct (away_win_probability ∅ d row E) as (_ & _ & H & _).
  rewrite H; [vm_compute; reflexivity | vm_compute; discriminate | exact I | exact I].
Defined.

(** ** infer_foul_team *)

Lemma resolve_team_spec_unfold (row : Row) (h a : option TeamMeta) :
  resolve_team_spec row h a =
  match (candidates same_abbr row h a ++ candidates same_id row h a
         ++ candidates named_in_description row h a)%list with
  | label :: _ => label
  | [] => PStr "Unknown"
  end.
Proof.
  unfold resolve_team_spec, resolution_rules, candidates. simpl.
  rewrite app_nil_r. reflexivity.
Qed.

Lemma side_match_candidates (h a : option TeamMeta) (row : Row)
    (rule : Row -> TeamMeta -> bool) :
  side_match h a (rule row) = head (candidates rule row h a).
Proof.
  unfold side_match, candidates, sides.
  destruct h as [hm |], a as [am |]; simpl;
    repeat match goal with |- context [if ?b then _ else _] => destruct b; simpl end;
    reflexivity.
Qed.

Lemma side_match_ext (h a : option TeamMeta) (t1 t2 : TeamMeta -> bool) :
  (forall m, t1 m = t2 m) -> side_match h a t1 = side_match h a t2.
Proof.
  intros E. unfold side_match. destruct h, a; rewrite ?E; reflexivity.
Qed.

Lemma candidates_never (rule : Row -> TeamMeta -> bool) (row : Row)
    (h a : option TeamMeta) :
  (forall m, rule row m = false) -> candidates rule row h a = [].
Proof.
  intros E. unfold candidates, sides. destruct h, a; simpl; rewrite ?E; reflexivity.
Qed.

Lemma py_lower_or_text (v : pyval) (s : string) :
  py_lower (py_or v (PStr EmptyString)) = Ok s -> s = text_of v.
Proof.
  unfold py_or. destruct (py_truthy v) eqn:T.
  - destruct v; simpl; try discriminate. intros [= <-]. reflexivity.
  - simpl. intros [= <-]. destruct v as [| | | | t | |]; try reflexivity.
    simpl in T. destruct t; [reflexivity | discriminate].
Qed.

Lemma search_strings_text (meta : option TeamMeta) (ab nm sh : string) :
  search_strings meta = Ok (ab, nm, sh) ->
  match meta with
  | Some m => ab = text_of (m_abbr m) /\ nm = text_of (m_name m) /\ sh = text_of (m_short m)
  | None => ab = EmptyString /\ nm = EmptyString /\ sh = EmptyString
  end.
Proof.
  unfold search_strings. destruct meta as [m |].
  - intros H. apply bind_Ok in H as (x & Hx & H). apply bind_Ok in H as (y & Hy & H).
    apply bind_Ok in H as (z & Hz & H). injection H as <- <- <-.
    apply py_lower_or_text in Hx, Hy, Hz. auto.
  - intros [= <- <- <-]. auto.
Qed.

Lemma any_in_empty (desc : string) :
  any_in desc [EmptyString; EmptyString; EmptyString] = false.
Proof. reflexivity. Qed.

(** The last rule, as the code tests it, is the specification's rule (c) on a
    present side, and never holds for an absent one. *)
Lemma text_search_candidates (row : Row) (h a : option TeamMeta)
    (ha hn hs aa an as_ : string) :
  search_strings h = Ok (ha, hn, hs) ->
  search_strings a = Ok (aa, an, as_) ->
  (if any_in (text_of (description row)) [ha; hs; hn] then
     match h with Some m => m_abbr m | None => PStr "HOME" end
   else if any_in (text_of (description row)) [aa; as_; an] then
     match a with Some m => m_abbr m | None => PStr "AWAY" end
   else PStr "Unknown")
  = match candidates named_in_description row h a with
    | label :: _ => label
    | [] => PStr "Unknown"
    end.
Proof.
  intros Hh Ha. apply search_strings_text in Hh, Ha.
  assert (E : forall m, any_in (text_of (description row))
                          [text_of (m_abbr m); text_of (m_short m); text_of (m_name m)]
                        = named_in_description row m) by reflexivity.
  unfold candidates, sides.
  destruct h as [hm |], a as [am |];
    destruct Hh as (-> & -> & ->); destruct Ha as (-> & -> & ->);
    rewrite ?any_in_empty, ?E; cbn [flat_map option_list option_rect app];
    repeat match goal with |- context [named_in_description row ?m] =>
             destruct (named_in_description row m) end;
    reflexivity.
Qed.

Lemma id_of_present (v : pyval) (s : string) :
  pd_notna v = Ok true -> id_text v = Ok s -> id_of v = Some s.
Proof. intros H1 H2. unfold id_of. rewrite H1, H2. reflexivity. Qed.

Lemma id_of_missing (v : pyval) : pd_notna v = Ok false -> id_of v = None.
Proof. intros H. unfold id_of. rewrite H. reflexivity. Qed.

(** The code refines the rule list: whenever it returns, it returns the
    label of the first rule that matches. *)
Lemma infer_foul_team_refines (row : Row) (h a : option TeamMeta) (v : pyval) :
  infer_foul_team row h a = Ok v -> v = resolve_team_spec row h a.
Proof.
  unfold infer_foul_team. intros H. rewrite resolve_team_spec_unfold.
  apply bind_Ok in H as (desc & Hd & H). apply py_lower_or_text in Hd as ->.
  assert (Ea : (if py_truthy (team_abbr row)
                then side_match h a (fun m => py_eq (team_abbr row) (m_abbr m))
                else None) = head (candidates same_abbr row h a)).
  { rewrite <- side_match_candidates. unfold same_abbr.
    destruct (py_truthy (team_abbr row)); simpl; [reflexivity |].
    destruct h, a; reflexivity. }
  rewrite Ea in H.
  destruct (candidates same_abbr row h a) as [| l ls]; simpl in H;
    [| injection H as <-; reflexivity].
  simpl app.
  apply bind_Ok in H as (present & Hp & H). apply bind_Ok in H as (by_id & Hb & H).
  assert (Eb : by_id = head (candidates same_id row h a)).
  { rewrite <- side_match_candidates. destruct present.
    - apply bind_Ok in Hb as (tid & Ht & Hb). injection Hb as <-.
      apply side_match_ext. intros m. unfold same_id.
      rewrite (id_of_present _ _ Hp Ht). reflexivity.
    - injection Hb as <-. rewrite side_match_candidates, candidates_never; [reflexivity |].
      intros m. unfold same_id. rewrite (id_of_missing _ Hp). reflexivity. }
  subst by_id.
  destruct (candidates same_id row h a) as [| l ls]; simpl in H;
    [| injection H as <-; reflexivity].
  simpl app.
  apply bind_Ok in H as ([[ha hn] hs] & Hh & H).
  apply bind_Ok in H as ([[aa an] as_] & Ha & H).
  rewrite <- (text_search_candidates row h a _ _ _ _ _ _ Hh Ha).
  unfold any_in. cbn [existsb].
  repeat match type of H with context [if ?b then _ else _] => destruct b end;
    injection H as <-; reflexivity.
Qed.

Lemma returns_bind {A B : Type} (c : res A) (k : A -> res B) :
  returns c -> (forall a, returns (k a)) -> returns (x ← c; k x).
Proof. intros [a ->] H. exact (H a). Qed.

Lemma lower_text_returns (v : pyval) :
  text_or_none v -> returns (py_lower (py_or v (PStr EmptyString))).
Proof.
  destruct v as [| | | | s | |]; try contradiction; intros _; unfold py_or; simpl.
  - eexists; reflexivity.
  - destruct (negb (s =? EmptyString)%string); eexists; reflexivity.
Qed.

Lemma search_strings_returns (meta : option TeamMeta) :
  well_formed_meta meta -> returns (search_strings meta).
Proof.
  destruct meta as [m |]; [| intros _; eexists; reflexivity].
  intros (Ha & Hn & Hs & _). unfold search_strings.
  apply returns_bind; [apply lower_text_returns; exact Ha | intros x].
  apply returns_bind; [apply lower_text_returns; exact Hn | intros y].
  apply returns_bind; [apply lower_text_returns; exact Hs | intros z].
  eexists; reflexivity.
Qed.

Lemma infer_foul_team_returns (row : Row) (h a : option TeamMeta) :
  well_formed_row row -> well_formed_meta h -> well_formed_meta a ->
  returns (infer_foul_team row h a).
Proof.
  intros (Hd & _ & Hi) Hh Ha. unfold infer_foul_team.
  apply returns_bind; [apply lower_text_returns; exact Hd | intros desc].
  match goal with |- returns (match ?o with _ => _ end) => destruct o end;
    [eexists; reflexivity |].
  assert (Hb : returns (present ← pd_notna (team_id row);
                        if present : bool
                        then tid ← id_text (team_id row);
                             Ok (side_match h a (fun m => String.eqb tid (py_str (m_id m))))
                        else Ok None)).
  { destruct (team_id row); try contradiction; eexists; reflexivity. }
  destruct Hb as [by_id Hb].
  destruct (pd_notna (team_id row)) as [present |]; [| discriminate Hb].
  simpl in Hb. simpl. rewrite Hb. simpl.
  destruct by_id; [eexists; reflexivity |].
  destruct (search_strings_returns h Hh) as [[[ha hn] hs] ->].
  destruct (search_strings_returns a Ha) as [[[aa an] as_] ->]. simpl.
  repeat match goal with |- context [if ?b then _ else _] => destruct b end;
    eexists; reflexivity.
Qed.

(** C7: the team resolution applies the rules of the specification in their
    order, first match wins: (a) the row's team abbreviation equals a side's
    abbreviation, (b) the row's team id equals a side's id, (c) a side's
    abbreviation, short name or full name occurs in the description, case
    ignored, (d) "Unknown".  Whenever infer_foul_team returns, it returns the
    label of the rule list, and on rows and teams made of text it returns. *)
Theorem infer_foul_team_first_match (row : Row) (home_meta away_meta : option TeamMeta) :
  (forall v, infer_foul_team row home_meta away_meta = Ok v ->
             v = resolve_team_spec row home_meta away_meta)
  /\ (well_formed_row row -> well_formed_meta home_meta -> well_formed_meta away_meta ->
      infer_foul_team row home_meta away_meta
      = Ok (resolve_team_spec row home_meta away_meta)).
Proof.
  split; [intros v; apply infer_foul_team_refines |].
  intros Hr Hh Ha.
  destruct (infer_foul_team_returns row home_meta away_meta Hr Hh Ha) as [v Hv].
  rewrite Hv. f_equal. apply infer_foul_team_refines. exact Hv.
Qed.

Lemma infer_foul_team_first_match_witness :
  infer_foul_team (row_with PNone (PStr "13") (PStr "Foul on the Celtics"))
                  (Some lakers) (Some celtics) = Ok (PStr "LAL").
Proof.
  destruct (infer_foul_team_first_match
              (row_with PNone (PStr "13") (PStr "Foul on the Celtics"))
              (Some lakers) (Some celtics)) as [_ H].
  rewrite H; [reflexivity | | |]; repeat split.
Defined.

(** The order of the rules on rows that match several of them. *)
Example infer_foul_team_order :
  infer_foul_team (row_with (PStr "BOS") (PStr "13") (PStr "Lakers foul"))
                  (Some lakers) (Some celtics) = Ok (PStr "BOS")
  /\ infer_foul_team (row_with PNone (PStr "13") (PStr "Celtics foul"))
                     (Some lakers) (Some celtics) = Ok (PStr "LAL")
  /\ infer_foul_team (row_with PNone PNone (PStr "Shooting foul by the CELTICS"))
                     (Some lakers) (Some celtics) = Ok (PStr "BOS")
  /\ infer_foul_team (row_with PNone PNone (PStr "Lakers foul on the Celtics"))
                     (Some lakers) (Some celtics) = Ok (PStr "LAL")
  /\ infer_foul_team (row_with PNone PNone (PStr "Shooting foul"))
                     (Some lakers) (Some celtics) = Ok (PStr "Unknown")
  /\ infer_foul_team (row_with PNone PNone (PStr "Lakers foul")) None None
     = Ok (PStr "Unknown").
Proof. repeat split; vm_compute; reflexivity. Qed.

Lemma candidates_labels (rule : Row -> TeamMeta -> bool) (row : Row)
    (h a : option TeamMeta) (v : pyval) :
  In v (candidates rule row h a) ->
  (exists m, h = Some m /\ v = m_abbr m) \/ (exists m, a = Some m /\ v = m_abbr m).
Proof.
  unfold candidates, sides. intros H. apply in_flat_map in H as (m & Hm & Hv).
  destruct (rule row m); [| destruct Hv].
  destruct Hv as [<- | []].
  destruct h as [hm |], a as [am |]; simpl in Hm;
    repeat match goal with H : _ \/ _ |- _ => destruct H end;
    subst; try contradiction; eauto.
Qed.

(** C10: infer_foul_team returns only the abbreviation of the home team, the
    abbreviation of the away team or "Unknown".  The literals "HOME" and
    "AWAY" of the text search are never returned: for an absent side the
    three search strings are empty, and the test [s and s in desc] rejects an
    empty string. *)
Theorem infer_foul_team_labels :
  (forall (row : Row) (home_meta away_meta : option TeamMeta) (v : pyval),
      infer_foul_team row home_meta away_meta = Ok v ->
      (exists m, home_meta = Some m /\ v = m_abbr m)
      \/ (exists m, away_meta = Some m /\ v = m_abbr m)
      \/ v = PStr "Unknown")
  /\ search_strings None = Ok (EmptyString, EmptyString, EmptyString)
  /\ (forall desc : string, any_in desc [EmptyString; EmptyString; EmptyString] = false).
Proof.
  split; [| split; [reflexivity | intros desc; reflexivity]].
  intros row h a v H. apply infer_foul_team_refines in H. subst v.
  rewrite resolve_team_spec_unfold.
  destruct (candidates same_abbr row h a ++ candidates same_id row h a
            ++ candidates named_in_description row h a)%list as [| l ls] eqn:E;
    [right; right; reflexivity |].
  assert (Hin : In l (candidates same_abbr row h a ++ candidates same_id row h a
                      ++ candidates named_in_description row h a)%list)
    by (rewrite E; left; reflexivity).
  apply in_app_or in Hin as [Hin | Hin]; [| apply in_app_or in Hin as [Hin | Hin]];
    apply candidates_labels in Hin as [Hin | Hin]; auto.
Qed.

Lemma infer_foul_team_labels_witness :
  (exists m, @None TeamMeta = Some m /\ PStr "BOS" = m_abbr m)
  \/ (exists m, Some celtics = Some m /\ PStr "BOS" = m_abbr m)
  \/ PStr "BOS" = PStr "Unknown".
Proof.
  destruct infer_foul_team_labels as [H _].
  apply (H (row_with PNone PNone (PStr "Foul on the Celtics")) None (Some celtics)).
  vm_compute. reflexivity.
Defined.

(** ** extract_foul_rows *)

Lemma foul_record_of_row (home_meta away_meta : option TeamMeta) (home_abbr : pyval)
    (athlete_lookup : gmap string Athlete) (official_names : list pyval)
    (plays_by_id : gmap string pyval) (r : Row) (rec : FoulRecord) :
  foul_record home_meta away_meta home_abbr athlete_lookup official_names plays_by_id r
  = Ok rec ->
  record_of_row r rec.
Proof.
  revert rec.
  match goal with |- forall rec, ?c = Ok rec -> ?P =>
    change (ensures c (fun rec => record_of_row r rec)) end.
  unfold foul_record. ensures_tail. repeat split.
Qed.

Lemma foul_rows_In (df : list Row) (r : Row) :
  In r (foul_rows df) <->
  In r df /\ exists s, description r = PStr s /\ contains "foul" (lower s) = true.
Proof.
  unfold foul_rows. rewrite filter_In. unfold str_contains.
  split; intros [Hin H]; (split; [exact Hin |]).
  - destruct (description r); try discriminate H. eauto.
  - destruct H as (s & -> & H). exact H.
Qed.

Lemma returns_Ok {A : Type} (a : A) : returns (Ok a).
Proof. exists a. reflexivity. Qed.

Lemma int_or_returns (v other : pyval) : int_or_none v -> returns (int_or v other).
Proof. destruct v; try contradiction; intros _; apply returns_Ok. Qed.

Lemma index_plays_well_formed (plays : list pyval) (pbi : gmap string pyval) :
  Forall well_formed_play plays -> index_plays plays = Ok pbi ->
  map_Forall (fun _ p => well_formed_play p) pbi.
Proof.
  unfold index_plays. intros Hall H. apply bind_Ok in H as (kvs & Hk & H).
  injection H as <-. apply for_each_Forall2 in Hk.
  assert (Hv : Forall (fun kv : string * pyval => well_formed_play kv.2) kvs).
  { clear -Hall Hk. induction Hk as [| p kv ps kvs Hp _ IH]; [constructor |].
    apply Forall_cons in Hall as [Hp0 Hall]. constructor; [| exact (IH Hall)].
    apply bind_Ok in Hp as (i & _ & Hp). injection Hp as <-. exact Hp0. }
  clear Hk Hall.
  assert (G : forall m : gmap string pyval,
             map_Forall (fun _ p => well_formed_play p) m ->
             map_Forall (fun _ p => well_formed_play p)
               (foldl (fun (m : gmap string pyval) kv => <[kv.1 := kv.2]> m) m kvs)).
  { induction Hv as [| kv kvs Hkv _ IH]; intros m Hm; [exact Hm |].
    simpl. apply IH. apply map_Forall_insert_2; assumption. }
  apply G. apply map_Forall_empty.
Qed.

Lemma infer_foul_on_returns (r : Row) (h a : option TeamMeta)
    (al : gmap string Athlete) :
  well_formed_row r -> well_formed_meta h -> well_formed_meta a ->
  text_or_none (primary_athlete_id r) ->
  returns (infer_foul_on r h a al).
Proof.
  intros Hr Hh Ha Hp. unfold infer_foul_on.
  apply returns_bind; [apply infer_foul_team_returns; assumption | intros foul_team].
  destruct (primary_athlete_id r); try contradiction; simpl.
  - apply returns_Ok.
  - destruct (al !! s); simpl;
      repeat match goal with |- context [if ?b then _ else _] => destruct b end;
      apply returns_Ok.
Qed.

Lemma foul_record_returns (h a : option TeamMeta) (home_abbr : pyval)
    (al : gmap string Athlete) (names : list pyval) (pbi : gmap string pyval)
    (r : Row) :
  well_formed_meta h -> well_formed_meta a ->
  map_Forall (fun _ p => well_formed_play p) pbi ->
  exportable_row r ->
  returns (foul_record h a home_abbr al names pbi r).
Proof.
  intros Hh Ha Hpbi (Hr & Hper & Hhs & Has & Hp). unfold foul_record.
  apply returns_bind; [apply int_or_returns; exact Hper | intros per].
  apply returns_bind; [apply infer_foul_team_returns; assumption | intros team].
  apply returns_bind; [destruct (primary_athlete_id r); try contradiction; apply returns_Ok
                      | intros present].
  apply returns_bind.
  { destruct present; [| apply returns_Ok].
    destruct (primary_athlete_id r); try contradiction; apply returns_Ok. }
  intros fouler. apply returns_bind.
  { destruct (pbi !! play_id r) as [p |] eqn:E; [| apply returns_Ok].
    specialize (Hpbi _ _ E). simpl in Hpbi.
    destruct p as [| | | | | | d]; try contradiction.
    destruct (py_truthy (PDict d)); [| apply returns_Ok]. simpl.
    unfold well_formed_play in Hpbi.
    destruct (dict_get d "type") as [[| | | | | | [| kv t]]|]; try contradiction;
      apply returns_Ok. }
  intros [subtype descriptor]. apply returns_bind.
  { unfold or_else. destruct (py_truthy fouler); [apply returns_Ok |].
    apply infer_foul_on_returns; assumption. }
  intros fouler'.
  apply returns_bind; [apply int_or_returns; exact Hhs | intros hs].
  apply returns_bind; [apply int_or_returns; exact Has | intros as_].
  apply returns_Ok.
Qed.

Lemma for_each_returns {A B : Type} (f : A -> res B) (l : list A) :
  Forall (fun a => returns (f a)) l -> returns (for_each f l).
Proof.
  induction 1 as [| x l [b Hb] _ [bs Hbs]]; simpl; [apply returns_Ok |].
  rewrite Hb. simpl. rewrite Hbs. apply returns_Ok.
Qed.

(** When the exporter returns, its records are those of the foul rows of the
    timeline, one for one. *)
Lemma extract_foul_rows_Ok (event_id : Z) (data : pyval) (recs : list FoulRecord) :
  extract_foul_rows event_id data = Ok recs ->
  exists df, build_wp_df_from_summary event_id data = Ok df
             /\ Forall2 record_of_row (foul_rows df) recs.
Proof.
  intros H. unfold extract_foul_rows in H.
  apply bind_Ok in H as ([home_meta away_meta] & _ & H).
  apply bind_Ok in H as (athlete_lookup & _ & H).
  apply bind_Ok in H as (officials & _ & H).
  apply bind_Ok in H as (plays & _ & H).
  apply bind_Ok in H as (plays_list & _ & H).
  apply bind_Ok in H as (plays_by_id & _ & H).
  apply bind_Ok in H as (df & Hdf & H).
  exists df. split; [exact Hdf |].
  apply for_each_Forall2 in H.
  induction H as [| r rec rs recs' Hr _ IH]; constructor; [| exact IH].
  exact (foul_record_of_row _ _ _ _ _ _ _ _ Hr).
Qed.

(** The index of the plays the builder made is the one the exporter makes. *)
Lemma build_indexes_plays (event_id : Z) (data : pyval) (df : list Row) :
  build_wp_df_from_summary event_id data = Ok df ->
  exists plays plays_list plays_by_id,
    py_get_default data "plays" (PList []) = Ok plays
    /\ py_iter plays = Ok plays_list
    /\ index_plays plays_list = Ok plays_by_id.
Proof.
  intros H. apply build_Ok in H as (rows & H & _). unfold sample_rows in H.
  apply bind_Ok in H as (wp & _ & H).
  destruct (negb (py_truthy wp)); [discriminate H |].
  apply bind_Ok in H as (plays & Hp & H).
  apply bind_Ok in H as (plays_list & Hl & H).
  apply bind_Ok in H as (plays_by_id & Hi & _).
  eauto 6.
Qed.

Lemma well_formed_plays_list (data plays : pyval) (plays_list : list pyval) :
  well_formed_plays data ->
  py_get_default data "plays" (PList []) = Ok plays ->
  py_iter plays = Ok plays_list ->
  Forall well_formed_play plays_list.
Proof.
  destruct data as [| | | | | | d]; try contradiction. simpl.
  destruct (dict_get d "plays") as [[| | | | | l |] |]; try contradiction.
  - intros H [= <-] [= <-]. exact H.
  - intros _ [= <-] [= <-]. constructor.
Qed.

(** The filter in the specification's words *)

Lemma prefix_app (needle hay : string) :
  String.prefix needle hay = true <-> exists post, hay = needle +:+ post.
Proof.
  revert hay. induction needle as [| c needle IH]; intros hay; simpl.
  - split; [intros _; exists hay; reflexivity | intros _; destruct hay; reflexivity].
  - destruct hay as [| c' hay]; simpl.
    + split; [discriminate | intros [post H]; discriminate].
    + destruct (Ascii.ascii_dec c c') as [<- | NE].
      * rewrite IH. split; intros [post H]; exists post.
        -- subst hay. reflexivity.
        -- injection H as H. exact H.
      * split; [discriminate | intros [post H]; injection H as Hc _; destruct (NE (eq_sym Hc))].
Qed.

(** [needle in hay] holds exactly when [hay] is some text, then [needle],
    then some text. *)
Lemma contains_app (needle hay : string) :
  contains needle hay = true <-> exists pre post, hay = pre +:+ needle +:+ post.
Proof.
  induction hay as [| c hay IH].
  - change (contains needle EmptyString) with (String.prefix needle EmptyString || false).
    rewrite orb_true_iff, prefix_app. split.
    + intros [[post H] | H]; [| discriminate]. exists EmptyString, post. exact H.
    + intros (pre & post & H). left. destruct pre as [| c pre]; [| discriminate].
      exists post. exact H.
  - change (contains needle (String c hay))
      with (String.prefix needle (String c hay) || contains needle hay).
    rewrite orb_true_iff, prefix_app, IH. split.
    + intros [[post H] | (pre & post & H)].
      * exists EmptyString, post. exact H.
      * exists (String c pre), post. rewrite H. reflexivity.
    + intros (pre & post & H). destruct pre as [| c' pre].
      * left. exists post. exact H.
      * right. exists pre, post. injection H as _ H. exact H.
Qed.

(** The filter of the code keeps the rows that mention a foul. *)
Lemma str_contains_mentions (r : Row) :
  str_contains "foul" (description r) = true <-> mentions_foul r.
Proof.
  unfold str_contains, mentions_foul. destruct (description r) as [| | | | s | |];
    try (split; [discriminate | intros (s' & pre & post & H & _); discriminate]).
  change (lower "foul") with "foul". rewrite contains_app. split.
  - intros (pre & post & H). exists s, pre, post. split; [reflexivity | exact H].
  - intros (s' & pre & post & [= <-] & H). exists pre, post. exact H.
Qed.

Lemma foul_rows_exported (df : list Row) (recs : list FoulRecord) :
  Forall2 record_of_row (foul_rows df) recs -> exported df recs.
Proof.
  revert recs. induction df as [| r df IH]; intros recs H; simpl in H.
  - apply Forall2_nil_inv_l in H as ->. constructor.
  - destruct (str_contains "foul" (description r)) eqn:E.
    + apply Forall2_cons_inv_l in H as (rec & recs' & Hr & H & ->).
      apply exported_foul; [apply str_contains_mentions; exact E | exact Hr | exact (IH _ H)].
    + apply exported_other; [| exact (IH _ H)].
      intros M. apply str_contains_mentions in M. congruence.
Qed.

Lemma foul_rows_exportable (df : list Row) :
  Forall (fun r => mentions_foul r -> exportable_row r) df <->
  Forall exportable_row (foul_rows df).
Proof.
  induction df as [| r df IH]; simpl; [split; constructor |].
  rewrite Forall_cons, IH.
  destruct (str_contains "foul" (description r)) eqn:E.
  - rewrite Forall_cons. apply str_contains_mentions in E. tauto.
  - assert (N : ~ mentions_foul r) by (rewrite <- str_contains_mentions; congruence).
    tauto.
Qed.

(** A timeline has as many records as rows that mention a foul. *)
Lemma exported_length (df : list Row) (recs recs' : list FoulRecord) :
  exported df recs -> exported df recs' -> length recs = length recs'.
Proof.
  intros H. revert recs'. induction H as [| r rec df recs M _ _ IH | r df recs N _ IH];
    intros recs' H'; inversion H'; subst; simpl; auto; contradiction.
Qed.

(** C8: the exporter makes exactly one record for each timeline row whose
    description contains "foul", whatever the case of the letters, and none
    for any other row, in the order of the timeline: "Shooting foul by X" is
    matched, "No foul" is matched too, a row without a description is not.
    The rows that count are named by the specification's own reading of the
    filter, [mentions_foul], and the pairing of rows and records by
    [exported].  It does make them: on a summary whose parts are read
    without error and whose foul rows hold text and ints where they are
    expected, the exporter returns. *)
Theorem one_record_per_foul_row :
  (forall (event_id : Z) (data : pyval) (recs : list FoulRecord),
      extract_foul_rows event_id data = Ok recs ->
      exists df, build_wp_df_from_summary event_id data = Ok df
                 /\ exported df recs)
  /\ (forall (event_id : Z) (data : pyval) (home_meta away_meta : option TeamMeta)
             (athlete_lookup : gmap string Athlete) (officials : list (pyval * pyval))
             (df : list Row),
        get_home_away_meta data = Ok (home_meta, away_meta) ->
        build_athlete_lookup_from_summary data = Ok athlete_lookup ->
        get_game_officials_from_summary data = Ok officials ->
        build_wp_df_from_summary event_id data = Ok df ->
        well_formed_meta home_meta -> well_formed_meta away_meta ->
        well_formed_plays data ->
        Forall (fun r => mentions_foul r -> exportable_row r) df ->
        exists recs, extract_foul_rows event_id data = Ok recs
                     /\ exported df recs)
  /\ (forall (df : list Row) (recs recs' : list FoulRecord),
        exported df recs -> exported df recs' -> length recs = length recs')
  /\ (forall r : Row, description r = PStr "Shooting foul by X" -> mentions_foul r)
  /\ (forall r : Row, description r = PStr "No foul" -> mentions_foul r)
  /\ (forall r : Row, description r = PStr "Personal FOUL" -> mentions_foul r)
  /\ (forall r : Row, description r = PNone -> ~ mentions_foul r)
  /\ (forall r : Row, description r = PFloat nan -> ~ mentions_foul r).
Proof.
  assert (First : forall event_id data recs,
             extract_foul_rows event_id data = Ok recs ->
             exists df, build_wp_df_from_summary event_id data = Ok df
                        /\ exported df recs).
  { intros event_id data recs H.
    destruct (extract_foul_rows_Ok event_id data recs H) as (df & Hdf & Hall).
    exists df. split; [exact Hdf | exact (foul_rows_exported df recs Hall)]. }
  split; [exact First |].
  split; [| split; [exact exported_length |]].
  - intros event_id data h a al offs df Hm Hal Hoff Hdf Hh Ha Hplays Hrows.
    apply foul_rows_exportable in Hrows.
    destruct (build_indexes_plays event_id data df Hdf) as (plays & pl & pbi & Hp & Hl & Hi).
    pose proof (index_plays_well_formed pl pbi
                  (well_formed_plays_list data plays pl Hplays Hp Hl) Hi) as Hpbi.
    assert (R : returns (extract_foul_rows event_id data)).
    { unfold extract_foul_rows. rewrite Hm. simpl. rewrite Hal. simpl. rewrite Hoff. simpl.
      rewrite Hp. simpl. rewrite Hl. simpl. rewrite Hi. simpl. rewrite Hdf. simpl.
      apply for_each_returns. eapply Forall_impl; [exact Hrows |].
      intros r Hr. apply foul_record_returns; assumption. }
    destruct R as [recs R]. exists recs. split; [exact R |].
    destruct (First event_id data recs R) as (df' & Hdf' & Hall).
    rewrite Hdf in Hdf'. injection Hdf' as <-. exact Hall.
  - repeat split.
    + intros r H. exists "Shooting foul by X", "shooting ", " by x". split; [exact H | reflexivity].
    + intros r H. exists "No foul", "no ", EmptyString. split; [exact H | reflexivity].
    + intros r H. exists "Personal FOUL", "personal ", EmptyString. split; [exact H | reflexivity].
    + intros r H (s & pre & post & E & _). congruence.
    + intros r H (s & pre & post & E & _). congruence.
Qed.

Lemma one_record_per_foul_row_witness :
  exists df recs,
    build_wp_df_from_summary 401 example_game = Ok df
    /\ extract_foul_rows 401 example_game = Ok recs
    /\ exported df recs
    /\ length df = 3%nat /\ length recs = 2%nat.
Proof.
  destruct one_record_per_foul_row as (H1 & H2 & _).
  assert (E : exists df, build_wp_df_from_summary 401 example_game = Ok df
                         /\ Forall exportable_row (foul_rows df)
                         /\ length df = 3%nat).
  { eexists. split; [vm_compute; reflexivity |].
    split; [vm_compute; repeat constructor | reflexivity]. }
  destruct E as (df & Hdf & Hrows & Hlen).
  apply foul_rows_exportable in Hrows.
  destruct (H2 401 example_game (Some lakers) (Some celtics) ∅ [] df)
    as (recs & Hrecs & _);
    [vm_compute; reflexivity | vm_compute; reflexivity | vm_compute; reflexivity
    | exact Hdf | repeat split | repeat split | vm_compute; repeat constructor
    | exact Hrows |].
  destruct (H1 401 example_game recs Hrecs) as (df' & Hdf' & Hall).
  assert (df' = df) as -> by congruence.
  assert (L : length recs = 2%nat).
  { assert (R : extract_foul_rows 401 example_game = extract_foul_rows 401 example_game)
      by reflexivity.
    rewrite Hrecs in R at 1. vm_compute in R. injection R as ->. reflexivity. }
  exists df, recs. repeat split; assumption.
Defined.

(** The example game end to end: three samples, two records, in timeline
    order; the "No foul" row is exported, the row without a play is not. *)
Example example_game_fouls :
  exists recs, extract_foul_rows 401 example_game = Ok recs
    /\ map (fun rec => (Clock rec, Team rec, WinProb_Current rec, WinProb_Previous rec)) recs
       = [(PStr "11:40", PStr "LAL", PFloat 0.75, PFloat nan);
          (PStr "11:20", PStr "BOS", PFloat 0.25, PFloat 0.75)].
Proof. eexists. split; [vm_compute; reflexivity | reflexivity]. Qed.

(** ** More on parse_game_time *)

(** X1: the elapsed time is continuous over the period boundaries: the end
    of period p (clock "00:00") and the start of period p+1 (the full clock,
    "12:00" up to period 4 and "05:00" from period 5 on) are the same
    instant, between quarters, from regulation into overtime and between
    overtimes. *)
Theorem period_boundaries_meet :
  (forall (p : Z) (c_end c_start : pyval),
      clock_remaining c_end = Some 0 ->
      clock_remaining c_start = Some (period_len (p + 1)) ->
      parse_game_time (PInt p) c_end = parse_game_time (PInt (p + 1)) c_start)
  /\ (forall p : Z, p <= 3 ->
        parse_game_time (PInt p) (PStr "00:00")
        = parse_game_time (PInt (p + 1)) (PStr "12:00"))
  /\ (forall p : Z, 4 <= p ->
        parse_game_time (PInt p) (PStr "00:00")
        = parse_game_time (PInt (p + 1)) (PStr "05:00")).
Proof.
  assert (G : forall (p : Z) (c_end c_start : pyval),
             clock_remaining c_end = Some 0 ->
             clock_remaining c_start = Some (period_len (p + 1)) ->
             parse_game_time (PInt p) c_end = parse_game_time (PInt (p + 1)) c_start).
  { intros p c_end c_start He Hs.
    rewrite (parse_game_time_int p 0 c_end He).
    rewrite (parse_game_time_int (p + 1) _ c_start Hs).
    unfold period_len.
    destruct (Z.leb_spec p 4), (Z.leb_spec (p + 1) 4); do 2 f_equal; lia. }
  split; [exact G |]. split; intros p Hp; apply G; try reflexivity; unfold period_len.
  - destruct (Z.leb_spec (p + 1) 4); [reflexivity | lia].
  - destruct (Z.leb_spec (p + 1) 4); [lia | reflexivity].
Qed.

Lemma period_boundaries_meet_witness :
  parse_game_time (PInt 4) (PStr "00:00") = parse_game_time (PInt 5) (PStr "05:00")
  /\ parse_game_time (PInt 2) (PStr "0:00") = parse_game_time (PInt 3) (PStr "12:00").
Proof.
  destruct period_boundaries_meet as (H & _ & H5). split.
  - apply (H5 4). lia.
  - apply (H 2 (PStr "0:00") (PStr "12:00")); reflexivity.
Defined.

(** The elapsed seconds of an int period and a clock with [r] seconds left. *)
Lemma parse_game_time_start_plus (p r : Z) (clock_str : pyval) :
  clock_remaining clock_str = Some r ->
  exists e, parse_game_time (PInt p) clock_str = Ok (PInt e)
            /\ e = (if p <=? 4 then (p - 1) * 720 else 2880 + (p - 5) * 300)
                   + (period_len p - r).
Proof.
  intros H. rewrite (parse_game_time_int p r clock_str H). eexists. split; [reflexivity |].
  unfold period_len. destruct (p <=? 4); lia.
Qed.

(** X2: the elapsed time never runs backwards.  For int periods from 1 on
    and clocks that show between 0 and the length of their period: a later
    period gives no smaller elapsed time, and within one period less time on
    the clock gives more elapsed time, second for second. *)
Theorem elapsed_is_monotone (p q r1 r2 : Z) (c1 c2 : pyval) :
  1 <= p -> 1 <= q ->
  clock_remaining c1 = Some r1 -> clock_remaining c2 = Some r2 ->
  0 <= r1 <= period_len p -> 0 <= r2 <= period_len q ->
  exists e1 e2,
    parse_game_time (PInt p) c1 = Ok (PInt e1)
    /\ parse_game_time (PInt q) c2 = Ok (PInt e2)
    /\ 0 <= e1 /\ 0 <= e2
    /\ (p < q -> e1 <= e2)
    /\ (p = q -> e2 - e1 = r1 - r2).
Proof.
  intros Hp Hq H1 H2 B1 B2.
  destruct (parse_game_time_start_plus p r1 c1 H1) as (e1 & E1 & V1).
  destruct (parse_game_time_start_plus q r2 c2 H2) as (e2 & E2 & V2).
  exists e1, e2. split; [exact E1 |]. split; [exact E2 |].
  unfold period_len in *.
  destruct (Z.leb_spec p 4), (Z.leb_spec q 4); repeat split; intros; subst; lia.
Qed.

Lemma elapsed_is_monotone_witness :
  exists e1 e2,
    parse_game_time (PInt 4) (PStr "00:03") = Ok (PInt e1)
    /\ parse_game_time (PInt 5) (PStr "04:58") = Ok (PInt e2)
    /\ e1 <= e2.
Proof.
  destruct (elapsed_is_monotone 4 5 3 298 (PStr "00:03") (PStr "04:58"))
    as (e1 & e2 & H1 & H2 & _ & _ & Hlt & _);
    [lia | lia | reflexivity | reflexivity | vm_compute; split; discriminate
    | vm_compute; split; discriminate |].
  exists e1, e2. split; [exact H1 |]. split; [exact H2 |]. apply Hlt. lia.
Defined.

Lemma split_on_length (sep : ascii) (s : string) :
  length (split_on sep s) = S (count_char sep s).
Proof.
  induction s as [| c s IH]; [reflexivity |]. simpl.
  destruct (Ascii.eqb c sep); simpl; [rewrite IH; reflexivity |].
  destruct (split_on sep s); simpl in *; lia.
Qed.

(** X3: a clock text is read only when it has exactly one colon.  A text
    with none, like the "45.3" a clock shows in the last minute, or with two
    or more, gives None for every period, and no exception. *)
Theorem clock_needs_one_colon (period : pyval) (s : string) :
  count_char ":" s <> 1%nat -> parse_game_time period (PStr s) = Ok PNone.
Proof.
  intros H. apply clock_remaining_None_returns. unfold clock_remaining.
  pose proof (split_on_length ":" s) as L.
  destruct (split_on ":" s) as [| a [| b [| c l]]]; try reflexivity.
  simpl in L. congruence.
Qed.

Lemma clock_needs_one_colon_witness :
  parse_game_time (PInt 4) (PStr "45.3") = Ok PNone
  /\ parse_game_time (PInt 1) (PStr "1:02:03") = Ok PNone.
Proof.
  split.
  - apply (clock_needs_one_colon (PInt 4) "45.3"). vm_compute. discriminate.
  - apply (clock_needs_one_colon (PInt 1) "1:02:03"). vm_compute. discriminate.
Defined.

(** ** get_home_away_meta *)

(** X4: without competition data there are no teams: a summary without a
    header, or whose header has no competitions (missing, None or an empty
    list), gives (None, None).  The default of [data.get("header", {})] only
    covers a missing key: a header that is present but None raises
    AttributeError. *)
Theorem no_competitions_no_teams :
  (forall d : list (string * pyval),
      dict_get d "header" = None ->
      get_home_away_meta (PDict d) = Ok (None, None))
  /\ (forall (d hd : list (string * pyval)),
        dict_get d "header" = Some (PDict hd) ->
        dict_get hd "competitions" = None
        \/ dict_get hd "competitions" = Some PNone
        \/ dict_get hd "competitions" = Some (PList []) ->
        get_home_away_meta (PDict d) = Ok (None, None))
  /\ (forall d : list (string * pyval),
        dict_get d "header" = Some PNone ->
        get_home_away_meta (PDict d) = Raise AttributeError).
Proof.
  unfold get_home_away_meta. split; [| split].
  - intros d H. simpl. rewrite H. reflexivity.
  - intros d hd H Hc. simpl. rewrite H. simpl.
    destruct Hc as [-> | [-> | ->]]; reflexivity.
  - intros d H. simpl. rewrite H. reflexivity.
Qed.

Lemma no_competitions_no_teams_witness :
  get_home_away_meta (PDict [("header", PDict [("competitions", PList [])])])
  = Ok (None, None).
Proof.
  destruct no_competitions_no_teams as (_ & H & _).
  apply (H [("header", PDict [("competitions", PList [])])] [("competitions", PList [])]).
  - reflexivity.
  - right. right. reflexivity.
Defined.

Lemma get_home_away_meta_competitors (d : list (string * pyval)) (cs : list pyval) :
  has_competitors d cs ->
  get_home_away_meta (PDict d) = competitors_loop cs None None.
Proof.
  intros (hd & comp & rest & Hh & Hc & Hs). unfold get_home_away_meta. simpl.
  rewrite Hh. simpl. rewrite Hc. simpl. rewrite Hs. simpl.
  destruct cs; reflexivity.
Qed.

(** X5: only the first competition of the header is read: two summaries
    whose first competitions list the same competitors give the same teams,
    whatever else they hold. *)
Theorem first_competition_decides (d1 d2 : list (string * pyval)) (cs : list pyval) :
  has_competitors d1 cs -> has_competitors d2 cs ->
  get_home_away_meta (PDict d1) = get_home_away_meta (PDict d2).
Proof.
  intros H1 H2. rewrite (get_home_away_meta_competitors d1 cs H1).
  rewrite (get_home_away_meta_competitors d2 cs H2). reflexivity.
Qed.

Lemma first_competition_decides_witness :
  get_home_away_meta
    (PDict [("header",
             PDict [("competitions",
                     PList [PDict [("competitors", PList [])]; PStr "ignored"])]);
            ("plays", PList [])])
  = get_home_away_meta
      (PDict [("header", PDict [("competitions", PList [PDict [("competitors", PList [])]])])]).
Proof.
  apply (first_competition_decides _ _ []).
  - eexists _, _, _. repeat split; reflexivity.
  - eexists _, _, _. repeat split; reflexivity.
Defined.

Lemma competitors_loop_step (c : pyval) (rest : list pyval)
    (h a : option TeamMeta) (r : option TeamMeta * option TeamMeta) :
  competitors_loop (c :: rest) h a = Ok r ->
  exists m, meta_of c = Ok m
    /\ competitors_loop rest
         (if flagged "home" c then Some m else h)
         (if flagged "home" c then a else if flagged "away" c then Some m else a)
       = Ok r.
Proof.
  simpl. unfold meta_of, flagged. intros H.
  apply bind_Ok in H as (t & Ht & H). rewrite Ht. simpl.
  apply bind_Ok in H as (m & Hm & H). rewrite Hm. exists m. split; [reflexivity |].
  apply bind_Ok in H as (ha & Hha & H). rewrite Hha.
  destruct (py_eq ha (PStr "home")); [exact H |].
  apply bind_Ok in H as (ha' & Hha' & H). rewrite Hha in Hha'. injection Hha' as <-.
  destruct (py_eq ha (PStr "away")); exact H.
Qed.

Lemma competitors_loop_unflagged (cs : list pyval)
    (h a h' a' : option TeamMeta) :
  competitors_loop cs h a = Ok (h', a') ->
  (Forall (fun c => flagged "home" c = false) cs -> h' = h)
  /\ (Forall (fun c => flagged "away" c = false) cs -> a' = a).
Proof.
  revert h a. induction cs as [| c cs IH]; intros h a H.
  - injection H as <- <-. split; reflexivity.
  - apply competitors_loop_step in H as (m & _ & H). apply IH in H as [Hh Ha].
    split; intros F; apply Forall_cons in F as [Fc F].
    + rewrite (Hh F), Fc. reflexivity.
    + rewrite (Ha F), Fc. destruct (flagged "home" c); reflexivity.
Qed.

(** X6: the teams are chosen by the "homeAway" flag, not by position: when
    the function returns, the home team is the meta of the last competitor
    flagged "home", wherever it stands in the list, and None when none is
    flagged; likewise for the away team, among the competitors not flagged
    "home". *)
Theorem teams_chosen_by_flag (d : list (string * pyval)) (cs : list pyval)
    (home away : option TeamMeta) :
  has_competitors d cs ->
  get_home_away_meta (PDict d) = Ok (home, away) ->
  (forall pre c post, cs = (pre ++ c :: post)%list ->
     flagged "home" c = true ->
     Forall (fun x => flagged "home" x = false) post ->
     exists m, meta_of c = Ok m /\ home = Some m)
  /\ (forall pre c post, cs = (pre ++ c :: post)%list ->
        flagged "home" c = false -> flagged "away" c = true ->
        Forall (fun x => flagged "away" x = false) post ->
        exists m, meta_of c = Ok m /\ away = Some m)
  /\ (Forall (fun x => flagged "home" x = false) cs -> home = None)
  /\ (Forall (fun x => flagged "away" x = false) cs -> away = None).
Proof.
  intros Hd H. rewrite (get_home_away_meta_competitors d cs Hd) in H.
  assert (G : forall pre c post h0 a0,
             competitors_loop (pre ++ c :: post) h0 a0 = Ok (home, away) ->
             exists m h1 a1, meta_of c = Ok m
               /\ competitors_loop post
                    (if flagged "home" c then Some m else h1)
                    (if flagged "home" c then a1
                     else if flagged "away" c then Some m else a1) = Ok (home, away)).
  { induction pre as [| x pre IH]; intros c post h0 a0 E.
    - apply competitors_loop_step in E as (m & Hm & E). eauto 6.
    - simpl in E. apply competitors_loop_step in E as (m & _ & E). eapply IH. exact E. }
  split; [| split; [| split]].
  - intros pre c post -> Fc Fp. apply G in H as (m & h1 & a1 & Hm & H).
    rewrite Fc in H. apply competitors_loop_unflagged in H as [Hh _].
    exists m. split; [exact Hm | exact (Hh Fp)].
  - intros pre c post -> Fc Fa Fp. apply G in H as (m & h1 & a1 & Hm & H).
    rewrite Fc, Fa in H. apply competitors_loop_unflagged in H as [_ Ha].
    exists m. split; [exact Hm | exact (Ha Fp)].
  - intros F. apply competitors_loop_unflagged in H as [Hh _]. exact (Hh F).
  - intros F. apply competitors_loop_unflagged in H as [_ Ha]. exact (Ha F).
Qed.

Lemma teams_chosen_by_flag_witness :
  let lal := team_entry "13" "LAL" "Los Angeles Lakers" "Lakers" in
  let bos := team_entry "2" "BOS" "Boston Celtics" "Celtics" in
  get_home_away_meta (PDict (game_of (competitor "away" bos) (competitor "home" lal)))
  = Ok (Some lakers, Some celtics)
  /\ exists m, meta_of (competitor "home" lal) = Ok m /\ Some lakers = Some m.
Proof.
  intros lal bos. split; [vm_compute; reflexivity |].
  destruct (teams_chosen_by_flag
              (game_of (competitor "away" bos) (competitor "home" lal))
              [competitor "away" bos; competitor "home" lal]
              (Some lakers) (Some celtics)) as (H & _).
  - eexists _, _, _. repeat split; reflexivity.
  - vm_compute. reflexivity.
  - apply (H [competitor "away" bos] (competitor "home" lal) []);
      [reflexivity | vm_compute; reflexivity | constructor].
Defined.

(** ** get_game_officials_from_summary *)

Lemma ensures_bind_with {A B : Type} (c : res A) (k : A -> res B)
    (Q : A -> Prop) (P : B -> Prop) :
  ensures c Q -> (forall a, Q a -> ensures (k a) P) -> ensures (x ← c; k x) P.
Proof.
  intros Hc Hk b Hb. apply bind_Ok in Hb as (a & Ha & Hb). exact (Hk a (Hc a Ha) b Hb).
Qed.

Lemma ensures_for_each {A B : Type} (f : A -> res B) (l : list A) (P : B -> Prop) :
  (forall a, ensures (f a) P) -> ensures (for_each f l) (Forall P).
Proof.
  intros Hf bs H. apply for_each_Forall2 in H.
  induction H as [| a b l bs Hab _ IH]; constructor; [exact (Hf a b Hab) | exact IH].
Qed.

Lemma or_else_truthy (x : pyval) (c : res pyval) :
  ensures c (fun v => py_truthy v = true) ->
  ensures (or_else x c) (fun v => py_truthy v = true).
Proof.
  intros H v. unfold or_else. destruct (py_truthy x) eqn:T; [intros [= <-]; exact T | apply H].
Qed.

Lemma official_entry_named (o : pyval) :
  ensures (official_entry o) (fun e => py_truthy e.1 = true).
Proof.
  unfold official_entry.
  apply ensures_bind; intros dn.
  apply ensures_bind_with with (Q := fun v => py_truthy v = true).
  - apply or_else_truthy. apply ensures_bind; intros fn.
    apply or_else_truthy. apply ensures_bind; intros n.
    apply or_else_truthy. apply ensures_Ok. reflexivity.
  - intros name Hname. ensures_tail. exact Hname.
Qed.

Lemma official_entries_named (offs : pyval) :
  ensures (official_entries offs) (Forall (fun e => py_truthy e.1 = true)).
Proof.
  unfold official_entries. apply ensures_bind; intros l.
  apply ensures_for_each. exact official_entry_named.
Qed.

Lemma or_else_returns (x : pyval) (c : res pyval) :
  returns c -> returns (or_else x c).
Proof. intros H. unfold or_else. destruct (py_truthy x); [apply returns_Ok | exact H]. Qed.

(** The second half of the loop body, from [pos = ...] on, cannot fail on an
    entry that is a dict. *)
Lemma official_entry_position (d : list (string * pyval)) (name : pyval) :
  exists pos',
    (p ← py_get (PDict d) "position";
     pos ← or_else p (r ← py_get (PDict d) "role"; or_else r (Ok (PDict [])));
     pos' ← match pos with
            | PDict _ =>
                dn ← py_get pos "displayName";
                or_else dn (n ← py_get pos "name"; or_else n (Ok (PStr EmptyString)))
            | _ => Ok pos
            end;
     Ok (name, pos')) = Ok (name, pos').
Proof.
  assert (R : returns (p ← py_get (PDict d) "position";
                       pos ← or_else p (r ← py_get (PDict d) "role";
                                        or_else r (Ok (PDict [])));
                       match pos with
                       | PDict _ =>
                           dn ← py_get pos "displayName";
                           or_else dn (n ← py_get pos "name";
                                       or_else n (Ok (PStr EmptyString)))
                       | _ => Ok pos
                       end)).
  { apply returns_bind; [apply returns_Ok | intros p].
    apply returns_bind.
    - apply or_else_returns. apply returns_bind; [apply returns_Ok | intros r].
      apply or_else_returns. apply returns_Ok.
    - intros pos. destruct pos; try apply returns_Ok.
      apply returns_bind; [apply returns_Ok | intros dn].
      apply or_else_returns. apply returns_bind; [apply returns_Ok | intros n].
      apply or_else_returns. apply returns_Ok. }
  destruct R as [pos' R]. exists pos'.
  apply bind_Ok in R as (p & Hp & R). apply bind_Ok in R as (pos & Hpos & R).
  rewrite (bind_Ok_eq _ _ p Hp), (bind_Ok_eq _ _ pos Hpos), (bind_Ok_eq _ _ pos' R).
  reflexivity.
Qed.

(** X8: an official always has a name: whichever source the officials come
    from, the name of every entry is a non-empty value, "Unknown" when the
    entry has none of "displayName", "fullName" and "name". *)
Theorem officials_are_named :
  (forall (data : pyval) (officials : list (pyval * pyval)),
      get_game_officials_from_summary data = Ok officials ->
      Forall (fun e => py_truthy e.1 = true) officials)
  /\ (forall d : list (string * pyval),
        absent (dict_get d "displayName") -> absent (dict_get d "fullName") ->
        absent (dict_get d "name") ->
        exists pos, official_entry (PDict d) = Ok (PStr "Unknown", pos)).
Proof.
  split.
  - intros data. change (ensures (get_game_officials_from_summary data)
                                 (Forall (fun e => py_truthy e.1 = true))).
    unfold get_game_officials_from_summary.
    apply ensures_bind; intros header. apply ensures_bind; intros c0.
    apply ensures_bind_with with (Q := Forall (fun e => py_truthy e.1 = true)).
    { destruct (py_truthy (py_or c0 (PList []))); [| apply ensures_Ok; constructor].
      apply ensures_bind; intros comp. apply ensures_bind; intros o.
      apply ensures_bind; intros comp_offs. apply official_entries_named. }
    intros offs1 H1.
    apply ensures_bind_with with (Q := Forall (fun e => py_truthy e.1 = true)).
    { destruct offs1; [| apply ensures_Ok; exact H1].
      apply ensures_bind; intros gi. apply ensures_bind; intros o.
      apply official_entries_named. }
    intros offs2 H2.
    destruct offs2; [| apply ensures_Ok; exact H2].
    apply ensures_bind; intros b. apply ensures_bind; intros box.
    apply ensures_bind; intros o. apply official_entries_named.
  - intros d Hd Hf Hn.
    destruct (official_entry_position d (PStr "Unknown")) as [pos Hpos].
    exists pos. rewrite <- Hpos. unfold official_entry, py_get. simpl.
    destruct Hd as [-> | ->], Hf as [-> | ->], Hn as [-> | ->]; reflexivity.
Qed.

Lemma officials_are_named_witness :
  exists officials,
    get_game_officials_from_summary officiated_game = Ok officials
    /\ Forall (fun e => py_truthy e.1 = true) officials.
Proof.
  destruct officials_are_named as [H _].
  eexists. split; [vm_compute; reflexivity |].
  apply (H officiated_game). vm_compute. reflexivity.
Defined.

Example officiated_game_officials :
  get_game_officials_from_summary officiated_game
  = Ok [(PStr "Scott Foster", PStr "Referee");
        (PStr "Tony Brothers", PStr "Crew Chief");
        (PStr "Unknown", PStr EmptyString)].
Proof. vm_compute. reflexivity. Qed.

Lemma for_each_cons_result {A B : Type} (f : A -> res B) (a : A) (l : list A) :
  match for_each f (a :: l) with
  | Ok [] => False
  | _ => True
  end.
Proof.
  simpl. destruct (f a); simpl; [| exact I]. destruct (for_each f l); exact I.
Qed.

(** When the first stage of the function yields [c], a non-empty list or an
    exception, that is the function's result. *)
Lemma officials_first_stage {A : Type} (c : res (list A)) (k2 k3 : res (list A)) :
  match c with Ok [] => False | _ => True end ->
  (officials ← c;
   officials ← (match officials with [] => k2 | _ => Ok officials end);
   match officials with [] => k3 | _ => Ok officials end) = c.
Proof. destruct c as [[| e es] |]; intros H; [destruct H | reflexivity | reflexivity]. Qed.

(** X7: officials named at the competition come first.  When the first
    competition lists officials, directly or under "details", the result is
    made of these entries alone: "gameInfo" and "boxscore" are not read, so
    nothing in them, well formed or not, changes the result. *)
Theorem competition_officials_first (d comp : list (string * pyval))
    (o : pyval) (os : list pyval) :
  first_competition d comp ->
  dict_get comp "officials" = Some (PList (o :: os))
  \/ (absent_or_empty (dict_get comp "officials")
      /\ exists dd, dict_get comp "details" = Some (PDict dd)
                    /\ dict_get dd "officials" = Some (PList (o :: os))) ->
  get_game_officials_from_summary (PDict d) = for_each official_entry (o :: os).
Proof.
  intros (hd & rest & Hh & Hc) Ho.
  unfold get_game_officials_from_summary.
  change (py_get_default (PDict d) "header" (PDict []))
    with (Ok (default (PDict []) (dict_get d "header"))).
  rewrite Hh.
  assert (E : (c0 ← py_get (PDict hd) "competitions";
               let comps := py_or c0 (PList []) in
               if py_truthy comps then
                 comp ← py_first comps;
                 o ← py_get comp "officials";
                 comp_offs ← or_else o (d ← py_get comp "details";
                                        o' ← py_get (py_or d (PDict [])) "officials";
                                        or_else o' (Ok (PList [])));
                 official_entries comp_offs
               else Ok []) = for_each official_entry (o :: os)).
  { simpl. rewrite Hc. simpl.
    destruct Ho as [-> | (He & dd & Hd & Hdo)]; [reflexivity |].
    destruct dd as [| [k v] dd']; [discriminate Hdo |].
    destruct He as [-> | [-> | ->]]; simpl; rewrite Hd; simpl in Hdo |- *;
      rewrite Hdo; reflexivity. }
  pose proof (for_each_cons_result official_entry o os) as N.
  rewrite <- E in N |- *.
  exact (officials_first_stage _ _ _ N).
Qed.

Lemma competition_officials_first_witness :
  get_game_officials_from_summary officiated_game
  = Ok [(PStr "Scott Foster", PStr "Referee");
        (PStr "Tony Brothers", PStr "Crew Chief");
        (PStr "Unknown", PStr EmptyString)].
Proof.
  unfold officiated_game.
  rewrite (competition_officials_first officiated_summary officiated_competition
             foster [brothers; PDict []]).
  - vm_compute. reflexivity.
  - eexists _, _. split; reflexivity.
  - left. reflexivity.
Defined.

Lemma py_get_or_dict (g : list (string * pyval)) (k : string) :
  py_get (py_or (PDict g) (PDict [])) k = py_get (PDict g) k.
Proof. destruct g; reflexivity. Qed.

Lemma official_entries_or_list (l : list pyval) :
  official_entries (py_or (PList l) (PList [])) = for_each official_entry l.
Proof. destruct l; reflexivity. Qed.

(** Without officials at the competition the function goes on to the game
    info, and from there to the box score. *)
Lemma officials_after_competition (d : list (string * pyval)) :
  no_competition_officials d ->
  get_game_officials_from_summary (PDict d) =
  (officials ← (gi ← py_get (PDict d) "gameInfo";
                o ← py_get (py_or gi (PDict [])) "officials";
                official_entries (py_or o (PList [])));
   match officials with
   | [] =>
       b ← py_get (PDict d) "boxscore";
       box ← or_else b (b' ← py_get (PDict d) "boxScore"; or_else b' (Ok (PDict [])));
       o ← py_get box "officials";
       official_entries (py_or o (PList []))
   | _ => Ok officials
   end).
Proof.
  intros H. unfold get_game_officials_from_summary.
  change (py_get_default (PDict d) "header" (PDict []))
    with (Ok (default (PDict []) (dict_get d "header"))).
  destruct H as [H | [(hd & H & Hc) | (comp & (hd & rest & H & Hc) & Ho & Hd)]];
    rewrite H; simpl.
  - reflexivity.
  - destruct Hc as [-> | [-> | ->]]; reflexivity.
  - rewrite Hc. simpl.
    destruct Hd as [[Hd | Hd] | (dd & Hd & Hdo)].
    + destruct Ho as [-> | [-> | ->]]; simpl; rewrite Hd; reflexivity.
    + destruct Ho as [-> | [-> | ->]]; simpl; rewrite Hd; reflexivity.
    + assert (E : py_get (py_or (PDict dd) (PDict [])) "officials"
                  = Ok (default PNone (dict_get dd "officials")))
        by (rewrite py_get_or_dict; reflexivity).
      destruct Ho as [-> | [-> | ->]]; simpl or_else; rewrite ?Hd;
        cbn [py_get py_get_default dict_get default mbind res_bind]; rewrite ?Hd;
        destruct Hdo as [Hdo | [Hdo | Hdo]]; rewrite Hdo in E;
        cbv beta iota; unfold or_else; simpl py_truthy; cbv beta iota;
        try (rewrite (bind_Ok_eq _ _ _ E)); try reflexivity.
Qed.

Lemma no_game_info_officials_entries (d : list (string * pyval)) :
  no_game_info_officials d ->
  (gi ← py_get (PDict d) "gameInfo";
   o ← py_get (py_or gi (PDict [])) "officials";
   official_entries (py_or o (PList []))) = Ok [].
Proof.
  intros [[H | H] | (g & H & Ho)]; simpl; rewrite H; simpl; try reflexivity.
  change (match g with [] => false | _ :: _ => true end) with (py_truthy (PDict g)).
  fold (py_or (PDict g) (PDict [])). rewrite py_get_or_dict. simpl.
  destruct Ho as [-> | [-> | ->]]; reflexivity.
Qed.

(** X9: the sources of the officials are tried in a fixed order.  When the
    header names no officials, those of the game info are returned if there
    are any; when the game info has none either, those of the box score,
    under the key "boxscore" or else "boxScore"; and when no source has
    any, the result is the empty list, not an error. *)
Theorem officials_fall_back (d : list (string * pyval)) :
  no_competition_officials d ->
  (forall g o os,
      dict_get d "gameInfo" = Some (PDict g) ->
      dict_get g "officials" = Some (PList (o :: os)) ->
      get_game_officials_from_summary (PDict d) = for_each official_entry (o :: os))
  /\ (forall b kv l,
        no_game_info_officials d ->
        dict_get d "boxscore" = Some (PDict (kv :: b)) ->
        dict_get (kv :: b) "officials" = Some (PList l) ->
        get_game_officials_from_summary (PDict d) = for_each official_entry l)
  /\ (forall b l,
        no_game_info_officials d ->
        absent (dict_get d "boxscore") ->
        dict_get d "boxScore" = Some (PDict b) ->
        dict_get b "officials" = Some (PList l) ->
        get_game_officials_from_summary (PDict d) = for_each official_entry l)
  /\ (no_game_info_officials d ->
      absent (dict_get d "boxscore") -> absent (dict_get d "boxScore") ->
      get_game_officials_from_summary (PDict d) = Ok []).
Proof.
  intros Hc. rewrite (officials_after_competition d Hc).
  split; [| split; [| split]].
  - intros g o os Hg Ho.
    assert (E : (gi ← py_get (PDict d) "gameInfo";
                 o0 ← py_get (py_or gi (PDict [])) "officials";
                 official_entries (py_or o0 (PList [])))
                = for_each official_entry (o :: os)).
    { simpl. rewrite Hg. simpl.
      change (match g with [] => false | _ :: _ => true end) with (py_truthy (PDict g)).
      fold (py_or (PDict g) (PDict [])). rewrite py_get_or_dict. simpl.
      rewrite Ho. reflexivity. }
    rewrite E. pose proof (for_each_cons_result official_entry o os) as N.
    destruct (for_each official_entry (o :: os)) as [[| e es] |];
      [destruct N | reflexivity | reflexivity].
  - intros b kv l Hg Hb Ho. rewrite (no_game_info_officials_entries d Hg).
    simpl. rewrite Hb. simpl in Ho |- *. rewrite Ho. destruct l; reflexivity.
  - intros b l Hg Hb Hb' Ho. rewrite (no_game_info_officials_entries d Hg).
    simpl. destruct Hb as [-> | ->]; simpl; rewrite Hb'; simpl;
      (destruct b as [| kv b]; [discriminate Ho |]); simpl in Ho |- *;
      rewrite Ho; destruct l; reflexivity.
  - intros Hg Hb Hb'. rewrite (no_game_info_officials_entries d Hg).
    simpl. destruct Hb as [-> | ->], Hb' as [-> | ->]; reflexivity.
Qed.

Lemma officials_fall_back_witness :
  get_game_officials_from_summary
    (PDict [("gameInfo", PDict [("officials", PList [PDict [("name", PStr "Ed Malloy")]])]);
            ("boxscore", PDict [("officials", PList [PDict [("name", PStr "Not read")]])])])
  = Ok [(PStr "Ed Malloy", PStr EmptyString)]
  /\ get_game_officials_from_summary (PDict [("plays", PList [])]) = Ok [].
Proof.
  split.
  - pose (d := [("gameInfo", PDict [("officials", PList [PDict [("name", PStr "Ed Malloy")]])]);
                ("boxscore", PDict [("officials", PList [PDict [("name", PStr "Not read")]])])]).
    destruct (officials_fall_back d) as (H & _); [left; reflexivity |].
    change (get_game_officials_from_summary (PDict d) = Ok [(PStr "Ed Malloy", PStr EmptyString)]).
    rewrite (H [("officials", PList [PDict [("name", PStr "Ed Malloy")]])]
               (PDict [("name", PStr "Ed Malloy")]) []); reflexivity.
  - destruct (officials_fall_back [("plays", PList [])]) as (_ & _ & _ & H);
      [left; reflexivity |].
    apply H; [left; left; reflexivity | left; reflexivity | left; reflexivity].
Defined.

(** ** More on extract_foul_rows *)

Lemma three_names_columns (officials : list (pyval * pyval)) :
  three_names officials
  = [official_name officials 0; official_name officials 1; official_name officials 2].
Proof. destruct officials as [| a [| b [| c l]]]; reflexivity. Qed.

Lemma foul_record_columns (home_meta away_meta : option TeamMeta) (home_abbr : pyval)
    (athlete_lookup : gmap string Athlete) (official_names : list pyval)
    (plays_by_id : gmap string pyval) (r : Row) (rec : FoulRecord) :
  foul_record home_meta away_meta home_abbr athlete_lookup official_names plays_by_id r
  = Ok rec ->
  official_columns rec
  = [nth 0 official_names (PStr EmptyString); nth 1 official_names (PStr EmptyString);
     nth 2 official_names (PStr EmptyString)]
  /\ Home_Team rec = home_abbr.
Proof.
  revert rec.
  match goal with |- forall rec, ?c = Ok rec -> ?P =>
    change (ensures c (fun rec => P)) end.
  unfold foul_record. ensures_tail. split; reflexivity.
Qed.

(** X10: every record of a game carries the same three official names and
    the same home team.  The names are those of the first three officials of
    the summary, in their order, with empty strings for the missing ones
    when there are fewer; the home team is the home abbreviation, or an empty
    string without one. *)
Theorem records_carry_officials (event_id : Z) (data : pyval) (recs : list FoulRecord) :
  extract_foul_rows event_id data = Ok recs ->
  exists officials home_meta away_meta,
    get_game_officials_from_summary data = Ok officials
    /\ get_home_away_meta data = Ok (home_meta, away_meta)
    /\ Forall (fun rec =>
                 official_columns rec
                 = [official_name officials 0; official_name officials 1;
                    official_name officials 2]
                 /\ Home_Team rec = home_team_column home_meta) recs.
Proof.
  intros H. unfold extract_foul_rows in H.
  apply bind_Ok in H as ([home_meta away_meta] & Hm & H).
  apply bind_Ok in H as (athlete_lookup & _ & H).
  apply bind_Ok in H as (officials & Ho & H).
  apply bind_Ok in H as (plays & _ & H).
  apply bind_Ok in H as (plays_list & _ & H).
  apply bind_Ok in H as (plays_by_id & _ & H).
  apply bind_Ok in H as (df & _ & H).
  exists officials, home_meta, away_meta. split; [exact Ho |]. split; [exact Hm |].
  apply for_each_Forall2 in H.
  induction H as [| r rec rs recs' Hr _ IH]; constructor; [| exact IH].
  apply foul_record_columns in Hr as [Hc Hh]. rewrite Hc, three_names_columns.
  split; [reflexivity | exact Hh].
Qed.

Lemma records_carry_officials_witness :
  exists recs officials home_meta,
    extract_foul_rows 401 example_game = Ok recs
    /\ Forall (fun rec =>
                 official_columns rec
                 = [official_name officials 0; official_name officials 1;
                    official_name officials 2]
                 /\ Home_Team rec = home_team_column home_meta) recs.
Proof.
  assert (E : exists recs, extract_foul_rows 401 example_game = Ok recs)
    by (eexists; vm_compute; reflexivity).
  destruct E as [recs E].
  destruct (records_carry_officials 401 example_game recs E)
    as (officials & home_meta & away_meta & _ & _ & H).
  exists recs, officials, home_meta. split; [exact E | exact H].
Defined.

(** ** build_athlete_lookup_from_summary *)

Lemma athletes_loop_step (tid tab : pyval) (e : pyval) (rest : list pyval)
    (lk lk' : gmap string Athlete) :
  athletes_loop tid tab (e :: rest) lk = Ok lk' ->
  match entry_key e with
  | None => athletes_loop tid tab rest lk = Ok lk'
  | Some key =>
      exists name, py_truthy name = true
        /\ athletes_loop tid tab rest
             (<[key := {| a_name := name; a_team_id := tid; a_team_abbr := tab |}]> lk)
           = Ok lk'
  end.
Proof.
  simpl. unfold entry_key. intros H.
  apply bind_Ok in H as (a & Ha & H). rewrite Ha.
  apply bind_Ok in H as (aid & Hid & H). rewrite Hid.
  assert (N : forall v, aid = v -> v <> PNone ->
              (dn ← py_get (py_or a (PDict [])) "displayName";
               name ← or_else dn (sn ← py_get (py_or a (PDict [])) "shortName";
                                  or_else sn (fn ← py_get (py_or a (PDict [])) "fullName";
                                              or_else fn (Ok (PStr "Unknown"))));
               athletes_loop tid tab rest
                 (<[py_str aid := {| a_name := name; a_team_id := tid;
                                     a_team_abbr := tab |}]> lk)) = Ok lk' ->
              exists name, py_truthy name = true
                /\ athletes_loop tid tab rest
                     (<[py_str v := {| a_name := name; a_team_id := tid;
                                       a_team_abbr := tab |}]> lk) = Ok lk').
  { intros v <- _ G. apply bind_Ok in G as (dn & _ & G).
    apply bind_Ok in G as (name & Hn & G). exists name. split; [| exact G].
    revert Hn. apply (or_else_truthy dn). apply ensures_bind; intros sn.
    apply or_else_truthy. apply ensures_bind; intros fn.
    apply or_else_truthy. apply ensures_Ok. reflexivity. }
  destruct aid; first [exact H | apply (N _ eq_refl); [discriminate | exact H]].
Qed.

Lemma athletes_loop_named (tid tab : pyval) (entries : list pyval)
    (lk lk' : gmap string Athlete) :
  map_Forall (fun _ a => named a) lk ->
  athletes_loop tid tab entries lk = Ok lk' ->
  map_Forall (fun _ a => named a) lk'.
Proof.
  revert lk. induction entries as [| e rest IH]; intros lk Hlk H.
  - injection H as <-. exact Hlk.
  - apply athletes_loop_step in H. destruct (entry_key e) as [key |].
    + destruct H as (name & Hn & H). eapply IH; [| exact H].
      apply map_Forall_insert_2; [exact Hn | exact Hlk].
    + eapply IH; eassumption.
Qed.

Lemma statistics_loop_named (tid tab : pyval) (stats : list pyval)
    (lk lk' : gmap string Athlete) :
  map_Forall (fun _ a => named a) lk ->
  statistics_loop tid tab stats lk = Ok lk' ->
  map_Forall (fun _ a => named a) lk'.
Proof.
  revert lk. induction stats as [| s rest IH]; intros lk Hlk H.
  - injection H as <-. exact Hlk.
  - simpl in H. apply bind_Ok in H as (a & _ & H). apply bind_Ok in H as (es & _ & H).
    apply bind_Ok in H as (lk1 & H1 & H). eapply IH; [| exact H].
    eapply athletes_loop_named; eassumption.
Qed.

Lemma players_loop_named (blocks : list pyval) (lk lk' : gmap string Athlete) :
  map_Forall (fun _ a => named a) lk ->
  players_loop blocks lk = Ok lk' ->
  map_Forall (fun _ a => named a) lk'.
Proof.
  revert lk. induction blocks as [| b rest IH]; intros lk Hlk H.
  - injection H as <-. exact Hlk.
  - simpl in H. apply bind_Ok in H as (t & _ & H). apply bind_Ok in H as (tid & _ & H).
    apply bind_Ok in H as (ab & _ & H). apply bind_Ok in H as (tab & _ & H).
    apply bind_Ok in H as (s & _ & H). apply bind_Ok in H as (stats & _ & H).
    apply bind_Ok in H as (lk1 & H1 & H). eapply IH; [| exact H].
    eapply statistics_loop_named; eassumption.
Qed.

Lemma build_athlete_lookup_named (data : pyval) (lookup : gmap string Athlete) :
  build_athlete_lookup_from_summary data = Ok lookup ->
  map_Forall (fun _ a => named a) lookup.
Proof.
  unfold build_athlete_lookup_from_summary. intros H.
  apply bind_Ok in H as (b & _ & H). apply bind_Ok in H as (box & _ & H).
  apply bind_Ok in H as (p & _ & H). apply bind_Ok in H as (blocks & _ & H).
  eapply players_loop_named; [apply map_Forall_empty | exact H].
Qed.

(** X11: every athlete of the lookup has a name: whatever the box score
    holds, a lookup that is built gives each athlete a non-empty name,
    "Unknown" at worst.  And a summary without a box score, or whose box
    score has no players, gives the empty lookup, not an error. *)
Theorem athlete_lookup_is_named :
  (forall (data : pyval) (lookup : gmap string Athlete),
      build_athlete_lookup_from_summary data = Ok lookup ->
      map_Forall (fun _ a => named a) lookup)
  /\ (forall d : list (string * pyval),
        absent (dict_get d "boxscore") -> absent (dict_get d "boxScore") ->
        build_athlete_lookup_from_summary (PDict d) = Ok ∅)
  /\ (forall (d : list (string * pyval)) (kv : string * pyval) (b : list (string * pyval)),
        dict_get d "boxscore" = Some (PDict (kv :: b)) ->
        absent_or_empty (dict_get (kv :: b) "players") ->
        build_athlete_lookup_from_summary (PDict d) = Ok ∅).
Proof.
  split; [exact build_athlete_lookup_named |]. split.
  - intros d Hb Hb'. unfold build_athlete_lookup_from_summary. simpl.
    destruct Hb as [-> | ->], Hb' as [-> | ->]; reflexivity.
  - intros d kv b Hb Hp. unfold build_athlete_lookup_from_summary. simpl.
    rewrite Hb. simpl in Hp |- *.
    destruct Hp as [Hp | [Hp | Hp]]; rewrite Hp; reflexivity.
Qed.

Lemma athlete_lookup_is_named_witness :
  exists lookup,
    build_athlete_lookup_from_summary example_boxscore = Ok lookup
    /\ map_Forall (fun _ a => named a) lookup.
Proof.
  destruct athlete_lookup_is_named as [H _].
  assert (E : exists lookup, build_athlete_lookup_from_summary example_boxscore = Ok lookup)
    by (eexists; vm_compute; reflexivity).
  destruct E as [lookup E]. exists lookup. split; [exact E | exact (H _ _ E)].
Defined.

Lemma athletes_loop_other_keys (tid tab : pyval) (entries : list pyval)
    (key : string) (lk lk' : gmap string Athlete) :
  athletes_loop tid tab entries lk = Ok lk' ->
  Forall (fun x => entry_key x <> Some key) entries ->
  lk' !! key = lk !! key.
Proof.
  revert lk. induction entries as [| e rest IH]; intros lk H F.
  - injection H as <-. reflexivity.
  - apply Forall_cons in F as [Fe F]. apply athletes_loop_step in H.
    destruct (entry_key e) as [k |].
    + destruct H as (name & _ & H). rewrite (IH _ H F).
      apply lookup_insert_ne. congruence.
    + exact (IH _ H F).
Qed.

(** X12: the lookup is keyed by the text of the athlete id, and the last
    entry wins: after the loop over the athletes of a team block, an entry
    with an id is found under the text of that id with the id and the
    abbreviation of the block, provided no later entry of the loop has the
    same id text; keys of ids that do not occur are left as they were, and an
    entry without an id adds nothing. *)
Theorem last_athlete_entry_wins (team_id team_abbr : pyval) (pre post : list pyval)
    (e : pyval) (key : string) (lookup lookup' : gmap string Athlete) :
  athletes_loop team_id team_abbr (pre ++ e :: post) lookup = Ok lookup' ->
  (entry_key e = Some key ->
   Forall (fun x => entry_key x <> Some key) post ->
   exists a, lookup' !! key = Some a /\ named a
             /\ a_team_id a = team_id /\ a_team_abbr a = team_abbr)
  /\ (Forall (fun x => entry_key x <> Some key) (pre ++ e :: post) ->
      lookup' !! key = lookup !! key).
Proof.
  intros H. split; [| intros F; exact (athletes_loop_other_keys _ _ _ _ _ _ H F)].
  intros Hk F. revert lookup H.
  induction pre as [| x pre IH]; intros lookup H.
  - simpl in H. apply athletes_loop_step in H. rewrite Hk in H.
    destruct H as (name & Hn & H).
    rewrite (athletes_loop_other_keys _ _ _ key _ _ H F), lookup_insert_eq.
    eexists. split; [reflexivity |]. repeat split. exact Hn.
  - simpl in H. apply athletes_loop_step in H. destruct (entry_key x).
    + destruct H as (name & _ & H). exact (IH _ H).
    + exact (IH _ H).
Qed.

Lemma last_athlete_entry_wins_witness :
  let tatum := PDict [("athlete", PDict [("id", PStr "4065648"); ("shortName", PStr "J. Tatum")])] in
  let again := PDict [("athlete", PDict [("id", PInt 4065648)])] in
  exists lookup a,
    athletes_loop (PStr "2") (PStr "BOS") [tatum; again] ∅ = Ok lookup
    /\ lookup !! "4065648" = Some a /\ a_team_abbr a = PStr "BOS".
Proof.
  intros tatum again.
  assert (E : exists lookup, athletes_loop (PStr "2") (PStr "BOS") [tatum; again] ∅ = Ok lookup)
    by (eexists; vm_compute; reflexivity).
  destruct E as [lookup E].
  destruct (last_athlete_entry_wins (PStr "2") (PStr "BOS") [tatum] [] again "4065648"
              ∅ lookup E) as [H _].
  destruct H as (a & Ha & _ & _ & Hab); [reflexivity | constructor |].
  exists lookup, a. auto.
Defined.

Example example_boxscore_lookup :
  exists lookup,
    build_athlete_lookup_from_summary example_boxscore = Ok lookup
    /\ lookup !! "1966" = Some {| a_name := PStr "LeBron James"; a_team_id := PStr "13";
                                  a_team_abbr := PStr "LAL" |}
    /\ lookup !! "4065648" = Some {| a_name := PStr "Unknown"; a_team_id := PStr "2";
                                     a_team_abbr := PStr "Celtics" |}
    /\ size lookup = 2%nat.
Proof. eexists. split; [vm_compute; reflexivity |]. repeat split; vm_compute; reflexivity. Qed.

(** ** The index of the plays and the join *)

Lemma index_plays_pairs (plays : list pyval) (m : gmap string pyval) :
  index_plays plays = Ok m ->
  exists kvs,
    Forall2 (fun p kv => play_key p = Some kv.1 /\ kv.2 = p) plays kvs
    /\ m = foldl (fun (m : gmap string pyval) kv => <[kv.1 := kv.2]> m) ∅ kvs.
Proof.
  unfold index_plays. intros H. apply bind_Ok in H as (kvs & Hk & H).
  injection H as <-. exists kvs. split; [| reflexivity].
  apply for_each_Forall2 in Hk.
  induction Hk as [| p kv ps kvs Hp _ IH]; constructor; [| exact IH].
  apply bind_Ok in Hp as (i & Hi & Hp). injection Hp as <-.
  unfold play_key. rewrite Hi. split; reflexivity.
Qed.

Lemma foldl_insert_other (kvs : list (string * pyval)) (key : string)
    (m : gmap string pyval) :
  Forall (fun kv : string * pyval => kv.1 <> key) kvs ->
  foldl (fun (m : gmap string pyval) kv => <[kv.1 := kv.2]> m) m kvs !! key = m !! key.
Proof.
  revert m. induction kvs as [| kv kvs IH]; intros m F; [reflexivity |].
  apply Forall_cons in F as [Fk F]. simpl. rewrite (IH _ F).
  apply lookup_insert_ne. exact Fk.
Qed.

(** X13: the plays are indexed by the text of their id, and a later play
    replaces an earlier one with the same id text: in the index that is
    built, the entry of a key is the last play with that key, and a key that
    no play has is absent.  A play without an id is indexed under "None". *)
Theorem index_plays_last_wins (plays : list pyval) (m : gmap string pyval) (key : string) :
  index_plays plays = Ok m ->
  (forall pre p post, plays = (pre ++ p :: post)%list ->
     play_key p = Some key ->
     Forall (fun x => play_key x <> Some key) post ->
     m !! key = Some p)
  /\ (Forall (fun x => play_key x <> Some key) plays -> m !! key = None)
  /\ (forall d, dict_get d "id" = None -> play_key (PDict d) = Some "None").
Proof.
  intros H. apply index_plays_pairs in H as (kvs & Hk & ->).
  assert (Other : forall ps kvs',
            Forall2 (fun p kv => play_key p = Some kv.1 /\ kv.2 = p) ps kvs' ->
            Forall (fun x => play_key x <> Some key) ps ->
            Forall (fun kv : string * pyval => kv.1 <> key) kvs').
  { intros ps kvs' F2. induction F2 as [| p kv ps kvs' [Hp _] _ IH]; intros F; constructor.
    - apply Forall_cons in F as [Fp _]. intros E. apply Fp. rewrite Hp, E. reflexivity.
    - apply Forall_cons in F as [_ F]. exact (IH F). }
  split; [| split].
  - intros pre p post -> Hp Fpost.
    apply Forall2_app_inv_l in Hk as (k1 & k2 & _ & Hk2 & ->).
    apply Forall2_cons_inv_l in Hk2 as (kv & k2' & [Hkv Hv] & Hk2 & ->).
    rewrite foldl_app. simpl.
    rewrite (foldl_insert_other k2' key _ (Other post k2' Hk2 Fpost)).
    assert (kv.1 = key) as -> by congruence.
    rewrite lookup_insert_eq, Hv. reflexivity.
  - intros F. rewrite (foldl_insert_other kvs key ∅ (Other plays kvs Hk F)).
    apply lookup_empty.
  - intros d Hd. unfold play_key. simpl. rewrite Hd. reflexivity.
Qed.

Lemma index_plays_last_wins_witness :
  exists m,
    index_plays [PDict [("id", PInt 12); ("text", PStr "first")];
                 PDict [("id", PStr "12"); ("text", PStr "second")]] = Ok m
    /\ m !! "12" = Some (PDict [("id", PStr "12"); ("text", PStr "second")]).
Proof.
  pose (p1 := PDict [("id", PInt 12); ("text", PStr "first")]).
  pose (p2 := PDict [("id", PStr "12"); ("text", PStr "second")]).
  assert (E : exists m, index_plays [p1; p2] = Ok m) by (eexists; vm_compute; reflexivity).
  destruct E as [m E]. exists m. split; [exact E |].
  destruct (index_plays_last_wins [p1; p2] m "12" E) as (H & _).
  apply (H [p1] p2 []); [reflexivity | reflexivity | constructor].
Defined.

(** ** The join of the samples and the plays *)

Lemma play_key_dict (p : pyval) (key : string) :
  play_key p = Some key -> exists d, p = PDict d.
Proof. destruct p; try discriminate. eauto. Qed.

(** The entry of a key in the index, read back on the list of plays. *)
Lemma index_plays_lookup (plays : list pyval) (m : gmap string pyval) (key : string) :
  index_plays plays = Ok m ->
  match m !! key with
  | None => no_play_has key plays
  | Some p => exists play, p = PDict play /\ last_play_with key plays play
  end.
Proof.
  intros H. apply index_plays_pairs in H as (kvs & Hk & ->).
  revert plays Hk. induction kvs as [| kv kvs IH] using rev_ind; intros plays Hk.
  - apply Forall2_nil_inv_r in Hk as ->. simpl. rewrite lookup_empty. constructor.
  - apply Forall2_app_inv_r in Hk as (ps & ps' & Hps & Hp & ->).
    apply Forall2_cons_inv_r in Hp as (p & ps'' & [Hp Hv] & Hnil & ->).
    apply Forall2_nil_inv_r in Hnil as ->.
    rewrite foldl_app. simpl. specialize (IH ps Hps).
    destruct (decide (kv.1 = key)) as [E | NE].
    + rewrite E, lookup_insert_eq.
      destruct (play_key_dict p kv.1 Hp) as [play ->].
      exists play. split; [congruence |].
      exists ps, []. repeat split; [congruence | constructor].
    + rewrite lookup_insert_ne by exact NE.
      destruct (foldl _ ∅ kvs !! key) as [q |].
      * destruct IH as (play & -> & pre & post & -> & Hkey & Hpost).
        exists play. split; [reflexivity |].
        exists pre, (post ++ [p])%list. rewrite <- app_assoc. simpl.
        repeat split; [exact Hkey |].
        apply Forall_app. split; [exact Hpost |].
        constructor; [| constructor]. rewrite Hp. congruence.
      * apply Forall_app. split; [exact IH |].
        constructor; [| constructor]. rewrite Hp. congruence.
Qed.

Lemma py_get_sub_field (play : list (string * pyval)) (k1 k2 : string) (v : pyval) :
  py_get (py_or (default PNone (dict_get play k1)) (PDict [])) k2 = Ok v ->
  v = sub_field play k1 k2.
Proof.
  unfold sub_field. destruct (dict_get play k1) as [[| b | n | f | s | l | sub] |]; simpl;
    unfold py_or; simpl.
  - intros [= <-]. reflexivity.
  - destruct b; simpl; [discriminate | intros [= <-]; reflexivity].
  - destruct (n =? 0); simpl; [intros [= <-]; reflexivity | discriminate].
  - destruct (f =? 0)%float; simpl; [intros [= <-]; reflexivity | discriminate].
  - destruct (String.eqb s EmptyString); simpl; [intros [= <-]; reflexivity | discriminate].
  - destruct l; simpl; [intros [= <-]; reflexivity | discriminate].
  - destruct sub; simpl; intros [= <-]; reflexivity.
  - intros [= <-]. reflexivity.
Qed.

(** The row of a sample whose id text is a key of the index. *)
Lemma wp_row_matched (pbi : gmap string pyval) (w : pyval)
    (play : list (string * pyval)) (row : RawRow) :
  wp_row pbi w = Ok row ->
  pbi !! play_id row = Some (PDict play) ->
  description row = default PNone (dict_get play "text")
  /\ period row = sub_field play "period" "number"
  /\ clock row = sub_field play "clock" "displayValue"
  /\ home_score row = default PNone (dict_get play "homeScore")
  /\ away_score row = default PNone (dict_get play "awayScore").
Proof.
  unfold wp_row. intros H Hm.
  apply bind_Ok in H as (i & Hi & H).
  assert (Hpid : pbi !! py_str i = Some (PDict play)).
  { revert H Hm. generalize (default (PDict []) (pbi !! py_str i)). intros pl H.
    repeat (apply bind_Ok in H as (? & _ & H)). injection H as <-. simpl. auto. }
  rewrite Hpid in H. cbv zeta in H.
  change (default (PDict []) (Some (PDict play))) with (PDict play) in H.
  apply bind_Ok in H as (hw & _ & H). apply bind_Ok in H as (t & _ & H).
  apply bind_Ok in H as (aw & _ & H).
  apply bind_Ok in H as (p & Hp & H). apply bind_Ok in H as (per & Hper & H).
  apply bind_Ok in H as (c & Hc & H). apply bind_Ok in H as (clk & Hclk & H).
  apply bind_Ok in H as (hs & Hhs & H). apply bind_Ok in H as (as_ & Has & H).
  apply bind_Ok in H as (tm & _ & H). apply bind_Ok in H as (ab & _ & H).
  apply bind_Ok in H as (tab & _ & H). apply bind_Ok in H as (tid & _ & H).
  apply bind_Ok in H as (dn & _ & H). apply bind_Ok in H as (tn & _ & H).
  apply bind_Ok in H as (ps & _ & H). apply bind_Ok in H as (parts & _ & H).
  apply bind_Ok in H as (ids & _ & H). apply bind_Ok in H as (text & Htext & H).
  unfold py_get in Hp, Hc, Hhs, Has, Htext. simpl in Hp, Hc, Hhs, Has, Htext.
  injection Hp as <-. injection Hc as <-. injection Hhs as <-. injection Has as <-.
  injection Htext as <-. injection H as <-. simpl.
  apply py_get_sub_field in Hper, Hclk. repeat split; assumption.
Qed.

Lemma wp_row_unmatched_fields (pbi : gmap string pyval) (w : pyval) (row : RawRow) :
  wp_row pbi w = Ok row ->
  pbi !! play_id row = None ->
  description row = PNone /\ period row = PNone /\ clock row = PNone
  /\ home_score row = PNone /\ away_score row = PNone
  /\ primary_athlete_id row = PNone.
Proof.
  intros H Hm. destruct (wp_row_head pbi w row H) as (d & -> & Hid & _).
  rewrite Hid in Hm. rewrite (wp_row_unmatched pbi d Hm) in H.
  apply bind_Ok in H as (aw & _ & H). injection H as <-. simpl. repeat split.
Qed.

Lemma wp_row_primary (pbi : gmap string pyval) (w : pyval) :
  ensures (wp_row pbi w)
    (fun row => primary_athlete_id row
                = match participants_raw row with a :: _ => PStr a | [] => PNone end).
Proof. unfold wp_row. ensures_tail. reflexivity. Qed.

Lemma sample_rows_Ok (event_id : Z) (data : pyval) (rows : list RawRow) :
  sample_rows event_id data = Ok rows ->
  exists plays pbi samples,
    plays_of data = Ok plays /\ index_plays plays = Ok pbi
    /\ Forall2 (fun w row => wp_row pbi w = Ok row) samples rows.
Proof.
  unfold sample_rows, plays_of. intros H. apply bind_Ok in H as (wp & _ & H).
  destruct (negb (py_truthy wp)); [discriminate |].
  apply bind_Ok in H as (pl & Hpl & H). apply bind_Ok in H as (plays & Hplays & H).
  apply bind_Ok in H as (pbi & Hpbi & H). apply bind_Ok in H as (samples & _ & H).
  exists plays, pbi, samples. rewrite Hpl. simpl. repeat split; try assumption.
  apply for_each_Forall2. exact H.
Qed.

(** The rows of the frame are the rows of the samples, in another order. *)
Lemma build_rows (event_id : Z) (data : pyval) (df : list Row) :
  build_wp_df_from_summary event_id data = Ok df ->
  exists rows, sample_rows event_id data = Ok rows /\ Permutation (map raw df) rows.
Proof.
  intros H. apply build_Ok in H as (rows & Hrows & H). exists rows. split; [exact Hrows |].
  apply frame_of_rows_Ok in H as (ids & col & Hids & _ & ->).
  rewrite with_before_raw.
  rewrite <- (zip_fst rows ids (Forall2_length _ _ _ Hids)) at 2.
  apply Permutation_map. apply sort_values_Permutation.
Qed.

(** X14: the samples are joined to the plays by the text of the ids.  A row
    of the frame whose id text no play has holds no description, period,
    clock, score or athlete; any other row holds the text, the period
    number, the clock display and the scores of the last play with that id
    text. *)
Theorem rows_joined_by_id_text (event_id : Z) (data : pyval) (df : list Row)
    (plays : list pyval) :
  build_wp_df_from_summary event_id data = Ok df ->
  plays_of data = Ok plays ->
  Forall (fun r : Row => joined plays r) df.
Proof.
  intros H Hplays. apply build_rows in H as (rows & Hrows & Hperm).
  apply sample_rows_Ok in Hrows as (plays' & pbi & samples & Hp' & Hpbi & Hrows).
  assert (plays' = plays) as -> by congruence.
  assert (F : Forall (joined plays) rows).
  { apply Forall_forall. intros row Hin.
    apply list_elem_of_lookup in Hin as [i Hi].
    destruct (Forall2_lookup_r _ _ _ _ _ Hrows Hi) as (w & _ & Hw).
    pose proof (index_plays_lookup plays pbi (play_id row) Hpbi) as L.
    destruct (pbi !! play_id row) as [p |] eqn:E.
    - destruct L as (play & -> & Hlast). right. exists play. split; [exact Hlast |].
      exact (wp_row_matched pbi w play row Hw E).
    - left. split; [exact L |]. exact (wp_row_unmatched_fields pbi w row Hw E). }
  apply Forall_forall. intros r Hr.
  rewrite Forall_forall in F. apply F.
  rewrite <- Hperm. apply list_elem_of_fmap. exists r. split; [reflexivity | exact Hr].
Qed.

Lemma rows_joined_by_id_text_witness :
  exists df plays,
    build_wp_df_from_summary 1 mixed_id_game = Ok df
    /\ plays_of mixed_id_game = Ok plays
    /\ Forall (fun r : Row => joined plays r) df.
Proof.
  assert (E : exists df, build_wp_df_from_summary 1 mixed_id_game = Ok df)
    by (eexists; vm_compute; reflexivity).
  assert (P : exists plays, plays_of mixed_id_game = Ok plays)
    by (eexists; vm_compute; reflexivity).
  destruct E as [df E]. destruct P as [plays P]. exists df, plays.
  split; [exact E |]. split; [exact P |].
  exact (rows_joined_by_id_text 1 mixed_id_game df plays E P).
Defined.

(** The example with int play ids and a text sample id: the sample "12"
    takes the text of the second play whose id is 12. *)
Example mixed_id_game_row :
  exists df, build_wp_df_from_summary 1 mixed_id_game = Ok df
    /\ map (fun r : Row => (play_id r, description r)) df
       = [("12", PStr "second play 12")].
Proof. eexists. split; [vm_compute; reflexivity | reflexivity]. Qed.

(** X15: the columns added to the frame stay with their rows through the
    sort.  In every row of the returned frame the int key is the int read
    from the row's own id text and fits 64 bits, the elapsed time is the
    converter's result on the row's own period and clock, and the primary
    athlete is the first of the row's participants, or nothing when there
    are none. *)
Theorem frame_rows_consistent (event_id : Z) (data : pyval) (df : list Row) :
  build_wp_df_from_summary event_id data = Ok df ->
  Forall (fun r : Row =>
            py_int_of_string (play_id r) = Some (play_id_int r)
            /\ - 2 ^ 63 <= play_id_int r < 2 ^ 63
            /\ parse_game_time (period r) (clock r) = Ok (elapsed r)
            /\ primary_athlete_id r
               = match participants_raw r with a :: _ => PStr a | [] => PNone end) df.
Proof.
  intros H. pose proof (build_rows event_id data df H) as (rows' & Hrows' & Hperm).
  apply build_Ok in H as (rows & Hrows & H).
  assert (rows' = rows) as -> by congruence.
  apply sample_rows_Ok in Hrows as (plays & pbi & samples & _ & _ & Hrows).
  apply frame_of_rows_Ok in H as (ids & col & Hids & Hcol & ->).
  apply Forall_forall. intros r Hr. apply list_elem_of_lookup in Hr as [i Hi].
  destruct (with_before_lookup _ _ _ _ Hi) as (rk & Hrk & Hraw & Hkey & Hel & _).
  destruct (Forall2_lookup_l _ _ _ _ _ Hcol Hrk) as (v & Hv & Hparse).
  assert (Hin : rk ∈ zip rows ids).
  { rewrite <- (sort_values_Permutation (zip rows ids)).
    apply list_elem_of_lookup. exists i. exact Hrk. }
  pose proof (Forall2_zip _ _ _ Hids) as Hz. rewrite Forall_forall in Hz.
  specialize (Hz rk Hin). simpl in Hz.
  assert (Hin' : rk.1 ∈ rows).
  { rewrite <- (zip_fst rows ids (Forall2_length _ _ _ Hids)).
    apply list_elem_of_fmap. exists rk. split; [reflexivity | exact Hin]. }
  apply list_elem_of_lookup in Hin' as [j Hj].
  destruct (Forall2_lookup_r _ _ _ _ _ Hrows Hj) as (w & _ & Hw).
  rewrite Hraw, Hkey, Hel. unfold astype_int64 in Hz.
  destruct (py_int_of_string (play_id rk.1)) as [n |]; [| discriminate].
  destruct ((- 2 ^ 63 <=? n) && (n <? 2 ^ 63)) eqn:B; [| discriminate].
  injection Hz as <-. apply andb_true_iff in B as [B1 B2].
  apply Z.leb_le in B1. apply Z.ltb_lt in B2.
  split; [reflexivity |]. split; [lia |]. split.
  - unfold cell. rewrite (nth_lookup_Some _ _ _ _ Hv). exact Hparse.
  - exact (wp_row_primary pbi w rk.1 Hw).
Qed.

Lemma frame_rows_consistent_witness :
  exists df,
    build_wp_df_from_summary 401 example_game = Ok df
    /\ Forall (fun r : Row =>
                 py_int_of_string (play_id r) = Some (play_id_int r)
                 /\ - 2 ^ 63 <= play_id_int r < 2 ^ 63
                 /\ parse_game_time (period r) (clock r) = Ok (elapsed r)
                 /\ primary_athlete_id r
                    = match participants_raw r with a :: _ => PStr a | [] => PNone end) df.
Proof.
  assert (E : exists df, build_wp_df_from_summary 401 example_game = Ok df)
    by (eexists; vm_compute; reflexivity).
  destruct E as [df E]. exists df. split; [exact E |].
  exact (frame_rows_consistent 401 example_game df E).
Defined.
